(** * PULSE-AI stress prediction backend: a shallow embedding

    The development follows the Python sources of the backend:

    - [schemas.py]                     -> [Module Schemas]
    - [services/model_service.py]      -> [Module ModelService]
    - [services/response_formatter.py] -> [Module ResponseFormatter]
    - [app.py]                         -> [Module App]

    Conventions.  Python [float]s are idealised as exact rationals ([Q]);
    timestamps and durations are integers counting microseconds (the
    resolution of [datetime]); a [dict] is a [gmap]; a function that may
    raise returns an [option] (or a sum) and every [try]/[except] of the
    source is the corresponding [match].  Strings are byte strings: the
    case and whitespace functions below act on ASCII and leave every other
    byte alone. *)

From Stdlib Require Import ZArith QArith Qround String Ascii List Bool Lia.
From Stdlib Require Import DecimalString Lqa Sorted.
From stdpp Require Import base option list gmap strings.

Local Open Scope string_scope.
Local Open Scope list_scope.
Local Open Scope Z_scope.

(** ** Numbers *)

Definition Qlt_bool (a b : Q) : bool := negb (Qle_bool b a).

(** Python's [round(x)] on a number: to the nearest integer, ties to the
    even one. *)
Definition round_half_even (q : Q) : Z :=
  let f := Qfloor q in
  match (q - inject_Z f ?= 1 # 2)%Q with
  | Lt => f
  | Gt => f + 1
  | Eq => if Z.even f then f else f + 1
  end.

(** [round(v, 1)]: one decimal place. *)
Definition round1 (v : Q) : Q := (round_half_even (v * 10) # 10)%Q.

(** ** Python values

    The dynamically typed values that travel through the request
    dictionaries.  [VOther] stands for any value of another type (a list, a
    dict, an object). *)
Inductive value : Type :=
| VNone
| VBool (b : bool)
| VInt (z : Z)
| VFloat (q : Q)
| VStr (s : string)
| VOther.

(** [isinstance(v, (int, float))] together with the numeric reading of [v];
    [bool] is a subclass of [int]. *)
Definition num_of (v : value) : option Q :=
  match v with
  | VBool b => Some (inject_Z (if b then 1 else 0))
  | VInt z => Some (inject_Z z)
  | VFloat q => Some q
  | _ => None
  end.

(** [v < c], [v > c], [v >= c] against a numeric literal; [None] is the
    [TypeError] Python raises when [v] is not a number. *)
Definition py_lt (v : value) (c : Q) : option bool :=
  q ← num_of v; Some (Qlt_bool q c).
Definition py_gt (v : value) (c : Q) : option bool :=
  q ← num_of v; Some (Qlt_bool c q).
Definition py_ge (v : value) (c : Q) : option bool :=
  q ← num_of v; Some (Qle_bool c q).

(** [v == s] for a string literal [s]: never raises. *)
Definition py_eq_str (v : value) (s : string) : bool :=
  match v with
  | VStr s' => bool_decide (s' = s)
  | _ => false
  end.

(** ** Strings: [str.strip], [str.lower], [str.title] *)

Definition is_upper (c : ascii) : bool :=
  let n := nat_of_ascii c in (65 <=? n)%nat && (n <=? 90)%nat.
Definition is_lower (c : ascii) : bool :=
  let n := nat_of_ascii c in (97 <=? n)%nat && (n <=? 122)%nat.
Definition is_cased (c : ascii) : bool := is_upper c || is_lower c.
Definition to_lower (c : ascii) : ascii :=
  if is_upper c then ascii_of_nat (nat_of_ascii c + 32) else c.
Definition to_upper (c : ascii) : ascii :=
  if is_lower c then ascii_of_nat (nat_of_ascii c - 32) else c.

(** The ASCII characters for which [str.isspace] holds. *)
Definition is_space (c : ascii) : bool :=
  let n := nat_of_ascii c in
  ((9 <=? n)%nat && (n <=? 13)%nat) || ((28 <=? n)%nat && (n <=? 32)%nat).

Fixpoint str_lower (s : string) : string :=
  match s with
  | EmptyString => EmptyString
  | String c s' => String (to_lower c) (str_lower s')
  end.

(** [str.title]: a cased character is upper-cased when the previous character
    is not cased, and lower-cased otherwise. *)
Fixpoint title_from (prev_cased : bool) (s : string) : string :=
  match s with
  | EmptyString => EmptyString
  | String c s' =>
      if is_cased c
      then String (if prev_cased then to_lower c else to_upper c)
                  (title_from true s')
      else String c (title_from false s')
  end.
Definition str_title (s : string) : string := title_from false s.

Fixpoint lstrip (s : string) : string :=
  match s with
  | EmptyString => EmptyString
  | String c s' => if is_space c then lstrip s' else s
  end.

Fixpoint rstrip (s : string) : string :=
  match s with
  | EmptyString => EmptyString
  | String c s' =>
      match rstrip s' with
      | EmptyString => if is_space c then EmptyString else String c EmptyString
      | r => String c r
      end
  end.

Definition str_strip (s : string) : string := rstrip (lstrip s).

(** [str.replace(a, b)] for single characters. *)
Fixpoint replace_char (a b : ascii) (s : string) : string :=
  match s with
  | EmptyString => EmptyString
  | String c s' =>
      String (if Ascii.eqb c a then b else c) (replace_char a b s')
  end.

(** * schemas.py *)
Module Schemas.

Module GenderEnum.
Inductive t := MALE | FEMALE.
Definition value_of (e : t) : string :=
  match e with MALE => "Male" | FEMALE => "Female" end.
Definition of_string (s : string) : option t :=
  if bool_decide (s = "Male") then Some MALE
  else if bool_decide (s = "Female") then Some FEMALE
  else None.
End GenderEnum.

Module SmokingHabitEnum.
Inductive t := YES | NO.
Definition value_of (e : t) : string :=
  match e with YES => "Yes" | NO => "No" end.
Definition of_string (s : string) : option t :=
  if bool_decide (s = "Yes") then Some YES
  else if bool_decide (s = "No") then Some NO
  else None.
End SmokingHabitEnum.

Module MeditationPracticeEnum.
Inductive t := YES | NO.
Definition value_of (e : t) : string :=
  match e with YES => "Yes" | NO => "No" end.
Definition of_string (s : string) : option t :=
  if bool_decide (s = "Yes") then Some YES
  else if bool_decide (s = "No") then Some NO
  else None.
End MeditationPracticeEnum.

Module ExerciseTypeEnum.
Inductive t := CARDIO | YOGA | STRENGTH_TRAINING | AEROBICS | WALKING | PILATES.
Definition value_of (e : t) : string :=
  match e with
  | CARDIO => "Cardio"
  | YOGA => "Yoga"
  | STRENGTH_TRAINING => "Strength Training"
  | AEROBICS => "Aerobics"
  | WALKING => "Walking"
  | PILATES => "Pilates"
  end.
Definition of_string (s : string) : option t :=
  if bool_decide (s = "Cardio") then Some CARDIO
  else if bool_decide (s = "Yoga") then Some YOGA
  else if bool_decide (s = "Strength Training") then Some STRENGTH_TRAINING
  else if bool_decide (s = "Aerobics") then Some AEROBICS
  else if bool_decide (s = "Walking") then Some WALKING
  else if bool_decide (s = "Pilates") then Some PILATES
  else None.
End ExerciseTypeEnum.

Module StressLevelEnum.
Inductive t := LOW | MEDIUM | HIGH.
Definition value_of (e : t) : string :=
  match e with LOW => "Low" | MEDIUM => "Medium" | HIGH => "High" end.
Definition of_string (s : string) : option t :=
  if bool_decide (s = "Low") then Some LOW
  else if bool_decide (s = "Medium") then Some MEDIUM
  else if bool_decide (s = "High") then Some HIGH
  else None.
End StressLevelEnum.

(** [StressPredictionRequest]: an instance that passed validation.  With
    [use_enum_values] the enum fields hold the enum's string value; the
    enum member is kept here and [value_of] gives that string. *)
Record StressPredictionRequest := {
  age : Z;
  gender : GenderEnum.t;
  sleep_duration : Q;
  sleep_quality : Z;
  physical_activity : Z;
  screen_time : Q;
  caffeine_intake : Z;
  smoking_habit : SmokingHabitEnum.t;
  work_hours : Q;
  travel_time : Q;
  social_interactions : Z;
  meditation_practice : MeditationPracticeEnum.t;
  exercise_type : ExerciseTypeEnum.t
}.

(** The field validators ([@field_validator], run after the [Field]
    constraints): a range check that raises [ValueError], then rounding. *)
Definition validate_sleep_duration (v : Q) : option Q :=
  if Qlt_bool v 4 then None
  else if Qlt_bool 12 v then None
  else Some (round1 v).

Definition validate_work_hours (v : Q) : option Q :=
  if Qlt_bool v 4 then None
  else if Qlt_bool 16 v then None
  else Some (round1 v).

Definition validate_screen_time (v : Q) : option Q :=
  if Qlt_bool v 1 then None
  else if Qlt_bool 14 v then None
  else Some (round1 v).

Definition validate_travel_time (v : Q) : option Q :=
  if Qlt_bool v 0 then None
  else if Qlt_bool 4 v then None
  else Some (round1 v).

(** The kinds of error [pydantic] reports; each kind has a fixed message
    text in the library, so the kind stands for the message. *)
Inductive error_type :=
| missing
| extra_forbidden
| int_type
| float_type
| enum
| greater_than_equal
| less_than_equal
| value_error.

(** One element of [ValidationError.errors()]. *)
Record ErrorDetails := {
  loc : list string;
  msg : error_type;
  input : value
}.

(** [validate_lifestyle_consistency] ([@model_validator(mode='after')]): it
    sees the fields as the field validators left them. *)
Definition validate_lifestyle_consistency (self : StressPredictionRequest)
  : list ErrorDetails + StressPredictionRequest :=
  let total_structured_time :=
    (work_hours self + sleep_duration self + travel_time self)%Q in
  if Qlt_bool 24 total_structured_time
  then inl [ {| loc := []; msg := value_error; input := VOther |} ]
  else inr self.

(** ** Validation of a raw request body

    Constructing a [StressPredictionRequest] from the raw body.  The schema is declarative; the
    reading given to it is pydantic's: every declared field is validated
    on its own (presence, coercion to the declared type, the [ge]/[le]
    bounds, then the field validator), a key that is not a declared field
    is an error (the configuration forbids extras), all these errors are gathered, and
    the model validator runs only when there is none.

    The coercions of a JSON value to [int] and to [float] belong to the
    library and are parameters. *)
Section Validation.

Variable int_validator : value -> option Z.
Variable float_validator : value -> option Q.

Definition int_field (lo hi : Z) (v : value) : error_type + Z :=
  match int_validator v with
  | None => inl int_type
  | Some z =>
      if z <? lo then inl greater_than_equal
      else if hi <? z then inl less_than_equal
      else inr z
  end.

Definition float_field (lo hi : Q) (validator : Q -> option Q) (v : value)
  : error_type + Q :=
  match float_validator v with
  | None => inl float_type
  | Some q =>
      if Qlt_bool q lo then inl greater_than_equal
      else if Qlt_bool hi q then inl less_than_equal
      else match validator q with
           | None => inl value_error
           | Some q' => inr q'
           end
  end.

Definition enum_field {A : Type} (of_string : string -> option A) (v : value)
  : error_type + A :=
  match v with
  | VStr s =>
      match of_string s with
      | Some a => inr a
      | None => inl enum
      end
  | _ => inl enum
  end.

Definition age_field := int_field 18 65.
Definition gender_field := enum_field GenderEnum.of_string.
Definition sleep_duration_field := float_field 4 12 validate_sleep_duration.
Definition sleep_quality_field := int_field 1 5.
Definition physical_activity_field := int_field 0 5.
Definition screen_time_field := float_field 1 14 validate_screen_time.
Definition caffeine_intake_field := int_field 0 8.
Definition smoking_habit_field := enum_field SmokingHabitEnum.of_string.
Definition work_hours_field := float_field 4 16 validate_work_hours.
Definition travel_time_field := float_field 0 4 validate_travel_time.
Definition social_interactions_field := int_field 1 5.
Definition meditation_practice_field :=
  enum_field MeditationPracticeEnum.of_string.
Definition exercise_type_field := enum_field ExerciseTypeEnum.of_string.

Definition err_of {A : Type} (r : error_type + A) : option error_type :=
  match r with inl e => Some e | inr _ => None end.
Definition val_of {A : Type} (r : error_type + A) : option A :=
  match r with inl _ => None | inr a => Some a end.

(** The declared fields, in declaration order, each with the error (if
    any) its validation gives on a value. *)
Definition model_fields : list (string * (value -> option error_type)) :=
  [ ("age", fun v => err_of (age_field v));
    ("gender", fun v => err_of (gender_field v));
    ("sleep_duration", fun v => err_of (sleep_duration_field v));
    ("sleep_quality", fun v => err_of (sleep_quality_field v));
    ("physical_activity", fun v => err_of (physical_activity_field v));
    ("screen_time", fun v => err_of (screen_time_field v));
    ("caffeine_intake", fun v => err_of (caffeine_intake_field v));
    ("smoking_habit", fun v => err_of (smoking_habit_field v));
    ("work_hours", fun v => err_of (work_hours_field v));
    ("travel_time", fun v => err_of (travel_time_field v));
    ("social_interactions", fun v => err_of (social_interactions_field v));
    ("meditation_practice", fun v => err_of (meditation_practice_field v));
    ("exercise_type", fun v => err_of (exercise_type_field v)) ].

Definition field_names : list string := fst <$> model_fields.

(** The error of one declared field: absent, or present and invalid. *)
Definition field_error (raw : gmap string value)
    (f : string * (value -> option error_type)) : option ErrorDetails :=
  match raw !! f.1 with
  | None => Some {| loc := [f.1]; msg := missing; input := VOther |}
  | Some v =>
      match f.2 v with
      | Some e => Some {| loc := [f.1]; msg := e; input := v |}
      | None => None
      end
  end.

Definition field_errors (raw : gmap string value) : list ErrorDetails :=
  omap (field_error raw) model_fields.

(** One error for every key that is not a declared field. *)
Definition extra_errors (raw : gmap string value) : list ErrorDetails :=
  omap (fun kv : string * value =>
          if bool_decide (kv.1 ∈ field_names) then None
          else Some {| loc := [kv.1]; msg := extra_forbidden; input := kv.2 |})
       (map_to_list raw).

(** The validated value of a declared field. *)
Definition field_value {A : Type} (raw : gmap string value) (name : string)
    (field : value -> error_type + A) : option A :=
  v ← raw !! name; val_of (field v).

Definition model_construct (raw : gmap string value)
  : option StressPredictionRequest :=
  age ← field_value raw "age" age_field;
  gender ← field_value raw "gender" gender_field;
  sleep_duration ← field_value raw "sleep_duration" sleep_duration_field;
  sleep_quality ← field_value raw "sleep_quality" sleep_quality_field;
  physical_activity ←
    field_value raw "physical_activity" physical_activity_field;
  screen_time ← field_value raw "screen_time" screen_time_field;
  caffeine_intake ← field_value raw "caffeine_intake" caffeine_intake_field;
  smoking_habit ← field_value raw "smoking_habit" smoking_habit_field;
  work_hours ← field_value raw "work_hours" work_hours_field;
  travel_time ← field_value raw "travel_time" travel_time_field;
  social_interactions ←
    field_value raw "social_interactions" social_interactions_field;
  meditation_practice ←
    field_value raw "meditation_practice" meditation_practice_field;
  exercise_type ← field_value raw "exercise_type" exercise_type_field;
  Some {| age := age; gender := gender; sleep_duration := sleep_duration;
          sleep_quality := sleep_quality;
          physical_activity := physical_activity;
          screen_time := screen_time; caffeine_intake := caffeine_intake;
          smoking_habit := smoking_habit; work_hours := work_hours;
          travel_time := travel_time;
          social_interactions := social_interactions;
          meditation_practice := meditation_practice;
          exercise_type := exercise_type |}.

(** [inl errors] is the raised [ValidationError]. *)
Definition validate_request (raw : gmap string value)
  : list ErrorDetails + StressPredictionRequest :=
  match field_errors raw ++ extra_errors raw with
  | [] =>
      match model_construct raw with
      | Some self => validate_lifestyle_consistency self
      | None => inl []
      end
  | errors => inl errors
  end.

End Validation.

(** [to_model_format]: the dictionary handed to the model service. *)
Definition to_model_format (self : StressPredictionRequest)
  : gmap string value :=
  <["Age" := VInt (age self)]>
  (<["Gender" := VStr (GenderEnum.value_of (gender self))]>
  (<["Sleep_Duration" := VFloat (sleep_duration self)]>
  (<["Sleep_Quality" := VInt (sleep_quality self)]>
  (<["Physical_Activity" := VInt (physical_activity self)]>
  (<["Screen_Time" := VFloat (screen_time self)]>
  (<["Caffeine_Intake" := VInt (caffeine_intake self)]>
  (<["Smoking_Habit" := VStr (SmokingHabitEnum.value_of (smoking_habit self))]>
  (<["Work_Hours" := VFloat (work_hours self)]>
  (<["Travel_Time" := VFloat (travel_time self)]>
  (<["Social_Interactions" := VInt (social_interactions self)]>
  (<["Meditation_Practice" :=
       VStr (MeditationPracticeEnum.value_of (meditation_practice self))]>
  (<["Exercise_Type" := VStr (ExerciseTypeEnum.value_of (exercise_type self))]>
   ∅)))))))))))).

(** ** Response classes *)

Record WellnessTask := {
  task_id : string;
  task_title : string;
  task_type : string;
  task_link : string;
  task_reward : Z
}.

(** [WellnessTask(...)]: [reward] has [ge=0]; [None] is the
    [ValidationError]. *)
Definition WellnessTask_init (id title type link : string) (reward : Z)
  : option WellnessTask :=
  if reward <? 0 then None
  else Some {| task_id := id; task_title := title; task_type := type;
               task_link := link; task_reward := reward |}.

Record WellnessPlan := {
  plan_title : string;
  plan_summary : string;
  plan_tasks : list WellnessTask
}.

Record StressPredictionResponse := {
  level : StressLevelEnum.t;
  score : Z;
  confidence : Q;
  insights : list string;
  recommendations : list string;
  wellness_plan : WellnessPlan;
  model_name : option string;
  model_score : option Q;
  feature_importance : option (list (string * Q))
}.

(** [StressPredictionResponse(...)]: [level] must be the value of a
    [StressLevelEnum] member, [0 <= score <= 100] and
    [0.0 <= confidence <= 1.0]; [None] is the [ValidationError]. *)
Definition StressPredictionResponse_init
    (level : string) (score : Z) (confidence : Q)
    (insights recommendations : list string) (wellness_plan : WellnessPlan)
    (model_name : option string) (model_score : option Q)
    (feature_importance : option (list (string * Q)))
  : option StressPredictionResponse :=
  lvl ← StressLevelEnum.of_string level;
  if (score <? 0) || (100 <? score) then None
  else if Qlt_bool confidence 0 || Qlt_bool 1 confidence then None
  else Some {| level := lvl; score := score; confidence := confidence;
               insights := insights; recommendations := recommendations;
               wellness_plan := wellness_plan; model_name := model_name;
               model_score := model_score;
               feature_importance := feature_importance |}.


End Schemas.

(** * The fitted classifier

    The estimator unpickled from the model artifact is external.  It is
    given by what its methods answer on a feature row: [clf_predict x] is
    [model.predict(x)[0]], [None] when the call raises;
    [clf_predict_proba] is absent when the estimator has no
    [predict_proba], and otherwise gives [model.predict_proba(x)[0]];
    [clf_feature_importances_] is the attribute of that name, when there
    is one. *)
Inductive prediction :=
| PInt (z : Z)
| PStr (s : string)
| POther (repr : string).

Record Classifier := {
  clf_predict : list Q -> option prediction;
  clf_predict_proba : option (list Q -> option (list Q));
  clf_feature_importances_ : option (list Q)
}.

(** [isinstance(prediction, (int, np.integer))] *)
Definition is_integer (p : prediction) : option Z :=
  match p with PInt z => Some z | _ => None end.

(** [str(prediction)] *)
Definition str_of_prediction (p : prediction) : string :=
  match p with
  | PInt z => NilZero.string_of_int (Z.to_int z)
  | PStr s => s
  | POther repr => repr
  end.

(** [float(np.max(probabilities))]; [np.max] raises on an empty array. *)
Definition np_max (probabilities : list Q) : option Q :=
  match probabilities with
  | [] => None
  | p :: ps => Some (foldl (fun m x => if Qlt_bool m x then x else m) p ps)
  end.

(** [float(value)]: the conversion of a string is Python's and is a
    parameter of the functions that use it. *)
Definition py_float (float_of_str : string -> option Q) (v : value)
  : option Q :=
  match v with
  | VBool b => Some (inject_Z (if b then 1 else 0))
  | VInt z => Some (inject_Z z)
  | VFloat q => Some q
  | VStr s => float_of_str s
  | VNone | VOther => None
  end.

(** [d.get(key, default)] *)
Definition dict_get (d : gmap string value) (key : string) (dflt : value)
  : value :=
  default dflt (d !! key).

(** [d[key] = v] on a dictionary kept in insertion order. *)
Fixpoint dict_set {A : Type} (d : list (string * A)) (key : string) (v : A)
  : list (string * A) :=
  match d with
  | [] => [(key, v)]
  | (k, x) :: d' =>
      if bool_decide (k = key) then (k, v) :: d'
      else (k, x) :: dict_set d' key v
  end.

(** [sorted(d.items(), key=lambda x: x[1], reverse=True)]: a stable
    insertion sort, so that entries of equal weight keep their order. *)
Fixpoint insert_desc (x : string * Q) (l : list (string * Q))
  : list (string * Q) :=
  match l with
  | [] => [x]
  | y :: l' =>
      if Qlt_bool x.2 y.2 || Qeq_bool x.2 y.2 then y :: insert_desc x l'
      else x :: l
  end.

Definition sorted_desc (items : list (string * Q)) : list (string * Q) :=
  foldl (fun acc x => insert_desc x acc) [] items.

(** The categorical encodings and the names of the features, shared by
    both model services. *)
Definition expected_features : list string :=
  [ "Age"; "Gender"; "Sleep_Duration"; "Sleep_Quality";
    "Physical_Activity"; "Screen_Time"; "Caffeine_Intake";
    "Smoking_Habit"; "Work_Hours"; "Travel_Time";
    "Social_Interactions"; "Meditation_Practice"; "Exercise_Type" ].

Definition categorical_mappings : gmap string (gmap string Z) :=
  list_to_map
    [ ("Gender", list_to_map [("Male", 0); ("Female", 1)]);
      ("Smoking_Habit", list_to_map [("No", 0); ("Yes", 1)]);
      ("Meditation_Practice", list_to_map [("No", 0); ("Yes", 1)]);
      ("Exercise_Type",
        list_to_map [("Cardio", 0); ("Yoga", 1); ("Strength Training", 2);
                     ("Aerobics", 3); ("Walking", 4); ("Pilates", 5)]) ].

(** One round of the loop of [preprocess_input] over [feature_names]:
    the encoded value of [feature], or [None] where the source returns
    [None]. *)
Definition encode_feature (float_of_str : string -> option Q)
    (input_data : gmap string value) (feature : string) : option Q :=
  match input_data !! feature with
  | Some v =>
      match categorical_mappings !! feature with
      | Some mapping =>
          match v with
          | VStr s =>
              match mapping !! s with
              | Some code => Some (inject_Z code)
              | None => None
              end
          | _ => None
          end
      | None => py_float float_of_str v
      end
  | None => None
  end.

(** The loop itself: [processed_features] grows by one value a round and
    the first failure leaves the function. *)
Fixpoint encode_features (float_of_str : string -> option Q)
    (input_data : gmap string value) (feature_names : list string)
    (processed_features : list Q) : option (list Q) :=
  match feature_names with
  | [] => Some processed_features
  | feature :: rest =>
      match encode_feature float_of_str input_data feature with
      | Some processed_value =>
          encode_features float_of_str input_data rest
            (processed_features ++ [processed_value])
      | None => None
      end
  end.

(** * services/model_service.py *)
Module ModelService.

(** The attributes of a [ModelService] object; an attribute still [None]
    is [None] here. *)
Record t := {
  model : option Classifier;
  feature_names : option (list string);
  model_name : option string;
  model_score : option Q;
  is_loaded : bool
}.

(** The dictionary returned by [predict]. *)
Record result := {
  r_level : string;
  r_score : Z;
  r_confidence : Q;
  r_insights : list string;
  r_recommendations : list string;
  r_model_name : option string;
  r_model_score : option Q;
  r_feature_importance : option (list (string * Q))
}.

Definition reverse_stress_mappings : gmap Z string :=
  list_to_map [(0, "Low"); (1, "Medium"); (2, "High")].

(** [_validate_input_ranges]: the checks in source order, as (feature,
    lower bound, upper bound); a message is kept as the name of the
    feature it is about. *)
Definition range_checks : list (string * Q * Q) :=
  [ ("Age", 18, 65); ("Sleep_Duration", 4, 12); ("Sleep_Quality", 1, 5);
    ("Physical_Activity", 0, 5); ("Screen_Time", 1, 14);
    ("Caffeine_Intake", 0, 8); ("Work_Hours", 4, 16);
    ("Travel_Time", 0, 4); ("Social_Interactions", 1, 5) ]%Q.

Fixpoint validate_ranges (checks : list (string * Q * Q))
    (input_data : gmap string value) (errors : list string) : list string :=
  match checks with
  | [] => errors
  | (name, lo, hi) :: rest =>
      match num_of (dict_get input_data name (VInt 0)) with
      | Some x =>
          validate_ranges rest input_data
            (if Qle_bool lo x && Qle_bool x hi then errors
             else errors ++ [name])
      | None => errors ++ ["Error during validation"]
      end
  end.

Definition _validate_input_ranges (input_data : gmap string value)
  : list string :=
  validate_ranges range_checks input_data [].

Section WithFloat.

Variable float_of_str : string -> option Q.

Definition preprocess_input (self : t) (input_data : gmap string value)
  : option (list Q) :=
  let missing_features :=
    filter (fun feature => input_data !! feature = None) expected_features in
  match missing_features with
  | _ :: _ => None
  | [] =>
      match _validate_input_ranges input_data with
      | _ :: _ => None
      | [] =>
          names ← feature_names self;
          encode_features float_of_str input_data names []
      end
  end.

Definition _get_feature_importance (self : t) : option (list (string * Q)) :=
  if negb (is_loaded self) then None
  else
    match model self ≫= clf_feature_importances_, feature_names self with
    | Some importance_scores, Some names =>
        Some (foldl (fun d '(i, feature_name) =>
                       match importance_scores !! i with
                       | Some w => dict_set d feature_name w
                       | None => d
                       end)
                    [] (imap (fun i n => (i, n)) names))
    | _, _ => None
    end.

(** The body of the [try] of [_generate_insights]; [None] is an exception,
    which the [except] clause turns into the single default insight. *)
Definition generate_insights_body (self : t) (input_data : gmap string value)
    (stress_level : string) : option (list string) :=
  let insights : list string := [] in
  let feature_importance := _get_feature_importance self in
  let sleep_duration := dict_get input_data "Sleep_Duration" (VInt 0) in
  lt6 ← py_lt sleep_duration 6;
  gt9 ← py_gt sleep_duration 9;
  let insights :=
    if lt6 : bool
    then insights ++ ["Your sleep duration is below the recommended 7-9 hours"]
    else if gt9 : bool
    then insights ++
         ["You're getting plenty of sleep, which is great for stress management"]
    else insights in
  let work_hours := dict_get input_data "Work_Hours" (VInt 0) in
  gt10 ← py_gt work_hours 10;
  let insights :=
    if gt10 : bool
    then insights ++ ["Long work hours may be a significant stress factor"]
    else insights in
  let physical_activity := dict_get input_data "Physical_Activity" (VInt 0) in
  lt1 ← py_lt physical_activity 1;
  let insights :=
    if lt1 : bool
    then insights ++ ["Increasing physical activity could help reduce stress"]
    else insights in
  let insights :=
    match feature_importance with
    | Some ((_ :: _) as fi) =>
        match take 3 (sorted_desc fi) with
        | (top_feature_name, _) :: _ =>
            if bool_decide (is_Some (input_data !! top_feature_name))
            then insights ++
                 ["Your " +:+
                  replace_char "_"%char " "%char (str_lower top_feature_name)
                  +:+ " appears to be a key factor in your stress level"]
            else insights
        | [] => insights
        end
    | _ => insights
    end in
  let screen_time := dict_get input_data "Screen_Time" (VInt 0) in
  gt8 ← py_gt screen_time 8;
  let insights :=
    if gt8 : bool
    then insights ++
         ["High screen time may be contributing to your stress levels"]
    else insights in
  let caffeine_intake := dict_get input_data "Caffeine_Intake" (VInt 0) in
  gt3 ← py_gt caffeine_intake 3;
  let insights :=
    if gt3 : bool
    then insights ++
         ["High caffeine intake might be affecting your stress levels"]
    else insights in
  Some (match insights with
        | [] => ["Your current stress level is " +:+ str_lower stress_level]
        | _ => insights
        end).

Definition _generate_insights (self : t) (input_data : gmap string value)
    (stress_level : string) : list string :=
  match generate_insights_body self input_data stress_level with
  | Some insights => insights
  | None => ["Your current stress level is " +:+ str_lower stress_level]
  end.

Definition _generate_recommendations (stress_level : string) : list string :=
  if bool_decide (stress_level = "Low") then
    [ "Maintain your current healthy lifestyle habits";
      "Continue regular physical activity and good sleep schedule" ]
  else if bool_decide (stress_level = "Medium") then
    [ "Focus on improving sleep quality and duration";
      "Incorporate regular physical exercise into your routine";
      "Practice stress-reduction techniques like deep breathing" ]
  else if bool_decide (stress_level = "High") then
    [ "Prioritize getting adequate sleep (7-9 hours per night)";
      "Engage in regular physical activity to reduce stress hormones";
      "Practice meditation or mindfulness exercises daily";
      "Consider speaking with a healthcare professional" ]
  else ["Focus on maintaining a balanced lifestyle"].

(** "Convert prediction to stress level": an integer goes through
    [reverse_stress_mappings], anything else through [str]. *)
Definition stress_level_of (p : prediction) : option string :=
  match is_integer p with
  | Some z => reverse_stress_mappings !! z
  | None => Some (str_of_prediction p)
  end.

(** "Calculate numerical score (0-100)" *)
Definition numerical_score_of (stress_level : string) : Z :=
  if bool_decide (stress_level = "Low") then 25
  else if bool_decide (stress_level = "Medium") then 50
  else if bool_decide (stress_level = "High") then 75
  else 50.

(** The confidence: the largest class probability, or 0.8 without
    [predict_proba]. *)
Definition confidence_of (m : Classifier) (processed_features : list Q)
  : option Q :=
  match clf_predict_proba m with
  | Some predict_proba =>
      probabilities ← predict_proba processed_features;
      np_max probabilities
  | None => Some (8 # 10)%Q
  end.

(** [predict]: [None] both where the source returns [None] and where an
    exception reaches its [except] clause. *)
Definition predict (self : t) (input_data : gmap string value)
  : option result :=
  if negb (is_loaded self) then None
  else
    processed_features ← preprocess_input self input_data;
    m ← model self;
    prediction ← clf_predict m processed_features;
    confidence_score ← confidence_of m processed_features;
    stress_level ← stress_level_of prediction;
    let numerical_score := numerical_score_of stress_level in
    let insights := _generate_insights self input_data stress_level in
    let recommendations := _generate_recommendations stress_level in
    let feature_importance := _get_feature_importance self in
    Some {| r_level := stress_level;
            r_score := numerical_score;
            r_confidence := confidence_score;
            r_insights := insights;
            r_recommendations := recommendations;
            r_model_name := model_name self;
            r_model_score := model_score self;
            r_feature_importance := feature_importance |}.

End WithFloat.

End ModelService.

(** * services/response_formatter.py *)
Module ResponseFormatter.

Import Schemas.

(** A wellness task template: the dictionary with the keys [title],
    [type], [link] and [reward]. *)
Record task_data := {
  td_title : string;
  td_type : string;
  td_link : string;
  td_reward : Z
}.

(** [_initialize_wellness_templates] *)
Definition wellness_task_templates (l : StressLevelEnum.t) : list task_data :=
  match l with
  | StressLevelEnum.LOW =>
      [ {| td_title := "Maintain Current Healthy Habits";
           td_type := "lifestyle";
           td_link := "/wellness/habit-maintenance"; td_reward := 10 |};
        {| td_title := "Weekly Stress Check-in"; td_type := "tool";
           td_link := "/tools/stress-tracker"; td_reward := 15 |} ]
  | StressLevelEnum.MEDIUM =>
      [ {| td_title := "Deep Breathing Exercises"; td_type := "tool";
           td_link := "/tools/breathing-exercises"; td_reward := 20 |};
        {| td_title := "Improve Sleep Hygiene"; td_type := "article";
           td_link := "/articles/sleep-hygiene"; td_reward := 25 |};
        {| td_title := "Regular Exercise Routine"; td_type := "lifestyle";
           td_link := "/wellness/exercise-plan"; td_reward := 30 |} ]
  | StressLevelEnum.HIGH =>
      [ {| td_title := "Immediate Stress Relief Techniques";
           td_type := "tool";
           td_link := "/tools/emergency-calm"; td_reward := 35 |};
        {| td_title := "Professional Support Resources";
           td_type := "article";
           td_link := "/articles/professional-help"; td_reward := 40 |};
        {| td_title := "Comprehensive Lifestyle Changes";
           td_type := "lifestyle";
           td_link := "/wellness/lifestyle-overhaul"; td_reward := 45 |};
        {| td_title := "Daily Meditation Practice"; td_type := "tool";
           td_link := "/tools/meditation-program"; td_reward := 30 |} ]
  end.

(** [_initialize_recommendation_templates] *)
Definition recommendation_templates (l : StressLevelEnum.t) : list string :=
  match l with
  | StressLevelEnum.LOW =>
      [ "Maintain your current healthy lifestyle habits";
        "Continue regular physical activity and good sleep schedule";
        "Keep practicing stress-prevention techniques" ]
  | StressLevelEnum.MEDIUM =>
      [ "Focus on improving sleep quality and duration";
        "Incorporate regular physical exercise into your routine";
        "Practice stress-reduction techniques like deep breathing";
        "Consider time management strategies to reduce daily pressure" ]
  | StressLevelEnum.HIGH =>
      [ "Prioritize getting adequate sleep (7-9 hours per night)";
        "Engage in regular physical activity to reduce stress hormones";
        "Practice meditation or mindfulness exercises daily";
        "Consider speaking with a healthcare professional";
        "Implement immediate stress-relief techniques";
        "Review and adjust your daily schedule to reduce pressure" ]
  end.

(** [_categorize_stress_level].  Nothing in the [try] can raise, so its
    [except] clause has no counterpart. *)
Definition _categorize_stress_level (raw_level : value) : StressLevelEnum.t :=
  let otherwise :=
    match num_of raw_level with
    | Some n =>
        if Qle_bool n (33 # 100) then StressLevelEnum.LOW
        else if Qle_bool n (66 # 100) then StressLevelEnum.MEDIUM
        else StressLevelEnum.HIGH
    | None => StressLevelEnum.MEDIUM
    end in
  match raw_level with
  | VStr s =>
      let level_str := str_title (str_strip s) in
      match StressLevelEnum.of_string level_str with
      | Some l => l
      | None => otherwise
      end
  | _ => otherwise
  end.

(** [_calculate_numerical_score], on the [confidence] entry of the
    prediction result. *)
Definition _calculate_numerical_score (stress_level : StressLevelEnum.t)
    (confidence : Q) : Z :=
  let base_score : Q :=
    match stress_level with
    | StressLevelEnum.LOW => 25%Q
    | StressLevelEnum.MEDIUM => 50%Q
    | StressLevelEnum.HIGH => 75%Q
    end in
  let adjusted_score : Q :=
    match stress_level with
    | StressLevelEnum.LOW =>
        let x := (base_score - (1 - confidence) * 15)%Q in
        if Qlt_bool x 10 then 10%Q else x
    | StressLevelEnum.HIGH =>
        let x := (base_score + (1 - confidence) * 15)%Q in
        if Qlt_bool 90 x then 90%Q else x
    | StressLevelEnum.MEDIUM => base_score
    end in
  round_half_even adjusted_score.

(** [_generate_feature_insight] *)
Definition _generate_feature_insight (feature_name : string)
    (feature_value : option value) : option string :=
  let at_least (c : Q) : bool :=
    match feature_value ≫= num_of with
    | Some x => Qle_bool c x
    | None => false
    end in
  if bool_decide (feature_name = "Sleep_Duration") then
    Some (if at_least 3%Q
          then "Your adequate sleep duration is helping maintain lower stress levels"
          else "Your sleep duration appears to be a key factor affecting your stress levels")
  else if bool_decide (feature_name = "Work_Hours") then
    Some (if at_least 8%Q
          then "Long work hours appear to be a major contributor to your stress levels"
          else "Your work hours are a significant factor in your stress assessment")
  else if bool_decide (feature_name = "Physical_Activity") then
    Some (if at_least 3%Q
          then "Your active lifestyle is positively influencing your stress management"
          else "Your physical activity level is significantly impacting your stress levels")
  else if bool_decide (feature_name = "Screen_Time") then
    Some (if at_least 8%Q
          then "High screen time may be contributing to your elevated stress levels"
          else "Screen time usage appears to be affecting your stress levels")
  else if bool_decide (feature_name = "Sleep_Quality") then
    Some (if at_least 3%Q
          then "Good sleep quality is helping you manage stress effectively"
          else "Sleep quality is a key factor in your stress level assessment")
  else None.

(** [a + b] on two values: the sum of two numbers; a sum involving
    anything else either raises or is not a number, and the comparison
    that follows raises. *)
Definition py_add_num (a b : value) : option Q :=
  x ← num_of a; y ← num_of b; Some (x + y)%Q.

(** The body of the [try] of [_generate_lifestyle_insights]. *)
Definition lifestyle_insights_body (input_data : gmap string value)
  : option (list string) :=
  let insights : list string := [] in
  let sleep_duration := dict_get input_data "Sleep_Duration" (VInt 0) in
  lt6 ← py_lt sleep_duration 6;
  gt9 ← py_gt sleep_duration 9;
  let insights :=
    if lt6 : bool
    then insights ++ ["Your sleep duration is below the recommended 7-9 hours"]
    else if gt9 : bool
    then insights ++
         ["You're getting plenty of sleep, which supports stress management"]
    else insights in
  let work_hours := dict_get input_data "Work_Hours" (VInt 0) in
  let travel_time := dict_get input_data "Travel_Time" (VInt 0) in
  total_work_time ← py_add_num work_hours travel_time;
  let insights :=
    if Qlt_bool 10 total_work_time
    then insights ++
         ["Your total work and commute time may be impacting your stress levels"]
    else insights in
  let physical_activity := dict_get input_data "Physical_Activity" (VInt 0) in
  let exercise_type := dict_get input_data "Exercise_Type" (VStr "") in
  lt2 ← py_lt physical_activity 2;
  ge4 ← py_ge physical_activity 4;
  insights ←
    (if lt2 : bool
     then Some (insights ++
                ["Increasing physical activity could help reduce stress"])
     else if ge4 : bool
     then match exercise_type with
          | VStr s =>
              Some (insights ++
                    ["Your regular " +:+ str_lower s +:+
                     " routine is excellent for stress management"])
          | _ => None
          end
     else Some insights);
  let screen_time := dict_get input_data "Screen_Time" (VInt 0) in
  gt10 ← py_gt screen_time 10;
  let insights :=
    if gt10 : bool
    then insights ++
         ["High screen time may be contributing to your stress levels"]
    else insights in
  let meditation := dict_get input_data "Meditation_Practice" (VStr "No") in
  let insights :=
    if py_eq_str meditation "Yes"
    then insights ++
         ["Your meditation practice is a valuable tool for stress management"]
    else insights in
  Some insights.

Definition _generate_lifestyle_insights (input_data : gmap string value)
  : list string :=
  default [] (lifestyle_insights_body input_data).

(** The body of the [try] of [_generate_level_specific_insights]. *)
Definition level_specific_insights_body (stress_level : StressLevelEnum.t)
    (input_data : gmap string value) : option (list string) :=
  match stress_level with
  | StressLevelEnum.LOW =>
      Some ["You're managing stress well - keep up the good work!"]
  | StressLevelEnum.MEDIUM =>
      Some ["There's room for improvement in your stress management"]
  | StressLevelEnum.HIGH =>
      let insights :=
        ["Your stress levels indicate a need for immediate attention"] in
      let caffeine := dict_get input_data "Caffeine_Intake" (VInt 0) in
      gt3 ← py_gt caffeine 3;
      let insights :=
        if gt3 : bool
        then insights ++
             ["High caffeine intake may be exacerbating your stress"]
        else insights in
      let social_interactions :=
        dict_get input_data "Social_Interactions" (VInt 0) in
      lt2 ← py_lt social_interactions 2;
      let insights :=
        if lt2 : bool
        then insights ++
             ["Limited social interactions may be affecting your stress levels"]
        else insights in
      Some insights
  end.

Definition _generate_level_specific_insights
    (stress_level : StressLevelEnum.t) (input_data : gmap string value)
  : list string :=
  default [] (level_specific_insights_body stress_level input_data).

(** The loop of [_generate_enhanced_insights] over the three most
    important features. *)
Fixpoint feature_insights (input_data : gmap string value)
    (top_features : list (string * Q)) (insights : list string)
  : list string :=
  match top_features with
  | [] => insights
  | (feature_name, importance) :: rest =>
      let insights :=
        if Qlt_bool (1 # 10) importance
        then match _generate_feature_insight feature_name
                     (input_data !! feature_name) with
             | Some insight => insights ++ [insight]
             | None => insights
             end
        else insights in
      feature_insights input_data rest insights
  end.

(** [_generate_enhanced_insights]; [feature_importance] is [None] or a
    dictionary, an empty one being as good as none. *)
Definition _generate_enhanced_insights (input_data : gmap string value)
    (stress_level : StressLevelEnum.t)
    (feature_importance : option (list (string * Q))) : list string :=
  let insights :=
    match feature_importance with
    | Some ((_ :: _) as fi) =>
        feature_insights input_data (take 3 (sorted_desc fi)) []
    | _ => []
    end in
  let insights := insights ++ _generate_lifestyle_insights input_data in
  let insights :=
    insights ++ _generate_level_specific_insights stress_level input_data in
  let insights :=
    match insights with
    | [] => ["Your current stress level is " +:+
             str_lower (StressLevelEnum.value_of stress_level)]
    | _ => insights
    end in
  take 5 insights.

(** The body of the [try] of [_generate_personal_recommendations]. *)
Definition personal_recommendations_body (input_data : gmap string value)
  : option (list string) :=
  let recommendations : list string := [] in
  let sleep_duration := dict_get input_data "Sleep_Duration" (VInt 0) in
  let sleep_quality := dict_get input_data "Sleep_Quality" (VInt 0) in
  lt7 ← py_lt sleep_duration 7;
  let recommendations :=
    if lt7 : bool
    then recommendations ++ ["Aim for 7-9 hours of sleep per night"]
    else recommendations in
  lt3 ← py_lt sleep_quality 3;
  let recommendations :=
    if lt3 : bool
    then recommendations ++
         ["Focus on improving sleep quality through better sleep hygiene"]
    else recommendations in
  let physical_activity := dict_get input_data "Physical_Activity" (VInt 0) in
  let exercise_type := dict_get input_data "Exercise_Type" (VStr "") in
  lt2 ← py_lt physical_activity 2;
  let recommendations :=
    if lt2 : bool
    then recommendations ++
         ["Start with 30 minutes of daily physical activity"]
    else if py_eq_str exercise_type "Walking" || py_eq_str exercise_type "Yoga"
    then recommendations ++
         ["Consider adding more vigorous exercise to your routine"]
    else recommendations in
  let work_hours := dict_get input_data "Work_Hours" (VInt 0) in
  gt10 ← py_gt work_hours 10;
  let recommendations :=
    if gt10 : bool
    then recommendations ++ ["Try to establish better work-life boundaries"]
    else recommendations in
  let screen_time := dict_get input_data "Screen_Time" (VInt 0) in
  gt8 ← py_gt screen_time 8;
  let recommendations :=
    if gt8 : bool
    then recommendations ++
         ["Consider reducing screen time, especially before bed"]
    else recommendations in
  let meditation := dict_get input_data "Meditation_Practice" (VStr "No") in
  let recommendations :=
    if py_eq_str meditation "No"
    then recommendations ++
         ["Try incorporating 10 minutes of daily meditation or mindfulness"]
    else recommendations in
  Some recommendations.

Definition _generate_personal_recommendations
    (input_data : gmap string value) : list string :=
  default [] (personal_recommendations_body input_data).

(** "Remove duplicates while preserving order": the loop with its [seen]
    set and its [unique_recommendations] list. *)
Fixpoint unique_loop (recommendations : list string) (seen : gset string)
    (unique_recommendations : list string) : list string :=
  match recommendations with
  | [] => unique_recommendations
  | rec :: rest =>
      if bool_decide (rec ∈ seen)
      then unique_loop rest seen unique_recommendations
      else unique_loop rest ({[rec]} ∪ seen) (unique_recommendations ++ [rec])
  end.

(** [_generate_personalized_recommendations] *)
Definition _generate_personalized_recommendations
    (stress_level : StressLevelEnum.t) (input_data : gmap string value)
  : list string :=
  let recommendations : list string := [] in
  let base_recommendations := recommendation_templates stress_level in
  let recommendations := recommendations ++ base_recommendations in
  let personal_recommendations :=
    _generate_personal_recommendations input_data in
  let recommendations := recommendations ++ personal_recommendations in
  let unique_recommendations := unique_loop recommendations ∅ [] in
  take 6 unique_recommendations.

(** The body of the [try] of [_generate_personal_tasks]. *)
Definition personal_tasks_body (input_data : gmap string value)
  : option (list task_data) :=
  let tasks : list task_data := [] in
  let sleep_duration := dict_get input_data "Sleep_Duration" (VInt 0) in
  lt7 ← py_lt sleep_duration 7;
  let tasks :=
    if lt7 : bool
    then tasks ++ [ {| td_title := "Establish Better Sleep Schedule";
                       td_type := "lifestyle";
                       td_link := "/wellness/sleep-schedule";
                       td_reward := 25 |} ]
    else tasks in
  let physical_activity := dict_get input_data "Physical_Activity" (VInt 0) in
  lt2 ← py_lt physical_activity 2;
  let tasks :=
    if lt2 : bool
    then tasks ++ [ {| td_title := "Start Daily Walking Routine";
                       td_type := "tool";
                       td_link := "/tools/walking-tracker";
                       td_reward := 20 |} ]
    else tasks in
  let meditation := dict_get input_data "Meditation_Practice" (VStr "No") in
  let tasks :=
    if py_eq_str meditation "No"
    then tasks ++ [ {| td_title := "Begin Mindfulness Practice";
                       td_type := "tool";
                       td_link := "/tools/meditation-guide";
                       td_reward := 15 |} ]
    else tasks in
  let screen_time := dict_get input_data "Screen_Time" (VInt 0) in
  gt8 ← py_gt screen_time 8;
  let tasks :=
    if gt8 : bool
    then tasks ++ [ {| td_title := "Digital Detox Challenge";
                       td_type := "lifestyle";
                       td_link := "/wellness/digital-detox";
                       td_reward := 30 |} ]
    else tasks in
  Some tasks.

Definition _generate_personal_tasks (input_data : gmap string value)
  : list task_data :=
  default [] (personal_tasks_body input_data).

(** [_get_fallback_tasks]; both tasks satisfy [WellnessTask]'s
    constraint. *)
Definition _get_fallback_tasks : list WellnessTask :=
  [ {| task_id := "fallback-1"; task_title := "Practice Deep Breathing";
       task_type := "tool"; task_link := "/tools/breathing";
       task_reward := 10 |};
    {| task_id := "fallback-2"; task_title := "Take a Short Walk";
       task_type := "lifestyle"; task_link := "/wellness/walking";
       task_reward := 15 |} ].

Definition _create_fallback_wellness_plan : WellnessPlan :=
  {| plan_title := "Basic Wellness Plan";
     plan_summary := "A simple plan to help manage stress";
     plan_tasks := _get_fallback_tasks |}.

Definition _create_fallback_response : StressPredictionResponse :=
  {| level := StressLevelEnum.MEDIUM;
     score := 50;
     confidence := 5 # 10;
     insights := ["Unable to analyze data at this time"];
     recommendations := ["Please try again later"];
     wellness_plan := _create_fallback_wellness_plan;
     model_name := None;
     model_score := None;
     feature_importance := None |}.

Definition _generate_plan_title (stress_level : StressLevelEnum.t) : string :=
  match stress_level with
  | StressLevelEnum.LOW => "Stress Maintenance Plan"
  | StressLevelEnum.MEDIUM => "Stress Reduction Plan"
  | StressLevelEnum.HIGH => "Intensive Stress Management Plan"
  end.

(** [_generate_plan_summary] has no [try] of its own: [None] is the
    exception that leaves it. *)
Definition _generate_plan_summary (stress_level : StressLevelEnum.t)
    (input_data : gmap string value) : option string :=
  let base_summary :=
    match stress_level with
    | StressLevelEnum.LOW =>
        "A maintenance plan to help you continue managing stress effectively"
    | StressLevelEnum.MEDIUM =>
        "A focused plan to help reduce your stress levels through targeted interventions"
    | StressLevelEnum.HIGH =>
        "An intensive plan designed to significantly reduce your stress levels"
    end in
  let sleep_duration := dict_get input_data "Sleep_Duration" (VInt 0) in
  let physical_activity := dict_get input_data "Physical_Activity" (VInt 0) in
  lt6 ← py_lt sleep_duration 6;
  if lt6 : bool
  then Some (base_summary +:+ " with a focus on improving sleep quality")
  else
    lt2 ← py_lt physical_activity 2;
    if lt2 : bool
    then Some (base_summary +:+ " emphasizing increased physical activity")
    else Some base_summary.

Section WithUuid.

(** [uuid.uuid4().hex[:8]] for the task at a given position: the random
    source is a parameter. *)
Variable uuid4_hex8 : nat -> string.

Definition task_id_of (i : nat) : string :=
  "task-" +:+ NilZero.string_of_int (Z.to_int (Z.of_nat (S i))) +:+ "-"
  +:+ uuid4_hex8 i.

(** The loop of [_generate_wellness_tasks] over [all_tasks[:6]]. *)
Fixpoint wellness_tasks_loop (i : nat) (all_tasks : list task_data)
    (tasks : list WellnessTask) : option (list WellnessTask) :=
  match all_tasks with
  | [] => Some tasks
  | task_data :: rest =>
      task ← WellnessTask_init (task_id_of i) (td_title task_data)
                (td_type task_data) (td_link task_data) (td_reward task_data);
      wellness_tasks_loop (S i) rest (tasks ++ [task])
  end.

Definition _generate_wellness_tasks (stress_level : StressLevelEnum.t)
    (input_data : gmap string value) : list WellnessTask :=
  let base_tasks := wellness_task_templates stress_level in
  let personal_tasks := _generate_personal_tasks input_data in
  let all_tasks := base_tasks ++ personal_tasks in
  match wellness_tasks_loop 0 (take 6 all_tasks) [] with
  | Some tasks => tasks
  | None => _get_fallback_tasks
  end.

Definition _create_wellness_plan (stress_level : StressLevelEnum.t)
    (input_data : gmap string value) (insights : list string)
  : WellnessPlan :=
  let plan_title := _generate_plan_title stress_level in
  match _generate_plan_summary stress_level input_data with
  | Some plan_summary =>
      let tasks := _generate_wellness_tasks stress_level input_data in
      {| plan_title := plan_title; plan_summary := plan_summary;
         plan_tasks := tasks |}
  | None => _create_fallback_wellness_plan
  end.

(** [format_prediction_response] on the dictionary a model service
    returned. *)
Definition format_prediction_response
    (prediction_result : ModelService.result)
    (input_data : gmap string value) : StressPredictionResponse :=
  let stress_level :=
    _categorize_stress_level
      (VStr (ModelService.r_level prediction_result)) in
  let confidence := ModelService.r_confidence prediction_result in
  let numerical_score :=
    _calculate_numerical_score stress_level confidence in
  let insights :=
    _generate_enhanced_insights input_data stress_level
      (ModelService.r_feature_importance prediction_result) in
  let recommendations :=
    _generate_personalized_recommendations stress_level input_data in
  let wellness_plan :=
    _create_wellness_plan stress_level input_data insights in
  match StressPredictionResponse_init
          (StressLevelEnum.value_of stress_level) numerical_score confidence
          insights recommendations wellness_plan
          (ModelService.r_model_name prediction_result)
          (ModelService.r_model_score prediction_result)
          (ModelService.r_feature_importance prediction_result) with
  | Some response => response
  | None => _create_fallback_response
  end.

End WithUuid.

End ResponseFormatter.

(** * app.py *)
Module App.

Import Schemas.

(** What a request does to the cache and to the classifier, in order:
    the instrumentation a test would put around them. *)
Inductive event :=
| CacheLookup (key : string)
| CacheDelete (key : string)
| CacheStore (key : string)
| ModelPredict (x : list Q)
| ModelPredictProba (x : list Q).

(** ** The [ModelService] class defined in [app.py] *)
Module ModelService.

Record t := {
  model : option Classifier;
  feature_names : option (list string);
  model_name : option string;
  model_score : option Q;
  is_loaded : bool
}.

(** The dictionary returned by [predict]. *)
Record result := {
  r_level : string;
  r_score : Z;
  r_confidence : Q;
  r_insights : list string;
  r_recommendations : list string;
  r_model_name : option string;
  r_model_score : option Q
}.

Section WithFloat.

Variable float_of_str : string -> option Q.

(** [preprocess_input]: the loop over [feature_names] alone. *)
Definition preprocess_input (self : t) (input_data : gmap string value)
  : option (list Q) :=
  names ← feature_names self;
  encode_features float_of_str input_data names [].

(** The body of the [try] of [_generate_insights]. *)
Definition generate_insights_body (input_data : gmap string value)
    (stress_level : string) : option (list string) :=
  let insights : list string := [] in
  let sleep_duration := dict_get input_data "Sleep_Duration" (VInt 0) in
  lt6 ← py_lt sleep_duration 6;
  let insights :=
    if lt6 : bool
    then insights ++ ["Your sleep duration is below the recommended 7-9 hours"]
    else insights in
  let work_hours := dict_get input_data "Work_Hours" (VInt 0) in
  gt10 ← py_gt work_hours 10;
  let insights :=
    if gt10 : bool
    then insights ++ ["Long work hours may be a significant stress factor"]
    else insights in
  let physical_activity := dict_get input_data "Physical_Activity" (VInt 0) in
  lt1 ← py_lt physical_activity 1;
  let insights :=
    if lt1 : bool
    then insights ++ ["Increasing physical activity could help reduce stress"]
    else insights in
  Some (match insights with
        | [] => ["Your current stress level is " +:+ str_lower stress_level]
        | _ => insights
        end).

Definition _generate_insights (input_data : gmap string value)
    (stress_level : string) : list string :=
  match generate_insights_body input_data stress_level with
  | Some insights => insights
  | None => ["Your current stress level is " +:+ str_lower stress_level]
  end.

Definition _generate_recommendations (stress_level : string) : list string :=
  if bool_decide (stress_level = "Low") then
    [ "Maintain your current healthy lifestyle habits";
      "Continue regular physical activity and good sleep schedule" ]
  else if bool_decide (stress_level = "Medium") then
    [ "Focus on improving sleep quality and duration";
      "Incorporate regular physical exercise into your routine";
      "Practice stress-reduction techniques like deep breathing" ]
  else if bool_decide (stress_level = "High") then
    [ "Prioritize getting adequate sleep (7-9 hours per night)";
      "Engage in regular physical activity to reduce stress hormones";
      "Practice meditation or mindfulness exercises daily";
      "Consider speaking with a healthcare professional" ]
  else ["Focus on maintaining a balanced lifestyle"].

(** "Calculate numerical score" *)
Definition numerical_score_of (stress_level : string) : Z :=
  if bool_decide (stress_level = "Low") then 25
  else if bool_decide (stress_level = "Medium") then 50
  else if bool_decide (stress_level = "High") then 75
  else 50.

(** [predict], with the calls it makes to the classifier.  Every
    exception is caught inside and gives [None]. *)
Definition predict (self : t) (input_data : gmap string value)
  : option result * list event :=
  if negb (is_loaded self) then (None, [])
  else
    match preprocess_input self input_data with
    | None => (None, [])
    | Some processed_features =>
        match model self with
        | None => (None, [])
        | Some m =>
            match clf_predict m processed_features with
            | None => (None, [ModelPredict processed_features])
            | Some prediction =>
                let '(confidence, proba_events) :=
                  match clf_predict_proba m with
                  | Some predict_proba =>
                      (probabilities ← predict_proba processed_features;
                       np_max probabilities,
                       [ModelPredictProba processed_features])
                  | None => (Some (8 # 10)%Q, [])
                  end in
                let events :=
                  ModelPredict processed_features :: proba_events in
                match confidence with
                | None => (None, events)
                | Some confidence_score =>
                    let stress_level := str_of_prediction prediction in
                    let numerical_score := numerical_score_of stress_level in
                    let insights :=
                      _generate_insights input_data stress_level in
                    let recommendations :=
                      _generate_recommendations stress_level in
                    (Some {| r_level := stress_level;
                             r_score := numerical_score;
                             r_confidence := confidence_score;
                             r_insights := insights;
                             r_recommendations := recommendations;
                             r_model_name := model_name self;
                             r_model_score := model_score self |},
                     events)
                end
            end
        end
    end.

End WithFloat.

End ModelService.

(** ** Start-up *)

(** The content of a model file that unpickles to a well-formed
    artifact. *)
Record artifacts := {
  a_model : Classifier;
  a_feature_names : list string;
  a_model_name : string;
  a_model_score : Q
}.

(** A candidate model file: whether it exists, its size, and what
    [load_model] gets out of it ([None] when reading it raises). *)
Record model_file := {
  file_exists : bool;
  file_size : nat;
  file_content : option artifacts
}.

Record cache_entry := {
  response : StressPredictionResponse;
  timestamp : Z
}.

(** The module-level variables [model_loaded], [model_service] and
    [prediction_cache]. *)
Record state := {
  model_loaded : bool;
  model_service : option ModelService.t;
  prediction_cache : gmap string cache_entry
}.

(** [cache_ttl = timedelta(minutes=5)], in microseconds. *)
Definition cache_ttl : Z := 5 * 60 * 1000000.

(** [ModelService.load_model] on a file: the loaded service, or [None]
    when it returns [False]. *)
Definition load_model (f : model_file) : option ModelService.t :=
  if negb (file_exists f) then None
  else
    a ← file_content f;
    Some {| ModelService.model := Some (a_model a);
            ModelService.feature_names := Some (a_feature_names a);
            ModelService.model_name := Some (a_model_name a);
            ModelService.model_score := Some (a_model_score a);
            ModelService.is_loaded := true |}.

(** The loop of [startup_event] over the model files found. *)
Fixpoint try_model_files (model_files : list model_file)
  : option ModelService.t :=
  match model_files with
  | [] => None
  | f :: rest =>
      if Nat.eqb (file_size f) 0 then try_model_files rest
      else match load_model f with
           | Some svc => Some svc
           | None => try_model_files rest
           end
  end.

(** [startup_event], given the test and the production model files. *)
Definition startup_event (test production : model_file) : state :=
  let model_files :=
    (if file_exists test then [test] else []) ++
    (if file_exists production then [production] else []) in
  match try_model_files model_files with
  | Some svc =>
      {| model_loaded := true; model_service := Some svc;
         prediction_cache := ∅ |}
  | None =>
      {| model_loaded := false; model_service := None;
         prediction_cache := ∅ |}
  end.

(** ** The prediction endpoint *)

(** [_is_cache_valid], [now] being what [datetime.now()] reads. *)
Definition _is_cache_valid (now timestamp : Z) : bool :=
  now - timestamp <? cache_ttl.

(** What the endpoint gives back: a response body, or a raised
    [HTTPException] with its status code. *)
Inductive http_result :=
| Response (r : StressPredictionResponse)
| HTTPException (status_code : Z).

(** The standard fallback of [_create_fallback_response]. *)
Definition standard_fallback : option StressPredictionResponse :=
  t1 ← WellnessTask_init "fallback-1" "Practice Deep Breathing" "tool"
         "/tools/breathing" 10;
  t2 ← WellnessTask_init "fallback-2" "Take a Short Walk" "lifestyle"
         "/wellness/walking" 10;
  t3 ← WellnessTask_init "fallback-3" "Stay Hydrated" "lifestyle"
         "/wellness/hydration" 5;
  let fallback_wellness_plan :=
    {| plan_title := "Basic Wellness Plan";
       plan_summary :=
         "General wellness recommendations while we resolve technical issues";
       plan_tasks := [t1; t2; t3] |} in
  StressPredictionResponse_init "Medium" 50 (5 # 10)
    [ "We're experiencing technical difficulties with our analysis";
      "Please try again in a few minutes for a personalized assessment" ]
    [ "Focus on basic wellness practices";
      "Maintain regular sleep and exercise routines";
      "Practice stress-reduction techniques" ]
    fallback_wellness_plan (Some "Fallback Response") None None.

(** The minimal fallback built when the standard one cannot be. *)
Definition minimal_fallback : option StressPredictionResponse :=
  t1 ← WellnessTask_init "emergency-1" "Take Deep Breaths" "tool"
         "/tools/breathing" 5;
  let minimal_plan :=
    {| plan_title := "Emergency Wellness Plan";
       plan_summary := "Basic recommendations";
       plan_tasks := [t1] |} in
  StressPredictionResponse_init "Medium" 50 (5 # 10)
    ["Service temporarily unavailable"] ["Please try again later"]
    minimal_plan (Some "Emergency Fallback") None None.

(** [_create_fallback_response]: the nested [try] blocks; the last resort
    raises [HTTPException(503)]. *)
Definition _create_fallback_response : http_result :=
  match standard_fallback with
  | Some fallback_response => Response fallback_response
  | None =>
      match minimal_fallback with
      | Some r => Response r
      | None => HTTPException 503
      end
  end.

(** [_create_wellness_plan]; [None] is a [ValidationError] raised by a
    [WellnessTask]. *)
Definition _create_wellness_plan (stress_level : string)
    (insights : list string) : option WellnessPlan :=
  if bool_decide (stress_level = "Low") then
    t1 ← WellnessTask_init "maintain-1" "Continue Regular Exercise"
           "lifestyle" "/wellness/exercise" 10;
    t2 ← WellnessTask_init "maintain-2" "Maintain Sleep Schedule"
           "lifestyle" "/wellness/sleep" 10;
    Some {| plan_title := "Maintenance Wellness Plan";
            plan_summary :=
              "Keep up your great habits with these maintenance activities";
            plan_tasks := [t1; t2] |}
  else if bool_decide (stress_level = "Medium") then
    t1 ← WellnessTask_init "medium-1" "Daily Meditation Practice" "tool"
           "/tools/meditation" 15;
    t2 ← WellnessTask_init "medium-2" "Improve Sleep Hygiene" "article"
           "/articles/sleep-hygiene" 10;
    t3 ← WellnessTask_init "medium-3" "30-Minute Daily Walk" "lifestyle"
           "/wellness/walking" 15;
    Some {| plan_title := "Balanced Stress Management Plan";
            plan_summary :=
              "Targeted activities to help reduce your moderate stress levels";
            plan_tasks := [t1; t2; t3] |}
  else
    t1 ← WellnessTask_init "high-1" "Deep Breathing Exercises" "tool"
           "/tools/breathing" 20;
    t2 ← WellnessTask_init "high-2" "Professional Stress Management"
           "article" "/articles/professional-help" 15;
    t3 ← WellnessTask_init "high-3" "Sleep Optimization Program"
           "lifestyle" "/wellness/sleep-program" 20;
    t4 ← WellnessTask_init "high-4" "Regular Exercise Routine" "lifestyle"
           "/wellness/exercise-routine" 20;
    Some {| plan_title := "Intensive Stress Relief Plan";
            plan_summary :=
              "Comprehensive plan to help manage your high stress levels";
            plan_tasks := [t1; t2; t3; t4] |}.

(** The plan used when [_create_wellness_plan] raises. *)
Definition basic_wellness_plan : WellnessPlan :=
  {| plan_title := "Basic Wellness Plan";
     plan_summary := "General wellness recommendations";
     plan_tasks :=
       [ {| task_id := "basic-1"; task_title := "Practice Mindfulness";
            task_type := "tool"; task_link := "/tools/mindfulness";
            task_reward := 10 |} ] |}.

(** The three readings of [datetime.now()] that matter to a request:
    at the validity check of a cached entry, at the store, and at the
    sweep that follows the store. *)
Record clock := {
  now_lookup : Z;
  now_store : Z;
  now_sweep : Z
}.

Section Endpoint.

Variable float_of_str : string -> option Q.

(** [_generate_cache_key]: the MD5 digest of the JSON text of the
    request dictionary with its keys sorted. *)
Variable _generate_cache_key : gmap string value -> string.

(** "Check cache first": the cached response if there is a valid one, the
    cache afterwards, and the cache events. *)
Definition cache_lookup (prediction_cache : gmap string cache_entry)
    (cache_key : string) (clk : clock)
  : option StressPredictionResponse * gmap string cache_entry * list event :=
  match prediction_cache !! cache_key with
  | Some cached_entry =>
      if _is_cache_valid (now_lookup clk) (timestamp cached_entry)
      then (Some (response cached_entry), prediction_cache,
            [CacheLookup cache_key])
      else (None, delete cache_key prediction_cache,
            [CacheLookup cache_key; CacheDelete cache_key])
  | None => (None, prediction_cache, [CacheLookup cache_key])
  end.

(** "Clean up old cache entries": the keys found expired. *)
Definition expired_keys (prediction_cache : gmap string cache_entry)
    (current_time : Z) : list string :=
  (map_to_list
     (filter (fun kv : string * cache_entry =>
                cache_ttl < current_time - timestamp kv.2)
             prediction_cache)).*1.

(** "Cache the response": the store, then the sweep. *)
Definition cache_store (prediction_cache : gmap string cache_entry)
    (cache_key : string) (r : StressPredictionResponse) (clk : clock)
  : gmap string cache_entry * list event :=
  let prediction_cache :=
    <[cache_key := {| response := r; timestamp := now_store clk |}]>
      prediction_cache in
  let current_time := now_sweep clk in
  let expired := expired_keys prediction_cache current_time in
  (foldr delete prediction_cache expired,
   CacheStore cache_key :: (CacheDelete <$> expired)).

(** "Generate prediction using model service", down to "Cache the
    response": what the endpoint does when the cache has no valid entry.
    The handlers of [ValueError], [FileNotFoundError] and [MemoryError]
    around [model_service.predict] have no counterpart: that method
    catches every exception itself. *)
Definition fresh_prediction (model_service : ModelService.t)
    (cache : gmap string cache_entry) (cache_key : string)
    (model_input : gmap string value) (clk : clock)
  : http_result * gmap string cache_entry * list event :=
  let '(prediction_result, model_events) :=
    ModelService.predict float_of_str model_service model_input in
  match prediction_result with
  | None => (_create_fallback_response, cache, model_events)
  | Some prediction_result =>
      let wellness_plan :=
        match _create_wellness_plan
                (ModelService.r_level prediction_result)
                (ModelService.r_insights prediction_result) with
        | Some plan => plan
        | None => basic_wellness_plan
        end in
      match StressPredictionResponse_init
              (ModelService.r_level prediction_result)
              (ModelService.r_score prediction_result)
              (ModelService.r_confidence prediction_result)
              (ModelService.r_insights prediction_result)
              (ModelService.r_recommendations prediction_result)
              wellness_plan
              (ModelService.r_model_name prediction_result)
              (ModelService.r_model_score prediction_result)
              None with
      | None => (_create_fallback_response, cache, model_events)
      | Some response =>
          let '(cache, store_events) :=
            cache_store cache cache_key response clk in
          (Response response, cache, model_events ++ store_events)
      end
  end.

(** The endpoint after [request.to_model_format()]: the model check, the
    cache check, and the fresh prediction on a miss. *)
Definition predict_model_input (st : state) (model_input : gmap string value)
    (clk : clock) : http_result * state * list event :=
  match model_loaded st, model_service st with
  | true, Some model_service =>
      let cache_key := _generate_cache_key model_input in
      let '(cached, cache, lookup_events) :=
        cache_lookup (prediction_cache st) cache_key clk in
      match cached with
      | Some cached_response =>
          (Response cached_response,
           {| model_loaded := true;
              model_service := Some model_service;
              prediction_cache := cache |},
           lookup_events)
      | None =>
          let '(result, cache, events) :=
            fresh_prediction model_service cache cache_key model_input clk in
          (result,
           {| model_loaded := true;
              model_service := Some model_service;
              prediction_cache := cache |},
           lookup_events ++ events)
      end
  | _, _ => (_create_fallback_response, st, [])
  end.

(** [predict_stress] on a validated request. *)
Definition predict_stress (st : state) (request : StressPredictionRequest)
    (clk : clock) : http_result * state * list event :=
  predict_model_input st (to_model_format request) clk.

(** The states the process goes through: after start-up, and after each
    request served. *)
Inductive reachable : state -> Prop :=
| reachable_startup test production :
    reachable (startup_event test production)
| reachable_request st request clk :
    reachable st ->
    reachable (predict_stress st request clk).1.2.

End Endpoint.



(** ** Monitoring *)

(** The dictionary returned by [ModelService.get_model_info]:
    [InfoNotLoaded] is [{'loaded': False, 'error': 'Model not loaded'}],
    [InfoLoaded] carries the entries [model_name], [model_score],
    [feature_count] and [feature_names] of a loaded service (its entry
    [expected_features] is the constant list). *)
Inductive model_info :=
| InfoNotLoaded
| InfoLoaded (model_name : option string) (model_score : option Q)
             (feature_count : nat) (feature_names : option (list string)).

Definition get_model_info (self : ModelService.t) : model_info :=
  if negb (ModelService.is_loaded self) then InfoNotLoaded
  else
    InfoLoaded (ModelService.model_name self) (ModelService.model_score self)
      (match ModelService.feature_names self with
       | Some feature_names => length feature_names
       | None => 0%nat
       end)
      (ModelService.feature_names self).

(** The entry [model] of the health status; [hm_details] holds the
    entries [model_name], [model_score] and [feature_count], which are
    added for a loaded service only, each being what [model_info.get]
    gives. *)
Record health_model := {
  hm_loaded : bool;
  hm_service_ready : bool;
  hm_file_exists : bool;
  hm_file_size_bytes : nat;
  hm_details : option (option string * option Q * option nat)
}.

(** The health status, without the entries that only report the
    environment (time stamps, uptime, service name, Python version,
    working directory, system resources); [hs_warnings] is empty when the
    dictionary has no entry [warnings]. *)
Record health_status := {
  hs_status : string;
  hs_model : health_model;
  hs_cache_entries : nat;
  hs_cache_ttl_minutes : Z;
  hs_warnings : list string
}.

(** [health_check], [f] being the file found at [model_path] when the
    check runs.  The answer 503 of its [except] clause, reached only when
    a call to the operating system raises, has no counterpart. *)
Definition health_check (st : state) (f : model_file) : health_status :=
  let model_file_exists := file_exists f in
  let model_file_size := if model_file_exists then file_size f else 0%nat in
  let model_service_status :=
    match model_service st with
    | Some svc => ModelService.is_loaded svc
    | None => false
    end in
  let details :=
    match model_service st with
    | Some svc =>
        if ModelService.is_loaded svc
        then match get_model_info svc with
             | InfoLoaded model_name model_score feature_count _ =>
                 Some (model_name, model_score, Some feature_count)
             | InfoNotLoaded => Some (None, None, None)
             end
        else None
    | None => None
    end in
  let warnings : list string := [] in
  let warnings :=
    if negb model_file_exists
    then warnings ++ ["ML model file not found"] else warnings in
  let warnings :=
    if negb model_service_status
    then warnings ++ ["ML model service not ready"] else warnings in
  let warnings :=
    if (1000 <? size (prediction_cache st))%nat
    then warnings ++ ["Prediction cache is large"] else warnings in
  {| hs_status := match warnings with [] => "healthy" | _ => "degraded" end;
     hs_model :=
       {| hm_loaded := model_loaded st;
          hm_service_ready := model_service_status;
          hm_file_exists := model_file_exists;
          hm_file_size_bytes := model_file_size;
          hm_details := details |};
     hs_cache_entries := size (prediction_cache st);
     hs_cache_ttl_minutes := cache_ttl / (60 * 1000000);
     hs_warnings := warnings |}.

End App.

(** * The claims' words, and sample data

    Definitions that follow the wording of the specification where a
    property compares it with the code, and the concrete data on which the
    properties are exercised. *)

Import Schemas.

(** The label mapping as the specification words it: an integer class
    code goes through the table 0:Low, 1:Medium, 2:High, and a string is
    matched, title-cased, against Low, Medium, High. *)
Definition claimed_label (p : prediction) : option string :=
  match p with
  | PInt c =>
      if c =? 0 then Some "Low"
      else if c =? 1 then Some "Medium"
      else if c =? 2 then Some "High"
      else None
  | PStr s =>
      StressLevelEnum.value_of <$>
        StressLevelEnum.of_string (str_title (str_strip s))
  | POther _ => None
  end.

(** The fixed midpoint of each label. *)
Definition midpoint (l : StressLevelEnum.t) : Z :=
  match l with
  | StressLevelEnum.LOW => 25
  | StressLevelEnum.MEDIUM => 50
  | StressLevelEnum.HIGH => 75
  end.

(** The example request of [schemas.py]. *)
Definition sample_request : StressPredictionRequest :=
  {| age := 30; gender := GenderEnum.MALE; sleep_duration := 75 # 10;
     sleep_quality := 4; physical_activity := 3; screen_time := 8;
     caffeine_intake := 2; smoking_habit := SmokingHabitEnum.NO;
     work_hours := 8; travel_time := 1; social_interactions := 3;
     meditation_practice := MeditationPracticeEnum.YES;
     exercise_type := ExerciseTypeEnum.CARDIO |}.

(** The high-stress example of the specification (section 8, item 8). *)
Definition stressed_request : StressPredictionRequest :=
  {| age := 45; gender := GenderEnum.MALE; sleep_duration := 4;
     sleep_quality := 2; physical_activity := 0; screen_time := 12;
     caffeine_intake := 6; smoking_habit := SmokingHabitEnum.YES;
     work_hours := 14; travel_time := 3; social_interactions := 1;
     meditation_practice := MeditationPracticeEnum.NO;
     exercise_type := ExerciseTypeEnum.WALKING |}.

(** A classifier that always answers [p], with the class probabilities
    [proba] when it has [predict_proba]. *)
Definition constant_classifier (p : prediction) (proba : option (list Q))
  : Classifier :=
  {| clf_predict := fun _ => Some p;
     clf_predict_proba := (fun ps => fun _ : list Q => Some ps) <$> proba;
     clf_feature_importances_ := None |}.

(** A string conversion for [float] that accepts no string: enough where
    no numeric feature is a string. *)
Definition no_float_of_str : string -> option Q := fun _ => None.

(** A loaded service of [services/model_service.py] around a classifier. *)
Definition sample_service (m : Classifier) : ModelService.t :=
  {| ModelService.model := Some m;
     ModelService.feature_names := Some expected_features;
     ModelService.model_name := Some "RandomForestClassifier";
     ModelService.model_score := Some (92 # 100);
     ModelService.is_loaded := true |}.

(** The same for the class of [app.py]. *)
Definition sample_app_service (m : Classifier) : App.ModelService.t :=
  {| App.ModelService.model := Some m;
     App.ModelService.feature_names := Some expected_features;
     App.ModelService.model_name := Some "RandomForestClassifier";
     App.ModelService.model_score := Some (92 # 100);
     App.ModelService.is_loaded := true |}.

(** The first value bound to [key] in an association list. *)
Fixpoint assoc {A : Type} (key : string) (l : list (string * A)) : option A :=
  match l with
  | [] => None
  | (k, v) :: l' => if bool_decide (k = key) then Some v else assoc key l'
  end.

(** The categorical encodings as the specification lists them. *)
Definition claimed_tables : list (string * list (string * Z)) :=
  [ ("Gender", [("Male", 0); ("Female", 1)]);
    ("Smoking_Habit", [("No", 0); ("Yes", 1)]);
    ("Meditation_Practice", [("No", 0); ("Yes", 1)]);
    ("Exercise_Type",
      [("Cardio", 0); ("Yoga", 1); ("Strength Training", 2);
       ("Aerobics", 3); ("Walking", 4); ("Pilates", 5)]) ].

(** The code of a categorical value by those tables. *)
Definition claimed_code (feature value : string) : option Z :=
  mapping ← assoc feature claimed_tables; assoc value mapping.

(** De-duplication that keeps the first occurrence. *)
Fixpoint dedup_first (l : list string) : list string :=
  match l with
  | [] => []
  | x :: l' => x :: filter (fun y => y <> x) (dedup_first l')
  end.

(** The personalized recommendations by the five threshold rules the
    specification names, in its order. *)
Definition claimed_personal (request : StressPredictionRequest)
  : list string :=
  (if Qlt_bool (sleep_duration request) 7
   then ["Aim for 7-9 hours of sleep per night"] else []) ++
  (if physical_activity request <? 2
   then ["Start with 30 minutes of daily physical activity"] else []) ++
  (if Qlt_bool 10 (work_hours request)
   then ["Try to establish better work-life boundaries"] else []) ++
  (if Qlt_bool 8 (screen_time request)
   then ["Consider reducing screen time, especially before bed"] else []) ++
  (match meditation_practice request with
   | MeditationPracticeEnum.NO =>
       ["Try incorporating 10 minutes of daily meditation or mindfulness"]
   | MeditationPracticeEnum.YES => []
   end).

(** The recommendations as the specification builds them. *)
Definition claimed_recommendations (label : StressLevelEnum.t)
    (request : StressPredictionRequest) : list string :=
  take 6 (dedup_first
            (ResponseFormatter.recommendation_templates label ++
             claimed_personal request)).

(** The same with the two rules the formatter has besides: poor sleep
    quality, and a gentle exercise type when activity is not low. *)
Definition amended_personal (request : StressPredictionRequest)
  : list string :=
  (if Qlt_bool (sleep_duration request) 7
   then ["Aim for 7-9 hours of sleep per night"] else []) ++
  (if sleep_quality request <? 3
   then ["Focus on improving sleep quality through better sleep hygiene"]
   else []) ++
  (if physical_activity request <? 2
   then ["Start with 30 minutes of daily physical activity"]
   else match exercise_type request with
        | ExerciseTypeEnum.WALKING | ExerciseTypeEnum.YOGA =>
            ["Consider adding more vigorous exercise to your routine"]
        | _ => []
        end) ++
  (if Qlt_bool 10 (work_hours request)
   then ["Try to establish better work-life boundaries"] else []) ++
  (if Qlt_bool 8 (screen_time request)
   then ["Consider reducing screen time, especially before bed"] else []) ++
  (match meditation_practice request with
   | MeditationPracticeEnum.NO =>
       ["Try incorporating 10 minutes of daily meditation or mindfulness"]
   | MeditationPracticeEnum.YES => []
   end).

Definition amended_recommendations (label : StressLevelEnum.t)
    (request : StressPredictionRequest) : list string :=
  take 6 (dedup_first
            (ResponseFormatter.recommendation_templates label ++
             amended_personal request)).

(** [sample_request] with a poor sleep quality. *)
Definition poor_sleep_request : StressPredictionRequest :=
  {| age := 30; gender := GenderEnum.MALE; sleep_duration := 75 # 10;
     sleep_quality := 2; physical_activity := 3; screen_time := 8;
     caffeine_intake := 2; smoking_habit := SmokingHabitEnum.NO;
     work_hours := 8; travel_time := 1; social_interactions := 3;
     meditation_practice := MeditationPracticeEnum.YES;
     exercise_type := ExerciseTypeEnum.CARDIO |}.

(** Coercions of a JSON number to [int] and to [float], for the sample
    requests: an integer is an [int], an integer or a decimal number is a
    [float].  The library accepts these and some more. *)
Definition json_int (v : value) : option Z :=
  match v with VInt z => Some z | _ => None end.

Definition json_float (v : value) : option Q :=
  match v with
  | VInt z => Some (inject_Z z)
  | VFloat q => Some q
  | _ => None
  end.

(** The raw body of [sample_request], with the three durations of the
    cross-field rule left open. *)
Definition raw_body (work sleep travel : Q) : gmap string value :=
  <["age" := VInt 30]>
  (<["gender" := VStr "Male"]>
  (<["sleep_duration" := VFloat sleep]>
  (<["sleep_quality" := VInt 4]>
  (<["physical_activity" := VInt 3]>
  (<["screen_time" := VFloat 8]>
  (<["caffeine_intake" := VInt 2]>
  (<["smoking_habit" := VStr "No"]>
  (<["work_hours" := VFloat work]>
  (<["travel_time" := VFloat travel]>
  (<["social_interactions" := VInt 3]>
  (<["meditation_practice" := VStr "Yes"]>
  (<["exercise_type" := VStr "Cardio"]> ∅)))))))))))).

Section DeclaredRanges.

Variable int_validator : value -> option Z.
Variable float_validator : value -> option Q.
Variable raw : gmap string value.





End DeclaredRanges.



(** What the specification promises of every response: the bounds of its
    fields, and a score that is the midpoint of its level. *)
Definition response_ok (r : StressPredictionResponse) : Prop :=
  StressLevelEnum.value_of (level r) ∈ ["Low"; "Medium"; "High"] /\
  0 <= score r <= 100 /\
  (0 <= confidence r)%Q /\ (confidence r <= 1)%Q /\
  (1 <= length (insights r) <= 5)%nat /\
  (1 <= length (recommendations r) <= 6)%nat /\
  (1 <= length (plan_tasks (wellness_plan r)) <= 6)%nat /\
  score r = midpoint (level r).

(** The cache holds well-formed responses only. *)
Definition cache_ok (cache : gmap string App.cache_entry) : Prop :=
  forall key entry,
    cache !! key = Some entry -> response_ok (App.response entry).

(** A model file from which a service can be loaded. *)
Definition loadable (f : App.model_file) : Prop :=
  App.file_exists f = true /\ App.file_size f <> 0%nat /\
  is_Some (App.file_content f).

(** A model file that does not exist. *)
Definition absent_file : App.model_file :=
  {| App.file_exists := false; App.file_size := 0; App.file_content := None |}.

(** A model file holding a classifier that always answers "High" with
    class probabilities 0.1, 0.2 and 0.7. *)
Definition high_stress_file : App.model_file :=
  {| App.file_exists := true;
     App.file_size := 1024;
     App.file_content :=
       Some {| App.a_model :=
                 constant_classifier (PStr "High")
                   (Some [1 # 10; 2 # 10; 7 # 10]%Q);
               App.a_feature_names := expected_features;
               App.a_model_name := "RandomForestClassifier";
               App.a_model_score := 92 # 100 |} |}.

(** A cache key function for the sample runs: the text of the age and of
    the work hours (any function of the dictionary will do). *)
Definition sample_cache_key (model_input : gmap string value) : string :=
  match model_input !! "Age" with
  | Some (VInt z) => NilZero.string_of_int (Z.to_int z)
  | _ => ""
  end.

(** Clock readings at 10:00:00 and, for a later request, four minutes
    and six minutes after that, in microseconds since midnight. *)
Definition clock_at (t : Z) : App.clock :=
  {| App.now_lookup := t; App.now_store := t + 1500; App.now_sweep := t + 1600 |}.
Definition ten_o_clock : Z := 36000000000.
Definition four_minutes : Z := 240000000.
Definition six_minutes : Z := 360000000.

(** The degraded state: no model, or no model service. *)
Definition degraded (st : App.state) : Prop :=
  App.model_loaded st = false \/ App.model_service st = None.

(** A state with another cache. *)
Definition with_cache (st : App.state) (cache : gmap string App.cache_entry)
  : App.state :=
  {| App.model_loaded := App.model_loaded st;
     App.model_service := App.model_service st;
     App.prediction_cache := cache |}.

(** A classifier that answers "High" and has feature importances, the
    largest being that of Sleep_Duration. *)
Definition forest_classifier : Classifier :=
  {| clf_predict := fun _ => Some (PStr "High");
     clf_predict_proba := Some (fun _ => Some [1 # 10; 2 # 10; 7 # 10]%Q);
     clf_feature_importances_ :=
       Some [5 # 100; 2 # 100; 30 # 100; 10 # 100; 8 # 100; 7 # 100;
             6 # 100; 2 # 100; 15 # 100; 5 # 100; 5 # 100; 3 # 100;
             2 # 100]%Q |}.

(** * Properties *)

Import Schemas.

(** ** Rational comparisons *)

Lemma Qlt_bool_iff (a b : Q) : Qlt_bool a b = true <-> (a < b)%Q.
Proof.
  unfold Qlt_bool. rewrite negb_true_iff. split.
  - intros H. apply Qnot_le_lt. intros Hle.
    apply Qle_bool_iff in Hle. congruence.
  - intros H. destruct (Qle_bool b a) eqn:E; [|reflexivity].
    apply Qle_bool_iff in E. lra.
Qed.

Lemma Qlt_bool_false_iff (a b : Q) : Qlt_bool a b = false <-> (b <= a)%Q.
Proof. unfold Qlt_bool. rewrite negb_false_iff. apply Qle_bool_iff. Qed.

Lemma Qle_bool_false_iff (a b : Q) : Qle_bool a b = false <-> (b < a)%Q.
Proof.
  rewrite <- Qlt_bool_iff. unfold Qlt_bool.
  destruct (Qle_bool a b); simpl; intuition congruence.
Qed.

(** Turn every boolean comparison of rationals in the context into the
    proposition it decides. *)
Ltac qbool :=
  repeat match goal with
  | H : Qlt_bool _ _ = true |- _ => apply Qlt_bool_iff in H
  | H : Qlt_bool _ _ = false |- _ => apply Qlt_bool_false_iff in H
  | H : Qle_bool _ _ = true |- _ => apply Qle_bool_iff in H
  | H : Qle_bool _ _ = false |- _ => apply Qle_bool_false_iff in H
  end.

(** ** The stress level categories of the response formatter *)


(** The match is insensitive to case and to surrounding white space. *)
Lemma categorize_stress_level_examples :
  ResponseFormatter._categorize_stress_level (VStr " hIGH ")
    = StressLevelEnum.HIGH /\
  ResponseFormatter._categorize_stress_level (VStr "low")
    = StressLevelEnum.LOW /\
  ResponseFormatter._categorize_stress_level (VStr "severe")
    = StressLevelEnum.MEDIUM /\
  ResponseFormatter._categorize_stress_level (VFloat (5 # 10))
    = StressLevelEnum.MEDIUM /\
  ResponseFormatter._categorize_stress_level (VInt 1)
    = StressLevelEnum.HIGH /\
  ResponseFormatter._categorize_stress_level VNone
    = StressLevelEnum.MEDIUM.
Proof. repeat split; reflexivity. Qed.

(** ** The label and the score of the inference engine *)

Lemma reverse_stress_mappings_lookup (c : Z) :
  ModelService.reverse_stress_mappings !! c =
  if c =? 0 then Some "Low"
  else if c =? 1 then Some "Medium"
  else if c =? 2 then Some "High"
  else None.
Proof.
  unfold ModelService.reverse_stress_mappings. simpl.
  destruct (Z.eqb_spec c 0) as [->|H0]; [reflexivity|].
  destruct (Z.eqb_spec c 1) as [->|H1]; [reflexivity|].
  destruct (Z.eqb_spec c 2) as [->|H2]; [reflexivity|].
  rewrite !lookup_insert_ne by congruence. apply lookup_empty.
Qed.

(** What a successful [predict] of [services/model_service.py] went
    through. *)
Lemma services_predict_inv float_of_str self input_data r :
  ModelService.predict float_of_str self input_data = Some r ->
  ModelService.is_loaded self = true /\
  exists x m p c l,
    ModelService.preprocess_input float_of_str self input_data = Some x /\
    ModelService.model self = Some m /\
    clf_predict m x = Some p /\
    ModelService.confidence_of m x = Some c /\
    ModelService.stress_level_of p = Some l /\
    ModelService.r_level r = l /\
    ModelService.r_score r = ModelService.numerical_score_of l /\
    ModelService.r_confidence r = c /\
    ModelService.r_insights r =
      ModelService._generate_insights self input_data l /\
    ModelService.r_recommendations r =
      ModelService._generate_recommendations l.
Proof.
  unfold ModelService.predict. intros H.
  destruct (ModelService.is_loaded self); simpl in H; [|discriminate].
  split; [reflexivity|].
  destruct (ModelService.preprocess_input _ _ _) as [x|] eqn:Hx;
    [|discriminate].
  simpl in H.
  destruct (ModelService.model self) as [m|] eqn:Hm; [|discriminate].
  simpl in H.
  destruct (clf_predict m x) as [p|] eqn:Hp; [|discriminate]. simpl in H.
  destruct (ModelService.confidence_of m x) as [c|] eqn:Hc; [|discriminate].
  simpl in H.
  destruct (ModelService.stress_level_of p) as [l|] eqn:Hl; [|discriminate].
  simpl in H. inversion H; subst; clear H. simpl.
  exists x, m, p, c, l. repeat split; auto.
Qed.

(** What a successful [predict] of [app.py] went through. *)
Lemma app_predict_inv float_of_str self input_data r events :
  App.ModelService.predict float_of_str self input_data = (Some r, events) ->
  exists x m p,
    App.ModelService.preprocess_input float_of_str self input_data = Some x /\
    App.ModelService.model self = Some m /\
    clf_predict m x = Some p /\
    ModelService.confidence_of m x = Some (App.ModelService.r_confidence r) /\
    App.ModelService.r_level r = str_of_prediction p /\
    App.ModelService.r_score r =
      App.ModelService.numerical_score_of (str_of_prediction p) /\
    App.ModelService.r_insights r =
      App.ModelService._generate_insights input_data (str_of_prediction p) /\
    App.ModelService.r_recommendations r =
      App.ModelService._generate_recommendations (str_of_prediction p) /\
    App.ModelService.r_model_name r = App.ModelService.model_name self /\
    App.ModelService.r_model_score r = App.ModelService.model_score self /\
    In (App.ModelPredict x) events.
Proof.
  unfold App.ModelService.predict. intros H.
  destruct (App.ModelService.is_loaded self); simpl in H; [|discriminate].
  destruct (App.ModelService.preprocess_input _ _ _) as [x|] eqn:Hx;
    [|discriminate].
  destruct (App.ModelService.model self) as [m|] eqn:Hm; [|discriminate].
  destruct (clf_predict m x) as [p|] eqn:Hp; [|discriminate].
  destruct (clf_predict_proba m) as [pp|] eqn:Hpp.
  - simpl in H. destruct (mbind _ (pp x)) as [c|] eqn:Hc; [|discriminate].
    inversion H; subst; clear H. simpl.
    exists x, m, p. unfold ModelService.confidence_of. rewrite Hpp.
    repeat split; auto.
  - inversion H; subst; clear H. simpl.
    exists x, m, p. unfold ModelService.confidence_of. rewrite Hpp.
    repeat split; auto.
Qed.

(** C7, as amended.  In [services/model_service.py] an integer class code
    is mapped through the table 0:Low, 1:Medium, 2:High (and [predict]
    fails on any other code), while a string prediction is the label as it
    stands, whatever its case; in [app.py] the label is [str(prediction)]
    for every prediction.  Matching a string against Low, Medium, High
    after stripping and title-casing it is what the response formatter's
    [_categorize_stress_level] does with the label. *)
Theorem inference_label_mapping :
  (forall c,
     ModelService.stress_level_of (PInt c) =
     if c =? 0 then Some "Low"
     else if c =? 1 then Some "Medium"
     else if c =? 2 then Some "High"
     else None) /\
  (forall s, ModelService.stress_level_of (PStr s) = Some s) /\
  (forall float_of_str self input_data r,
     ModelService.predict float_of_str self input_data = Some r ->
     exists x m p,
       ModelService.preprocess_input float_of_str self input_data = Some x /\
       ModelService.model self = Some m /\
       clf_predict m x = Some p /\
       ModelService.stress_level_of p = Some (ModelService.r_level r)) /\
  (forall float_of_str self input_data x m c,
     ModelService.preprocess_input float_of_str self input_data = Some x ->
     ModelService.model self = Some m ->
     clf_predict m x = Some (PInt c) ->
     c <> 0 -> c <> 1 -> c <> 2 ->
     ModelService.predict float_of_str self input_data = None) /\
  (forall float_of_str self input_data r events,
     App.ModelService.predict float_of_str self input_data
       = (Some r, events) ->
     exists x m p,
       App.ModelService.preprocess_input float_of_str self input_data
         = Some x /\
       App.ModelService.model self = Some m /\
       clf_predict m x = Some p /\
       App.ModelService.r_level r = str_of_prediction p) /\
  (forall s l,
     StressLevelEnum.of_string (str_title (str_strip s)) = Some l ->
     ResponseFormatter._categorize_stress_level (VStr s) = l).
Proof.
  split; [|split; [|split; [|split; [|split]]]].
  - intros c. apply reverse_stress_mappings_lookup.
  - reflexivity.
  - intros f self input r H.
    destruct (services_predict_inv _ _ _ _ H)
      as (_ & x & m & p & c & l & Hx & Hm & Hp & _ & Hl & Hr & _).
    exists x, m, p. subst l. auto.
  - intros f self input x m c Hx Hm Hp H0 H1 H2.
    unfold ModelService.predict.
    destruct (ModelService.is_loaded self); [|reflexivity]. simpl.
    rewrite Hx. simpl. rewrite Hm. simpl. rewrite Hp. simpl.
    destruct (ModelService.confidence_of m x); [|reflexivity]. simpl.
    unfold ModelService.stress_level_of. simpl.
    rewrite reverse_stress_mappings_lookup.
    destruct (Z.eqb_spec c 0); [contradiction|].
    destruct (Z.eqb_spec c 1); [contradiction|].
    destruct (Z.eqb_spec c 2); [contradiction|]. reflexivity.
  - intros f self input r events H.
    destruct (app_predict_inv _ _ _ _ _ H)
      as (x & m & p & Hx & Hm & Hp & _ & Hl & _).
    exists x, m, p. auto.
  - intros s l Hl. simpl. rewrite Hl. reflexivity.
Qed.

(** The inference engine on concrete classifier outputs: the code 2 is
    High in [services/model_service.py]; the string "high" stays "high". *)
Lemma inference_label_mapping_witness :
  (exists r,
     ModelService.predict no_float_of_str
       (sample_service (constant_classifier (PInt 2) None))
       (to_model_format sample_request) = Some r /\
     ModelService.r_level r = "High") /\
  ResponseFormatter._categorize_stress_level (VStr "high")
    = StressLevelEnum.HIGH.
Proof.
  split.
  - destruct (ModelService.predict no_float_of_str
                (sample_service (constant_classifier (PInt 2) None))
                (to_model_format sample_request)) as [r|] eqn:E.
    + exists r. split; [reflexivity|].
      destruct (proj1 (proj2 (proj2 inference_label_mapping)) _ _ _ _ E)
        as (x & m & p & Hx & Hm & Hp & Hl).
      simpl in Hm. injection Hm as <-. simpl in Hp. injection Hp as <-.
      vm_compute in Hl. injection Hl as Hl. symmetry. exact Hl.
    + vm_compute in E. discriminate.
  - apply (proj2 (proj2 (proj2 (proj2 (proj2 inference_label_mapping))))).
    reflexivity.
Defined.

(** C7 as stated fails: for the classifier output "high" the claimed
    mapping gives the label High, but the inference engine of
    [services/model_service.py] returns the label "high" (with the score
    of an unknown label), and for the integer code 2 the engine of
    [app.py] returns the label "2". *)
Lemma inference_label_not_matched :
  claimed_label (PStr "high") = Some "High" /\
  (exists r,
     ModelService.predict no_float_of_str
       (sample_service (constant_classifier (PStr "high") None))
       (to_model_format sample_request) = Some r /\
     ModelService.r_level r = "high" /\
     ModelService.r_level r <> "High" /\
     ModelService.r_score r = 50) /\
  claimed_label (PInt 2) = Some "High" /\
  (exists r events,
     App.ModelService.predict no_float_of_str
       (sample_app_service (constant_classifier (PInt 2) None))
       (to_model_format sample_request) = (Some r, events) /\
     App.ModelService.r_level r = "2").
Proof.
  split; [reflexivity|]. split.
  - eexists. split; [vm_compute; reflexivity|].
    repeat split; try reflexivity. discriminate.
  - split; [reflexivity|].
    eexists. eexists. split; [vm_compute; reflexivity|]. reflexivity.
Qed.

(** ** The dictionary of a validated request *)

Lemma to_model_format_lookup (request : StressPredictionRequest) :
  to_model_format request !! "Age" = Some (VInt (age request)) /\
  to_model_format request !! "Gender" = Some (VStr (GenderEnum.value_of (gender request))) /\
  to_model_format request !! "Sleep_Duration" = Some (VFloat (sleep_duration request)) /\
  to_model_format request !! "Sleep_Quality" = Some (VInt (sleep_quality request)) /\
  to_model_format request !! "Physical_Activity" = Some (VInt (physical_activity request)) /\
  to_model_format request !! "Screen_Time" = Some (VFloat (screen_time request)) /\
  to_model_format request !! "Caffeine_Intake" = Some (VInt (caffeine_intake request)) /\
  to_model_format request !! "Smoking_Habit" = Some (VStr (SmokingHabitEnum.value_of (smoking_habit request))) /\
  to_model_format request !! "Work_Hours" = Some (VFloat (work_hours request)) /\
  to_model_format request !! "Travel_Time" = Some (VFloat (travel_time request)) /\
  to_model_format request !! "Social_Interactions" = Some (VInt (social_interactions request)) /\
  to_model_format request !! "Meditation_Practice" = Some (VStr (MeditationPracticeEnum.value_of (meditation_practice request))) /\
  to_model_format request !! "Exercise_Type" = Some (VStr (ExerciseTypeEnum.value_of (exercise_type request))).
Proof. repeat split; reflexivity. Qed.

Lemma to_model_format_get (request : StressPredictionRequest) (dflt : value) :
  dict_get (to_model_format request) "Age" dflt = VInt (age request) /\
  dict_get (to_model_format request) "Gender" dflt = VStr (GenderEnum.value_of (gender request)) /\
  dict_get (to_model_format request) "Sleep_Duration" dflt = VFloat (sleep_duration request) /\
  dict_get (to_model_format request) "Sleep_Quality" dflt = VInt (sleep_quality request) /\
  dict_get (to_model_format request) "Physical_Activity" dflt = VInt (physical_activity request) /\
  dict_get (to_model_format request) "Screen_Time" dflt = VFloat (screen_time request) /\
  dict_get (to_model_format request) "Caffeine_Intake" dflt = VInt (caffeine_intake request) /\
  dict_get (to_model_format request) "Smoking_Habit" dflt = VStr (SmokingHabitEnum.value_of (smoking_habit request)) /\
  dict_get (to_model_format request) "Work_Hours" dflt = VFloat (work_hours request) /\
  dict_get (to_model_format request) "Travel_Time" dflt = VFloat (travel_time request) /\
  dict_get (to_model_format request) "Social_Interactions" dflt = VInt (social_interactions request) /\
  dict_get (to_model_format request) "Meditation_Practice" dflt = VStr (MeditationPracticeEnum.value_of (meditation_practice request)) /\
  dict_get (to_model_format request) "Exercise_Type" dflt = VStr (ExerciseTypeEnum.value_of (exercise_type request)).
Proof. repeat split; reflexivity. Qed.

(** Rewrite every [dict_get] on the dictionary of a request. *)
Ltac model_format_get :=
  repeat match goal with
  | |- context [dict_get (to_model_format ?r) ?k ?d] =>
      let H := fresh in
      pose proof (to_model_format_get r d) as H;
      repeat match type of H with
      | _ /\ _ => let H1 := fresh in destruct H as [H1 H]; try rewrite H1; clear H1
      end;
      try rewrite H; clear H
  end.

(** ** Recommendations of the response formatter *)

Lemma Qlt_bool_inject_Z (a b : Z) :
  Qlt_bool (inject_Z a) (inject_Z b) = (a <? b).
Proof.
  destruct (Z.ltb_spec a b) as [H|H].
  - apply Qlt_bool_iff. rewrite <- Zlt_Qlt. exact H.
  - apply Qlt_bool_false_iff. rewrite <- Zle_Qle. exact H.
Qed.

Lemma Qlt_bool_inject_Z_l (a b : Z) : Qlt_bool (inject_Z a) (b # 1) = (a <? b).
Proof. apply Qlt_bool_inject_Z. Qed.

Lemma filter_not_in_union (x : string) (seen : gset string)
    (l : list string) :
  filter (fun y => y ∉ ({[x]} ∪ seen : gset string)) l =
  filter (fun y => y ∉ seen) (filter (fun y => y <> x) l).
Proof.
  rewrite list_filter_filter. apply list_filter_iff.
  intros y. rewrite not_elem_of_union, not_elem_of_singleton. tauto.
Qed.

Lemma filter_not_in_absorb (x : string) (seen : gset string)
    (l : list string) :
  x ∈ seen ->
  filter (fun y => y ∉ seen) (filter (fun y => y <> x) l) =
  filter (fun y => y ∉ seen) l.
Proof.
  intros Hx. rewrite list_filter_filter. apply list_filter_iff.
  intros y. split; [tauto|]. intros Hy. split; [exact Hy|].
  intros ->. contradiction.
Qed.

(** The loop with its [seen] set keeps the first occurrence of each
    recommendation. *)
Lemma unique_loop_spec (l : list string) :
  forall (seen : gset string) (unique : list string),
    ResponseFormatter.unique_loop l seen unique =
    unique ++ filter (fun y => y ∉ seen) (dedup_first l).
Proof.
  induction l as [|x l IH]; intros seen unique; simpl.
  - rewrite app_nil_r. reflexivity.
  - case_bool_decide as Hx.
    + rewrite IH. f_equal.
      rewrite filter_cons_False by (intros Hn; apply Hn; exact Hx).
      symmetry. apply filter_not_in_absorb. exact Hx.
    + rewrite IH. rewrite <- app_assoc. f_equal.
      rewrite filter_cons_True by exact Hx. simpl. f_equal.
      apply filter_not_in_union.
Qed.

Lemma unique_loop_dedup_first (l : list string) :
  ResponseFormatter.unique_loop l ∅ [] = dedup_first l.
Proof.
  rewrite unique_loop_spec. simpl.
  induction (dedup_first l) as [|y d IH]; [reflexivity|].
  rewrite filter_cons_True by set_solver. f_equal. exact IH.
Qed.

Lemma dedup_first_subset (l : list string) (x : string) :
  x ∈ dedup_first l -> x ∈ l.
Proof.
  induction l as [|y l IH]; simpl; [auto|].
  intros [->|H]%elem_of_cons; [left|].
  apply list_elem_of_filter in H as [_ H]. right. auto.
Qed.

Lemma dedup_first_NoDup (l : list string) : NoDup (dedup_first l).
Proof.
  induction l as [|y l IH]; simpl; constructor.
  - intros H. apply list_elem_of_filter in H as [H _]. congruence.
  - apply NoDup_filter. exact IH.
Qed.

(** On the dictionary of a validated request, the personal
    recommendations of the formatter are those of the seven rules. *)
Lemma personal_recommendations_of_request (request : StressPredictionRequest) :
  ResponseFormatter._generate_personal_recommendations
    (to_model_format request) = amended_personal request.
Proof.
  unfold ResponseFormatter._generate_personal_recommendations,
    ResponseFormatter.personal_recommendations_body, amended_personal.
  model_format_get. unfold py_lt, py_gt. simpl.
  rewrite !Qlt_bool_inject_Z_l.
  destruct (Qlt_bool (sleep_duration request) 7),
    (sleep_quality request <? 3), (physical_activity request <? 2),
    (Qlt_bool 10 (work_hours request)), (Qlt_bool 8 (screen_time request)),
    (meditation_practice request), (exercise_type request); reflexivity.
Qed.

(** C9, as amended.  For every label and validated request, the formatter's
    recommendations are the template list of the label (3 entries for Low,
    4 for Medium, 6 for High) followed by the personalized recommendations
    of the rules sleep_duration < 7, sleep_quality < 3, physical_activity
    < 2 (or else exercise type Walking or Yoga), work_hours > 10,
    screen_time > 8 and meditation_practice = No, de-duplicated keeping
    first occurrences and cut to 6 entries. *)
Theorem personalized_recommendations_spec
    (label : StressLevelEnum.t) (request : StressPredictionRequest) :
  ResponseFormatter._generate_personalized_recommendations label
    (to_model_format request) = amended_recommendations label request /\
  length (ResponseFormatter.recommendation_templates StressLevelEnum.LOW)
    = 3%nat /\
  length (ResponseFormatter.recommendation_templates StressLevelEnum.MEDIUM)
    = 4%nat /\
  length (ResponseFormatter.recommendation_templates StressLevelEnum.HIGH)
    = 6%nat /\
  NoDup (ResponseFormatter._generate_personalized_recommendations label
           (to_model_format request)) /\
  (1 <= length (ResponseFormatter._generate_personalized_recommendations
                  label (to_model_format request)) <= 6)%nat.
Proof.
  assert (E : ResponseFormatter._generate_personalized_recommendations label
                (to_model_format request)
              = amended_recommendations label request).
  { unfold ResponseFormatter._generate_personalized_recommendations,
      amended_recommendations.
    rewrite personal_recommendations_of_request, unique_loop_dedup_first.
    reflexivity. }
  split; [exact E|]. repeat (split; [reflexivity|]).
  rewrite E. unfold amended_recommendations. split; [|split].
  - eapply sublist_NoDup; [apply dedup_first_NoDup|apply sublist_take].
  - destruct label; simpl; lia.
  - rewrite length_take. lia.
Qed.

(** C9 as stated fails: for the label Low and a request whose only
    trigger is a sleep quality of 2, the formatter returns four
    recommendations, the fourth being the one about sleep hygiene, where
    the five rules of the claim give the three of the template. *)
Lemma personalized_recommendations_more_rules :
  ResponseFormatter._generate_personalized_recommendations
    StressLevelEnum.LOW (to_model_format poor_sleep_request) =
  [ "Maintain your current healthy lifestyle habits";
    "Continue regular physical activity and good sleep schedule";
    "Keep practicing stress-prevention techniques";
    "Focus on improving sleep quality through better sleep hygiene" ] /\
  claimed_recommendations StressLevelEnum.LOW poor_sleep_request =
  [ "Maintain your current healthy lifestyle habits";
    "Continue regular physical activity and good sleep schedule";
    "Keep practicing stress-prevention techniques" ] /\
  ResponseFormatter._generate_personalized_recommendations
    StressLevelEnum.LOW (to_model_format poor_sleep_request) <>
  claimed_recommendations StressLevelEnum.LOW poor_sleep_request.
Proof.
  assert (E1 : ResponseFormatter._generate_personalized_recommendations
                 StressLevelEnum.LOW (to_model_format poor_sleep_request) =
               [ "Maintain your current healthy lifestyle habits";
                 "Continue regular physical activity and good sleep schedule";
                 "Keep practicing stress-prevention techniques";
                 "Focus on improving sleep quality through better sleep hygiene" ]).
  { rewrite (proj1 (personalized_recommendations_spec _ _)).
    vm_compute. reflexivity. }
  assert (E2 : claimed_recommendations StressLevelEnum.LOW poor_sleep_request
               = [ "Maintain your current healthy lifestyle habits";
                   "Continue regular physical activity and good sleep schedule";
                   "Keep practicing stress-prevention techniques" ]).
  { vm_compute. reflexivity. }
  split; [exact E1|]. split; [exact E2|].
  rewrite E1, E2. discriminate.
Qed.

(** ** The feature encoder *)






(** The fallback response of [app.py] is always the standard one. *)
Lemma fallback_response_standard :
  exists r,
    App._create_fallback_response = App.Response r /\
    App.standard_fallback = Some r /\
    level r = StressLevelEnum.MEDIUM /\
    score r = 50 /\
    confidence r = (5 # 10)%Q /\
    length (insights r) = 2%nat /\
    length (recommendations r) = 3%nat /\
    length (plan_tasks (wellness_plan r)) = 3%nat.
Proof.
  unfold App._create_fallback_response.
  destruct App.standard_fallback as [r|] eqn:E.
  - exists r. vm_compute in E. injection E as <-.
    repeat split; reflexivity.
  - vm_compute in E. discriminate.
Qed.



(** ** Validation of a request *)

Section ValidationProperties.

Variable int_validator : value -> option Z.
Variable float_validator : value -> option Q.
Variable raw : gmap string value.





Lemma field_error_none name (chk : value -> option error_type) v :
  raw !! name = Some v -> chk v = None ->
  field_error raw (name, chk) = None.
Proof. intros Hv Hc. unfold field_error. simpl. rewrite Hv, Hc. easy. Qed.






End ValidationProperties.

Ltac qcompute := vm_compute; first [reflexivity | discriminate].




(** ** Completeness of the validation errors *)


Section ValidationErrors.

Variable int_validator : value -> option Z.
Variable float_validator : value -> option Q.
Variable raw : gmap string value.

Let fields := model_fields int_validator float_validator.
Let names := field_names int_validator float_validator.
Let errors :=
  field_errors int_validator float_validator raw ++
  extra_errors int_validator float_validator raw.


Lemma field_errors_elem (e : ErrorDetails) :
  e ∈ field_errors int_validator float_validator raw <->
  exists name chk,
    (name, chk) ∈ fields /\
    ((raw !! name = None /\
      e = {| loc := [name]; msg := missing; input := VOther |}) \/
     (exists v k, raw !! name = Some v /\ chk v = Some k /\
                  e = {| loc := [name]; msg := k; input := v |})).
Proof.
  unfold field_errors. rewrite list_elem_of_omap. split.
  - intros ([name chk] & Hin & He). exists name, chk. split; [exact Hin|].
    unfold field_error in He. simpl in He.
    destruct (raw !! name) as [v|].
    + destruct (chk v) as [k|] eqn:Hk; [|discriminate].
      injection He as <-. right. eauto.
    + injection He as <-. left. auto.
  - intros (name & chk & Hin & H). exists (name, chk). split; [exact Hin|].
    unfold field_error. simpl.
    destruct H as [[Hn ->]|(v & k & Hv & Hk & ->)].
    + rewrite Hn. reflexivity.
    + rewrite Hv, Hk. reflexivity.
Qed.

Lemma extra_errors_elem (e : ErrorDetails) :
  e ∈ extra_errors int_validator float_validator raw <->
  exists name v,
    raw !! name = Some v /\ (name ∉ names) /\
    e = {| loc := [name]; msg := extra_forbidden; input := v |}.
Proof.
  unfold extra_errors. rewrite list_elem_of_omap. split.
  - intros ([name v] & Hin & He). simpl in He.
    apply elem_of_map_to_list in Hin.
    case_bool_decide as Hn; [discriminate|]. injection He as <-.
    exists name, v. auto.
  - intros (name & v & Hv & Hn & ->). exists (name, v).
    split; [apply elem_of_map_to_list; exact Hv|]. simpl.
    rewrite bool_decide_eq_false_2 by exact Hn. reflexivity.
Qed.





End ValidationErrors.


(** ** The responses of the endpoint *)

Lemma StressLevelEnum_of_string_inv (s : string) (l : StressLevelEnum.t) :
  StressLevelEnum.of_string s = Some l -> s = StressLevelEnum.value_of l.
Proof.
  unfold StressLevelEnum.of_string.
  repeat case_bool_decide; intros Heq; inversion Heq; subst; reflexivity.
Qed.

Lemma StressLevelEnum_value_in (l : StressLevelEnum.t) :
  StressLevelEnum.value_of l ∈ ["Low"; "Medium"; "High"].
Proof. destruct l; apply list_elem_of_In; simpl; tauto. Qed.

Lemma app_numerical_score_midpoint (l : StressLevelEnum.t) :
  App.ModelService.numerical_score_of (StressLevelEnum.value_of l)
  = midpoint l.
Proof. destruct l; reflexivity. Qed.

Lemma services_numerical_score_midpoint (l : StressLevelEnum.t) :
  ModelService.numerical_score_of (StressLevelEnum.value_of l) = midpoint l.
Proof. destruct l; reflexivity. Qed.

(** What a constructed [StressPredictionResponse] was validated for. *)
Lemma StressPredictionResponse_init_inv lvl sc conf ins recs plan nm ms fi r :
  StressPredictionResponse_init lvl sc conf ins recs plan nm ms fi = Some r ->
  StressLevelEnum.of_string lvl = Some (level r) /\
  0 <= sc <= 100 /\ (0 <= conf)%Q /\ (conf <= 1)%Q /\
  score r = sc /\ confidence r = conf /\ insights r = ins /\
  recommendations r = recs /\ wellness_plan r = plan.
Proof.
  unfold StressPredictionResponse_init. intros H.
  destruct (StressLevelEnum.of_string lvl) as [l|]; [|discriminate].
  simpl in H.
  destruct (Z.ltb_spec sc 0); simpl in H; [discriminate|].
  destruct (Z.ltb_spec 100 sc); simpl in H; [discriminate|].
  destruct (Qlt_bool conf 0) eqn:E1; simpl in H; [discriminate|].
  destruct (Qlt_bool 1 conf) eqn:E2; simpl in H; [discriminate|].
  qbool. injection H as <-. simpl. repeat split; auto; lia.
Qed.

Lemma app_insights_length input_data stress_level :
  (1 <= length (App.ModelService._generate_insights input_data stress_level)
   <= 3)%nat.
Proof.
  unfold App.ModelService._generate_insights,
    App.ModelService.generate_insights_body.
  destruct (py_lt _ 6) as [[]|]; simpl; try lia;
    destruct (py_gt _ 10) as [[]|]; simpl; try lia;
    destruct (py_lt _ 1) as [[]|]; simpl; lia.
Qed.

Lemma app_recommendations_length stress_level :
  (1 <= length (App.ModelService._generate_recommendations stress_level)
   <= 4)%nat.
Proof.
  unfold App.ModelService._generate_recommendations.
  repeat case_bool_decide; simpl; lia.
Qed.

Lemma app_wellness_plan_tasks stress_level insights :
  exists plan,
    App._create_wellness_plan stress_level insights = Some plan /\
    (2 <= length (plan_tasks plan) <= 4)%nat.
Proof.
  unfold App._create_wellness_plan.
  repeat case_bool_decide; eexists; (split; [reflexivity|simpl; lia]).
Qed.

Lemma fallback_response_ok :
  exists r, App._create_fallback_response = App.Response r /\ response_ok r.
Proof.
  destruct fallback_response_standard
    as (r & Hr & _ & Hl & Hs & Hc & Hi & Hrec & Ht).
  exists r. split; [exact Hr|]. unfold response_ok.
  rewrite Hl, Hs, Hc, Hi, Hrec, Ht.
  repeat split; try lia; try qcompute.
  apply list_elem_of_In. simpl. tauto.
Qed.

(** A response built from a prediction of the model service of [app.py]
    is well formed. *)
Lemma fresh_response_ok float_of_str self input_data pr events r :
  App.ModelService.predict float_of_str self input_data = (Some pr, events) ->
  StressPredictionResponse_init
    (App.ModelService.r_level pr) (App.ModelService.r_score pr)
    (App.ModelService.r_confidence pr) (App.ModelService.r_insights pr)
    (App.ModelService.r_recommendations pr)
    (match App._create_wellness_plan (App.ModelService.r_level pr)
             (App.ModelService.r_insights pr) with
     | Some plan => plan
     | None => App.basic_wellness_plan
     end)
    (App.ModelService.r_model_name pr) (App.ModelService.r_model_score pr)
    None = Some r ->
  response_ok r.
Proof.
  intros Hp Hi.
  destruct (app_predict_inv _ _ _ _ _ Hp)
    as (x & m & p & _ & _ & _ & _ & Hl & Hs & Hins & Hrec & _).
  destruct (StressPredictionResponse_init_inv _ _ _ _ _ _ _ _ _ _ Hi)
    as (Hlvl & Hsc & Hc0 & Hc1 & Es & Ec & Ei & Er & Ew).
  apply StressLevelEnum_of_string_inv in Hlvl.
  unfold response_ok. rewrite Es, Ec, Ei, Er, Ew.
  split; [apply StressLevelEnum_value_in|].
  split; [exact Hsc|]. split; [exact Hc0|]. split; [exact Hc1|].
  split.
  { rewrite Hins.
    pose proof (app_insights_length input_data (str_of_prediction p)). lia. }
  split.
  { rewrite Hrec.
    pose proof (app_recommendations_length (str_of_prediction p)). lia. }
  split.
  - destruct (app_wellness_plan_tasks (App.ModelService.r_level pr)
                (App.ModelService.r_insights pr)) as (plan & -> & Hlen).
    lia.
  - rewrite Hs, <- Hl, Hlvl. apply app_numerical_score_midpoint.
Qed.

(** ** The cache *)

Lemma foldr_delete_lookup (m : gmap string App.cache_entry)
    (keys : list string) (k : string) :
  foldr delete m keys !! k = if bool_decide (k ∈ keys) then None else m !! k.
Proof.
  induction keys as [|x keys IH]; simpl.
  - reflexivity.
  - rewrite lookup_delete. destruct (decide (x = k)) as [->|Hx].
    + rewrite bool_decide_eq_true_2 by left. reflexivity.
    + rewrite IH. case_bool_decide as H1; case_bool_decide as H2;
        try reflexivity.
      * exfalso. apply H2. right. exact H1.
      * apply elem_of_cons in H2 as [->|H2]; [congruence|contradiction].
Qed.

Lemma expired_keys_elem (m : gmap string App.cache_entry) (t : Z)
    (k : string) :
  k ∈ App.expired_keys m t <->
  exists e, m !! k = Some e /\ App.cache_ttl < t - App.timestamp e.
Proof.
  unfold App.expired_keys. rewrite list_elem_of_fmap. split.
  - intros ([k' e] & -> & H). apply elem_of_map_to_list in H.
    apply map_lookup_filter_Some in H as [H1 H2]. exists e. auto.
  - intros (e & H1 & H2). exists (k, e). split; [reflexivity|].
    apply elem_of_map_to_list. apply map_lookup_filter_Some. auto.
Qed.

(** The cache after a store and its sweep: the new entry is in, and every
    entry older than the time to live at the sweep is out. *)
Lemma cache_store_lookup cache key r clk k :
  (App.cache_store cache key r clk).1 !! k =
  match <[key := {| App.response := r;
                    App.timestamp := App.now_store clk |}]> cache !! k with
  | Some e =>
      if App.cache_ttl <? App.now_sweep clk - App.timestamp e
      then None else Some e
  | None => None
  end.
Proof.
  unfold App.cache_store. simpl. rewrite foldr_delete_lookup.
  set (m := <[key := _]> cache).
  case_bool_decide as H.
  - apply expired_keys_elem in H as (e & He & Hlt). rewrite He.
    destruct (Z.ltb_spec App.cache_ttl (App.now_sweep clk - App.timestamp e));
      [reflexivity|lia].
  - destruct (m !! k) as [e|] eqn:He; [|reflexivity].
    destruct (Z.ltb_spec App.cache_ttl (App.now_sweep clk - App.timestamp e));
      [|reflexivity].
    exfalso. apply H. apply expired_keys_elem. eauto.
Qed.

Lemma cache_store_events cache key r clk :
  In (App.CacheStore key) (App.cache_store cache key r clk).2 /\
  forall x, ~ In (App.ModelPredict x) (App.cache_store cache key r clk).2.
Proof.
  unfold App.cache_store. simpl. split; [left; reflexivity|].
  intros x [H|H]; [discriminate|].
  apply in_map_iff in H as (k & Hk & _). discriminate.
Qed.

Lemma cache_store_ok cache key r clk :
  cache_ok cache -> response_ok r ->
  cache_ok (App.cache_store cache key r clk).1.
Proof.
  intros Hc Hr k e He. rewrite cache_store_lookup in He.
  destruct (<[key:=_]> cache !! k) as [e'|] eqn:E; [|discriminate].
  destruct (_ <? _); [discriminate|]. injection He as <-.
  rewrite lookup_insert in E. destruct (decide (key = k)).
  - injection E as <-. exact Hr.
  - eapply Hc; eauto.
Qed.

Lemma cache_lookup_ok cache key clk :
  cache_ok cache ->
  cache_ok (App.cache_lookup cache key clk).1.2 /\
  forall r, (App.cache_lookup cache key clk).1.1 = Some r -> response_ok r.
Proof.
  intros Hc. unfold App.cache_lookup.
  destruct (cache !! key) as [e|] eqn:E; simpl.
  - destruct (App._is_cache_valid _ _); simpl.
    + split; [exact Hc|]. intros r [= <-]. eapply Hc; eauto.
    + split; [|discriminate]. intros k e' He.
      rewrite lookup_delete in He.
      destruct (decide (key = k)); [discriminate|].
      eapply Hc; eauto.
  - split; [exact Hc|discriminate].
Qed.

(** ** The responses of the response formatter *)

Lemma take_nonempty_length {A : Type} (n : nat) (l : list A) :
  (1 <= n)%nat -> (1 <= length l)%nat ->
  (1 <= length (take n l) <= n)%nat.
Proof. intros Hn Hl. rewrite length_take. lia. Qed.

Lemma dedup_first_nonempty (l : list string) :
  (1 <= length l)%nat -> (1 <= length (dedup_first l))%nat.
Proof. destruct l; simpl; lia. Qed.

Lemma formatter_insights_length input_data stress_level feature_importance :
  (1 <= length (ResponseFormatter._generate_enhanced_insights input_data
                  stress_level feature_importance) <= 5)%nat.
Proof.
  unfold ResponseFormatter._generate_enhanced_insights.
  apply take_nonempty_length; [lia|].
  match goal with
  | |- context [match ?l with [] => _ | _ :: _ => _ end] => destruct l
  end; simpl; lia.
Qed.

Lemma formatter_recommendations_length stress_level input_data :
  (1 <= length (ResponseFormatter._generate_personalized_recommendations
                  stress_level input_data) <= 6)%nat.
Proof.
  unfold ResponseFormatter._generate_personalized_recommendations.
  rewrite unique_loop_dedup_first.
  apply take_nonempty_length; [lia|]. apply dedup_first_nonempty.
  simpl. rewrite length_app. destruct stress_level; simpl; lia.
Qed.

Lemma wellness_tasks_loop_length uuid4_hex8 all_tasks :
  forall i tasks result,
    ResponseFormatter.wellness_tasks_loop uuid4_hex8 i all_tasks tasks
      = Some result ->
    length result = (length tasks + length all_tasks)%nat.
Proof.
  induction all_tasks as [|t rest IH]; intros i tasks result H; simpl in H.
  - injection H as <-. simpl. lia.
  - destruct (WellnessTask_init _ _ _ _ _) as [task|]; [|discriminate].
    simpl in H. apply IH in H. rewrite H, length_app. simpl. lia.
Qed.

Lemma formatter_tasks_length uuid4_hex8 stress_level input_data :
  (1 <= length (ResponseFormatter._generate_wellness_tasks uuid4_hex8
                  stress_level input_data) <= 6)%nat.
Proof.
  unfold ResponseFormatter._generate_wellness_tasks.
  destruct (ResponseFormatter.wellness_tasks_loop _ _ _ _) as [tasks|] eqn:E.
  - apply wellness_tasks_loop_length in E. rewrite E. simpl.
    apply take_nonempty_length; [lia|]. rewrite length_app.
    destruct stress_level; simpl; lia.
  - simpl. lia.
Qed.

Lemma formatter_plan_tasks_length uuid4_hex8 stress_level input_data ins :
  (1 <= length (plan_tasks
                  (ResponseFormatter._create_wellness_plan uuid4_hex8
                     stress_level input_data ins)) <= 6)%nat.
Proof.
  unfold ResponseFormatter._create_wellness_plan.
  destruct (ResponseFormatter._generate_plan_summary _ _); simpl.
  - apply formatter_tasks_length.
  - lia.
Qed.

(** Whatever the model service returned, the formatted response is within
    the bounds. *)
Lemma format_prediction_response_bounds uuid4_hex8 prediction_result
    input_data :
  let r :=
    ResponseFormatter.format_prediction_response uuid4_hex8
      prediction_result input_data in
  StressLevelEnum.value_of (level r) ∈ ["Low"; "Medium"; "High"] /\
  0 <= score r <= 100 /\
  (0 <= confidence r)%Q /\ (confidence r <= 1)%Q /\
  (1 <= length (insights r) <= 5)%nat /\
  (1 <= length (recommendations r) <= 6)%nat /\
  (1 <= length (plan_tasks (wellness_plan r)) <= 6)%nat.
Proof.
  intros r. subst r. unfold ResponseFormatter.format_prediction_response.
  split; [apply StressLevelEnum_value_in|].
  destruct (StressPredictionResponse_init _ _ _ _ _ _ _ _ _) as [r|] eqn:Hi.
  - destruct (StressPredictionResponse_init_inv _ _ _ _ _ _ _ _ _ _ Hi)
      as (_ & Hsc & Hc0 & Hc1 & Es & Ec & Ei & Er & Ew).
    rewrite Es, Ec, Ei, Er, Ew.
    split; [exact Hsc|]. split; [exact Hc0|]. split; [exact Hc1|].
    split; [apply formatter_insights_length|].
    split; [apply formatter_recommendations_length|].
    apply formatter_plan_tasks_length.
  - simpl. repeat split; try lia; qcompute.
Qed.

(** The score of the formatter, unlike that of the model services, moves
    with the confidence: for the level High it is 75 at confidence 1 and
    82 at confidence 0.5. *)
Lemma formatter_score_uses_confidence :
  ResponseFormatter._calculate_numerical_score StressLevelEnum.HIGH 1 = 75 /\
  ResponseFormatter._calculate_numerical_score StressLevelEnum.HIGH (5 # 10)
    = 82 /\
  ResponseFormatter._calculate_numerical_score StressLevelEnum.LOW (5 # 10)
    = 18.
Proof. repeat split; reflexivity. Qed.

(** ** The endpoint *)

Section EndpointProperties.

Variable float_of_str : string -> option Q.
Variable _generate_cache_key : gmap string value -> string.

Local Abbreviation fresh_prediction :=
  (App.fresh_prediction float_of_str).
Local Abbreviation predict_model_input :=
  (App.predict_model_input float_of_str _generate_cache_key).
Local Abbreviation predict_stress :=
  (App.predict_stress float_of_str _generate_cache_key).
Local Abbreviation reachable :=
  (App.reachable float_of_str _generate_cache_key).

(** The three ways out of a fresh prediction. *)
Lemma fresh_prediction_cases self cache key model_input clk :
  (fresh_prediction self cache key model_input clk
     = (App._create_fallback_response, cache,
        (App.ModelService.predict float_of_str self model_input).2)) \/
  (exists pr r,
     App.ModelService.predict float_of_str self model_input
       = (Some pr, (App.ModelService.predict float_of_str self model_input).2)
     /\
     StressPredictionResponse_init
       (App.ModelService.r_level pr) (App.ModelService.r_score pr)
       (App.ModelService.r_confidence pr) (App.ModelService.r_insights pr)
       (App.ModelService.r_recommendations pr)
       (match App._create_wellness_plan (App.ModelService.r_level pr)
                (App.ModelService.r_insights pr) with
        | Some plan => plan
        | None => App.basic_wellness_plan
        end)
       (App.ModelService.r_model_name pr) (App.ModelService.r_model_score pr)
       None = Some r /\
     fresh_prediction self cache key model_input clk
       = (App.Response r, (App.cache_store cache key r clk).1,
          (App.ModelService.predict float_of_str self model_input).2 ++
          (App.cache_store cache key r clk).2)).
Proof.
  unfold App.fresh_prediction.
  destruct (App.ModelService.predict float_of_str self model_input)
    as [[pr|] ev] eqn:Hp; simpl; [|left; reflexivity].
  destruct (StressPredictionResponse_init _ _ _ _ _ _ _ _ _) as [r|] eqn:Hi;
    [|left; reflexivity].
  right. exists pr, r. split; [reflexivity|]. split; [exact Hi|].
  destruct (App.cache_store cache key r clk). reflexivity.
Qed.

Lemma fresh_prediction_ok self cache key model_input clk :
  cache_ok cache ->
  exists r cache' events,
    fresh_prediction self cache key model_input clk
      = (App.Response r, cache', events) /\
    response_ok r /\ cache_ok cache'.
Proof.
  intros Hc.
  destruct (fresh_prediction_cases self cache key model_input clk)
    as [H|(pr & r & Hp & Hi & H)]; rewrite H.
  - destruct fallback_response_ok as (r & -> & Hr). eauto 6.
  - assert (Hr : response_ok r) by (eapply fresh_response_ok; eauto).
    do 3 eexists. split; [reflexivity|]. split; [exact Hr|].
    apply cache_store_ok; assumption.
Qed.

(** Every request is answered with a well-formed response, and the cache
    stays well formed. *)
Lemma predict_model_input_ok st model_input clk :
  cache_ok (App.prediction_cache st) ->
  exists r st' events,
    predict_model_input st model_input clk = (App.Response r, st', events) /\
    response_ok r /\ cache_ok (App.prediction_cache st').
Proof.
  intros Hc. unfold App.predict_model_input.
  destruct (App.model_loaded st); [destruct (App.model_service st) as [svc|]|].
  - destruct (cache_lookup_ok (App.prediction_cache st)
                (_generate_cache_key model_input) clk Hc) as [Hc' Hr].
    destruct (App.cache_lookup _ _ _) as [[cached cache] lev].
    simpl in Hc', Hr. destruct cached as [r|].
    + do 3 eexists. split; [reflexivity|]. split; [apply Hr; reflexivity|].
      exact Hc'.
    + destruct (fresh_prediction_ok svc cache
                  (_generate_cache_key model_input) model_input clk Hc')
        as (r & cache' & ev & -> & Hr' & Hc'').
      do 3 eexists. split; [reflexivity|]. split; assumption.
  - destruct fallback_response_ok as (r & -> & Hr). eauto 6.
  - destruct fallback_response_ok as (r & -> & Hr). eauto 6.
Qed.

Lemma startup_event_cache test production :
  App.prediction_cache (App.startup_event test production) = ∅.
Proof.
  unfold App.startup_event. destruct (App.try_model_files _); reflexivity.
Qed.

Lemma reachable_cache_ok st : reachable st -> cache_ok (App.prediction_cache st).
Proof.
  induction 1 as [test production|st request clk _ IH].
  - rewrite startup_event_cache. intros k e He.
    rewrite lookup_empty in He. discriminate.
  - unfold App.predict_stress.
    destruct (predict_model_input_ok st (to_model_format request) clk IH)
      as (r & st' & ev & -> & _ & Hc). exact Hc.
Qed.

(** C2.  In the degraded state every valid request is answered with the
    fixed fallback response (level Medium, score 50, confidence 0.5); no
    exception is raised, the cache is neither looked up nor changed, and
    the classifier is not invoked: the request leaves no event and the
    state as it was. *)
Theorem degraded_mode_fallback
    (st : App.state) (request : StressPredictionRequest) (clk : App.clock) :
  degraded st ->
  exists r,
    predict_stress st request clk = (App.Response r, st, []) /\
    App.standard_fallback = Some r /\
    level r = StressLevelEnum.MEDIUM /\
    score r = 50 /\
    confidence r = (5 # 10)%Q.
Proof.
  intros Hd.
  destruct fallback_response_standard as (r & Hr & Hs & Hl & Hsc & Hc & _).
  exists r. split; [|auto].
  unfold App.predict_stress, App.predict_model_input. rewrite <- Hr.
  destruct Hd as [-> | ->]; [reflexivity|].
  destruct (App.model_loaded st); reflexivity.
Qed.

End EndpointProperties.

(** Without a loadable model file the process starts degraded. *)
Lemma startup_without_model_degraded (test production : App.model_file) :
  ~ loadable test -> ~ loadable production ->
  App.startup_event test production =
  {| App.model_loaded := false; App.model_service := None;
     App.prediction_cache := ∅ |}.
Proof.
  intros Ht Hp.
  assert (H : forall f, ~ loadable f ->
            forall rest, App.try_model_files (f :: rest)
                         = App.try_model_files rest).
  { intros f Hf rest. simpl.
    destruct (Nat.eqb_spec (App.file_size f) 0) as [|Hsz]; [reflexivity|].
    unfold App.load_model.
    destruct (App.file_exists f) eqn:He; simpl; [|reflexivity].
    destruct (App.file_content f) eqn:Hc; simpl; [|reflexivity].
    exfalso. apply Hf. unfold loadable. rewrite He, Hc. eauto. }
  unfold App.startup_event.
  destruct (App.file_exists test), (App.file_exists production); simpl app;
    rewrite ?(H test Ht), ?(H production Hp); reflexivity.
Qed.

(** C1.  In every state the process can be in, [predict] answers a valid
    request with a response whose level is Low, Medium or High, whose score
    is between 0 and 100, whose confidence is between 0 and 1, with 1 to 5
    insights, 1 to 6 recommendations and a wellness plan of 1 to 6 tasks.
    The same bounds hold of every response the response formatter builds
    from a result of the model service. *)
Theorem predict_response_bounds :
  (forall float_of_str _generate_cache_key st request clk,
     App.reachable float_of_str _generate_cache_key st ->
     exists r st' events,
       App.predict_stress float_of_str _generate_cache_key st request clk
         = (App.Response r, st', events) /\
       StressLevelEnum.value_of (level r) ∈ ["Low"; "Medium"; "High"] /\
       0 <= score r <= 100 /\
       (0 <= confidence r)%Q /\ (confidence r <= 1)%Q /\
       (1 <= length (insights r) <= 5)%nat /\
       (1 <= length (recommendations r) <= 6)%nat /\
       (1 <= length (plan_tasks (wellness_plan r)) <= 6)%nat) /\
  (forall uuid4_hex8 prediction_result input_data,
     let r :=
       ResponseFormatter.format_prediction_response uuid4_hex8
         prediction_result input_data in
     StressLevelEnum.value_of (level r) ∈ ["Low"; "Medium"; "High"] /\
     0 <= score r <= 100 /\
     (0 <= confidence r)%Q /\ (confidence r <= 1)%Q /\
     (1 <= length (insights r) <= 5)%nat /\
     (1 <= length (recommendations r) <= 6)%nat /\
     (1 <= length (plan_tasks (wellness_plan r)) <= 6)%nat).
Proof.
  split.
  - intros f key st request clk Hst.
    destruct (predict_model_input_ok f key st (to_model_format request) clk
                (reachable_cache_ok f key st Hst))
      as (r & st' & ev & H & (H1 & H2 & H3 & H4 & H5 & H6 & H7 & _) & _).
    exists r, st', ev. unfold App.predict_stress. auto 10.
  - exact format_prediction_response_bounds.
Qed.

(** The high-stress example of the specification, on a freshly started
    process whose model answers "High". *)
Lemma predict_response_bounds_witness :
  exists r st' events,
    App.predict_stress no_float_of_str sample_cache_key
      (App.startup_event high_stress_file absent_file) stressed_request
      (clock_at ten_o_clock) = (App.Response r, st', events) /\
    StressLevelEnum.value_of (level r) ∈ ["Low"; "Medium"; "High"] /\
    0 <= score r <= 100 /\
    (0 <= confidence r)%Q /\ (confidence r <= 1)%Q /\
    (1 <= length (insights r) <= 5)%nat /\
    (1 <= length (recommendations r) <= 6)%nat /\
    (1 <= length (plan_tasks (wellness_plan r)) <= 6)%nat.
Proof.
  exact (proj1 predict_response_bounds no_float_of_str sample_cache_key
           (App.startup_event high_stress_file absent_file)
           stressed_request (clock_at ten_o_clock)
           (App.reachable_startup no_float_of_str sample_cache_key
              high_stress_file absent_file)).
Defined.

(** That response is the one of the High label. *)
Lemma stressed_request_response :
  exists r st' events,
    App.predict_stress no_float_of_str sample_cache_key
      (App.startup_event high_stress_file absent_file) stressed_request
      (clock_at ten_o_clock) = (App.Response r, st', events) /\
    level r = StressLevelEnum.HIGH /\ score r = 75 /\
    confidence r = (7 # 10)%Q /\
    insights r =
      [ "Your sleep duration is below the recommended 7-9 hours";
        "Long work hours may be a significant stress factor";
        "Increasing physical activity could help reduce stress" ] /\
    length (recommendations r) = 4%nat /\
    length (plan_tasks (wellness_plan r)) = 4%nat.
Proof.
  do 3 eexists. split; [vm_compute; reflexivity|].
  repeat split; reflexivity.
Qed.

(** With no model file at all, the process answers with the fallback. *)
Lemma degraded_mode_fallback_witness :
  exists r,
    App.predict_stress no_float_of_str sample_cache_key
      (App.startup_event absent_file absent_file) sample_request
      (clock_at ten_o_clock)
    = (App.Response r, App.startup_event absent_file absent_file, []) /\
    App.standard_fallback = Some r /\
    level r = StressLevelEnum.MEDIUM /\
    score r = 50 /\
    confidence r = (5 # 10)%Q.
Proof.
  exact (degraded_mode_fallback no_float_of_str sample_cache_key
           (App.startup_event absent_file absent_file) sample_request
           (clock_at ten_o_clock) (or_introl eq_refl)).
Defined.

(** ** The cache and its time to live *)

Lemma app_predict_events float_of_str self input_data ev :
  In ev (App.ModelService.predict float_of_str self input_data).2 ->
  exists x, ev = App.ModelPredict x \/ ev = App.ModelPredictProba x.
Proof.
  unfold App.ModelService.predict.
  destruct (App.ModelService.is_loaded self); simpl; [|tauto].
  destruct (App.ModelService.preprocess_input _ _ _) as [x|]; simpl; [|tauto].
  destruct (App.ModelService.model self) as [m|]; simpl; [|tauto].
  destruct (clf_predict m x) as [p|]; simpl.
  - destruct (clf_predict_proba m) as [pp|]; simpl.
    + destruct (mbind _ (pp x)); simpl; intros [<-|[<-|[]]]; eauto.
    + intros [<-|[]]; eauto.
  - intros [<-|[]]; eauto.
Qed.

(** A prediction that gets as far as the classifier invokes it. *)
Lemma app_predict_invokes float_of_str self input_data x m :
  App.ModelService.is_loaded self = true ->
  App.ModelService.preprocess_input float_of_str self input_data = Some x ->
  App.ModelService.model self = Some m ->
  In (App.ModelPredict x)
     (App.ModelService.predict float_of_str self input_data).2.
Proof.
  intros Hl Hx Hm. unfold App.ModelService.predict.
  rewrite Hl, Hx, Hm. simpl.
  destruct (clf_predict m x) as [p|]; simpl; [|left; reflexivity].
  destruct (clf_predict_proba m) as [pp|]; simpl.
  - destruct (mbind _ (pp x)); simpl; left; reflexivity.
  - left. reflexivity.
Qed.

Section CacheProperties.

Variable float_of_str : string -> option Q.
Variable _generate_cache_key : gmap string value -> string.

Local Abbreviation fresh_prediction' :=
  (App.fresh_prediction float_of_str).
Local Abbreviation predict_stress' :=
  (App.predict_stress float_of_str _generate_cache_key).

(** The endpoint with a model loaded, by the state of the cache entry of
    the request. *)
Lemma predict_stress_loaded st self request clk :
  App.model_loaded st = true ->
  App.model_service st = Some self ->
  let model_input := to_model_format request in
  let key := _generate_cache_key model_input in
  let cache := App.prediction_cache st in
  predict_stress' st request clk =
  match cache !! key with
  | Some entry =>
      if App.now_lookup clk - App.timestamp entry <? App.cache_ttl
      then (App.Response (App.response entry), st, [App.CacheLookup key])
      else
        let '(result, cache', events) :=
          fresh_prediction' self (delete key cache) key model_input clk in
        (result, with_cache st cache',
         App.CacheLookup key :: App.CacheDelete key :: events)
  | None =>
      let '(result, cache', events) :=
        fresh_prediction' self cache key model_input clk in
      (result, with_cache st cache', App.CacheLookup key :: events)
  end.
Proof.
  intros Hl Hs. simpl.
  unfold App.predict_stress, App.predict_model_input, App.cache_lookup,
    App._is_cache_valid, with_cache.
  rewrite Hl, Hs.
  destruct (App.prediction_cache st !! _) as [entry|].
  - destruct (_ <? _).
    + destruct st; simpl in *; subst; reflexivity.
    + destruct (App.fresh_prediction _ _ _ _ _ _) as [[res c] ev].
      reflexivity.
  - destruct (App.fresh_prediction _ _ _ _ _ _) as [[res c] ev].
    reflexivity.
Qed.

(** A fresh prediction stores only what it returns, and sweeps. *)
Lemma fresh_prediction_store self cache key model_input clk result cache'
    events :
  fresh_prediction' self cache key model_input clk
    = (result, cache', events) ->
  In (App.CacheStore key) events ->
  exists r, result = App.Response r /\
            cache' = (App.cache_store cache key r clk).1.
Proof.
  intros H Hin.
  destruct (fresh_prediction_cases float_of_str self cache key model_input
              clk) as [E|(pr & r & _ & _ & E)]; rewrite E in H.
  - assert (events
            = (App.ModelService.predict float_of_str self model_input).2)
      as -> by congruence.
    apply app_predict_events in Hin as (x & [?|?]); discriminate.
  - exists r. split; congruence.
Qed.

Lemma fresh_prediction_key self cache key model_input clk result cache'
    events :
  fresh_prediction' self cache key model_input clk
    = (result, cache', events) ->
  cache !! key = None ->
  cache' !! key = None \/
  exists r, cache' !! key =
            Some {| App.response := r; App.timestamp := App.now_store clk |}.
Proof.
  intros H Hk.
  destruct (fresh_prediction_cases float_of_str self cache key model_input
              clk) as [E|(pr & r & _ & _ & E)]; rewrite E in H.
  - assert (cache' = cache) as -> by congruence. left. exact Hk.
  - assert (cache' = (App.cache_store cache key r clk).1) as ->
      by congruence.
    rewrite cache_store_lookup, lookup_insert_eq. simpl.
    destruct (_ <? _); eauto.
Qed.

(** C3.  With the model loaded: a request whose cache entry is younger
    than the time to live of five minutes is answered with the cached
    response, the state is left as it is and the classifier is not
    invoked; a request whose entry has reached that age has the entry
    deleted on lookup and is answered by a fresh prediction, which invokes
    the classifier; after every store no entry older than the time to live
    is left in the cache, while the other entries stay; and a second
    identical request within the time to live of a stored response gets
    that very response without a call to the classifier. *)
Theorem cache_time_to_live
    (st : App.state) (self : App.ModelService.t)
    (request : StressPredictionRequest) (clk : App.clock) :
  App.model_loaded st = true ->
  App.model_service st = Some self ->
  let model_input := to_model_format request in
  let key := _generate_cache_key model_input in
  (forall entry,
     App.prediction_cache st !! key = Some entry ->
     App.now_lookup clk - App.timestamp entry < App.cache_ttl ->
     predict_stress' st request clk
       = (App.Response (App.response entry), st, [App.CacheLookup key])) /\
  (forall entry,
     App.prediction_cache st !! key = Some entry ->
     App.cache_ttl <= App.now_lookup clk - App.timestamp entry ->
     exists result cache' events,
       fresh_prediction' self (delete key (App.prediction_cache st)) key
         model_input clk = (result, cache', events) /\
       predict_stress' st request clk
         = (result, with_cache st cache',
            App.CacheLookup key :: App.CacheDelete key :: events) /\
       (cache' !! key = None \/
        exists r, cache' !! key =
                  Some {| App.response := r;
                          App.timestamp := App.now_store clk |}) /\
       (forall x m,
          App.ModelService.is_loaded self = true ->
          App.ModelService.preprocess_input float_of_str self model_input
            = Some x ->
          App.ModelService.model self = Some m ->
          In (App.ModelPredict x) events)) /\
  (forall result st' events,
     predict_stress' st request clk = (result, st', events) ->
     In (App.CacheStore key) events ->
     (forall k e,
        App.prediction_cache st' !! k = Some e ->
        App.now_sweep clk - App.timestamp e <= App.cache_ttl) /\
     (forall k e,
        k <> key ->
        App.prediction_cache st !! k = Some e ->
        App.now_sweep clk - App.timestamp e <= App.cache_ttl ->
        App.prediction_cache st' !! k = Some e)) /\
  (forall clk2 r st1 events1,
     predict_stress' st request clk = (App.Response r, st1, events1) ->
     In (App.CacheStore key) events1 ->
     App.now_sweep clk - App.now_store clk <= App.cache_ttl ->
     App.now_lookup clk2 - App.now_store clk < App.cache_ttl ->
     predict_stress' st1 request clk2
       = (App.Response r, st1, [App.CacheLookup key])).
Proof.
  intros Hl Hs model_input key.
  pose proof (predict_stress_loaded st self request clk Hl Hs) as E.
  simpl in E. fold model_input key in E.
  (* a store happened: the shape of the final cache *)
  assert (Hstore : forall result st' events,
            predict_stress' st request clk = (result, st', events) ->
            In (App.CacheStore key) events ->
            exists r c,
              result = App.Response r /\
              (c = App.prediction_cache st \/
               c = delete key (App.prediction_cache st)) /\
              st' = with_cache st (App.cache_store c key r clk).1).
  { intros result st' events H Hin. rewrite E in H.
    destruct (App.prediction_cache st !! key) as [entry|] eqn:Hk.
    - destruct (_ <? _).
      + injection H as <- <- <-.
        destruct Hin as [Hin|[]]; discriminate.
      + destruct (fresh_prediction' self _ key model_input clk)
          as [[res c] ev] eqn:Hf.
        injection H as <- <- <-.
        destruct Hin as [Hin|[Hin|Hin]]; try discriminate.
        destruct (fresh_prediction_store _ _ _ _ _ _ _ _ Hf Hin)
          as (r & -> & ->).
        exists r, (delete key (App.prediction_cache st)). auto.
    - destruct (fresh_prediction' self _ key model_input clk)
        as [[res c] ev] eqn:Hf.
      injection H as <- <- <-.
      destruct Hin as [Hin|Hin]; try discriminate.
      destruct (fresh_prediction_store _ _ _ _ _ _ _ _ Hf Hin)
        as (r & -> & ->).
      exists r, (App.prediction_cache st). auto. }
  assert (Hhit : forall st0 clk0 entry,
            App.model_loaded st0 = true ->
            App.model_service st0 = Some self ->
            App.prediction_cache st0 !! key = Some entry ->
            App.now_lookup clk0 - App.timestamp entry < App.cache_ttl ->
            predict_stress' st0 request clk0
              = (App.Response (App.response entry), st0,
                 [App.CacheLookup key])).
  { intros st0 clk0 entry Hl0 Hs0 Hk Hlt.
    rewrite (predict_stress_loaded st0 self request clk0 Hl0 Hs0).
    simpl. fold model_input key. rewrite Hk.
    destruct (Z.ltb_spec (App.now_lookup clk0 - App.timestamp entry)
                App.cache_ttl); [reflexivity|lia]. }
  split; [|split; [|split]].
  - intros entry Hk Hlt. apply Hhit; assumption.
  - intros entry Hk Hge. rewrite E, Hk.
    destruct (Z.ltb_spec (App.now_lookup clk - App.timestamp entry)
                App.cache_ttl); [lia|].
    destruct (fresh_prediction' self _ key model_input clk)
      as [[res c] ev] eqn:Hf.
    exists res, c, ev. split; [reflexivity|]. split; [reflexivity|]. split.
    + eapply fresh_prediction_key; [exact Hf|]. apply lookup_delete_eq.
    + intros x m Hld Hx Hm.
      pose proof (app_predict_invokes _ _ _ _ _ Hld Hx Hm) as Hin.
      destruct (fresh_prediction_cases float_of_str self
                  (delete key (App.prediction_cache st)) key model_input clk)
        as [E'|(pr & r & _ & _ & E')];
        fold model_input in Hf; rewrite E' in Hf; injection Hf as <- <- <-;
        [exact Hin|apply in_or_app; left; exact Hin].
  - intros result st' events H Hin.
    destruct (Hstore _ _ _ H Hin) as (r & c & -> & Hc & ->).
    unfold with_cache. cbn [App.prediction_cache]. split.
    + intros k e He. rewrite cache_store_lookup in He.
      destruct (<[key:=_]> c !! k) as [e'|]; [|discriminate].
      destruct (Z.ltb_spec App.cache_ttl
                  (App.now_sweep clk - App.timestamp e')); [discriminate|].
      injection He as <-. assumption.
    + intros k e Hne He Hle. rewrite cache_store_lookup.
      rewrite lookup_insert_ne by congruence.
      assert (Hck : c !! k = Some e).
      { destruct Hc as [->| ->]; [exact He|].
        rewrite lookup_delete_ne by congruence. exact He. }
      rewrite Hck.
      destruct (Z.ltb_spec App.cache_ttl
                  (App.now_sweep clk - App.timestamp e)); [lia|reflexivity].
  - intros clk2 r st1 events1 H Hin Hsweep Hlt.
    destruct (Hstore _ _ _ H Hin) as (r' & c & Hr & _ & ->).
    injection Hr as ->.
    apply (Hhit _ clk2 {| App.response := r';
                          App.timestamp := App.now_store clk |});
      [exact Hl|exact Hs| |exact Hlt].
    unfold with_cache. cbn [App.prediction_cache].
    rewrite cache_store_lookup, lookup_insert_eq. simpl.
    destruct (Z.ltb_spec App.cache_ttl
                (App.now_sweep clk - App.now_store clk)); [lia|reflexivity].
Qed.

End CacheProperties.

(** A run of the endpoint: a first request at ten o'clock is predicted and
    stored; the same request four minutes later gets the stored response
    and only looks the cache up. *)
Lemma cache_time_to_live_witness :
  let st0 := App.startup_event high_stress_file absent_file in
  let run1 :=
    App.predict_stress no_float_of_str sample_cache_key st0 sample_request
      (clock_at ten_o_clock) in
  App.predict_stress no_float_of_str sample_cache_key run1.1.2 sample_request
    (clock_at (ten_o_clock + four_minutes))
  = (run1.1.1, run1.1.2,
     [App.CacheLookup (sample_cache_key (to_model_format sample_request))]).
Proof.
  intros st0 run1.
  assert (H1 : exists r, run1.1.1 = App.Response r)
    by (vm_compute; eexists; reflexivity).
  assert (H2 : In (App.CacheStore
                     (sample_cache_key (to_model_format sample_request)))
                  run1.2) by (vm_compute; tauto).
  destruct H1 as [r H1].
  destruct run1 as [[res st1] ev1] eqn:E. simpl in H1, H2 |- *. subst res.
  pose proof (cache_time_to_live no_float_of_str sample_cache_key
                st0 (sample_app_service
                       (constant_classifier (PStr "High")
                          (Some [1 # 10; 2 # 10; 7 # 10]%Q)))
                sample_request (clock_at ten_o_clock) eq_refl eq_refl) as T.
  apply (proj2 (proj2 (proj2 T)) (clock_at (ten_o_clock + four_minutes))
           r st1 ev1 E H2).
  - vm_compute. discriminate.
  - vm_compute. reflexivity.
Defined.

(** Six minutes later the entry is deleted on lookup and the classifier is
    invoked again. *)
Lemma cache_expiry_example :
  exists r st1 events1 result st2 events2,
    App.predict_stress no_float_of_str sample_cache_key
      (App.startup_event high_stress_file absent_file) sample_request
      (clock_at ten_o_clock) = (App.Response r, st1, events1) /\
    App.predict_stress no_float_of_str sample_cache_key st1 sample_request
      (clock_at (ten_o_clock + six_minutes)) = (result, st2, events2) /\
    take 3 events2 =
      [ App.CacheLookup "30"; App.CacheDelete "30";
        App.ModelPredict
          [30; 0; 75 # 10; 4; 3; 8; 2; 0; 8; 1; 3; 1; 0]%Q ].
Proof.
  do 6 eexists. split; [vm_compute; reflexivity|].
  split; [vm_compute; reflexivity|]. reflexivity.
Qed.

(** ** The score *)

(** C8.  The score of a prediction is a function of its label alone: both
    model services set it to [numerical_score_of] of the label, which is 25
    for Low, 50 for Medium and 75 for High; two predictions with the same
    label have the same score whatever their confidence; and every response
    of the endpoint, fresh, cached or fallback, has the midpoint of its
    level as its score. *)
Theorem score_is_midpoint_of_label :
  (forall float_of_str self input_data r,
     ModelService.predict float_of_str self input_data = Some r ->
     ModelService.r_score r
       = ModelService.numerical_score_of (ModelService.r_level r)) /\
  (forall float_of_str self input_data r events,
     App.ModelService.predict float_of_str self input_data
       = (Some r, events) ->
     App.ModelService.r_score r
       = App.ModelService.numerical_score_of (App.ModelService.r_level r)) /\
  (forall l,
     ModelService.numerical_score_of (StressLevelEnum.value_of l)
       = midpoint l /\
     App.ModelService.numerical_score_of (StressLevelEnum.value_of l)
       = midpoint l) /\
  (midpoint StressLevelEnum.LOW = 25 /\ midpoint StressLevelEnum.MEDIUM = 50
   /\ midpoint StressLevelEnum.HIGH = 75) /\
  (forall float_of_str self1 self2 input1 input2 r1 r2,
     ModelService.predict float_of_str self1 input1 = Some r1 ->
     ModelService.predict float_of_str self2 input2 = Some r2 ->
     ModelService.r_level r1 = ModelService.r_level r2 ->
     ModelService.r_score r1 = ModelService.r_score r2) /\
  (forall float_of_str _generate_cache_key st request clk,
     App.reachable float_of_str _generate_cache_key st ->
     exists r st' events,
       App.predict_stress float_of_str _generate_cache_key st request clk
         = (App.Response r, st', events) /\
       score r = midpoint (level r)).
Proof.
  assert (Hs : forall float_of_str self input_data r,
            ModelService.predict float_of_str self input_data = Some r ->
            ModelService.r_score r
            = ModelService.numerical_score_of (ModelService.r_level r)).
  { intros f self input r H.
    destruct (services_predict_inv _ _ _ _ H)
      as (_ & x & m & p & c & l & _ & _ & _ & _ & _ & Hl & Hsc & _).
    rewrite Hsc, Hl. reflexivity. }
  split; [exact Hs|]. split; [|split; [|split; [|split]]].
  - intros f self input r events H.
    destruct (app_predict_inv _ _ _ _ _ H)
      as (x & m & p & _ & _ & _ & _ & Hl & Hsc & _).
    rewrite Hsc, Hl. reflexivity.
  - intros l. split; destruct l; reflexivity.
  - repeat split; reflexivity.
  - intros f self1 self2 input1 input2 r1 r2 H1 H2 Hl.
    rewrite (Hs _ _ _ _ H1), (Hs _ _ _ _ H2), Hl. reflexivity.
  - intros f key st request clk Hst.
    destruct (predict_model_input_ok f key st (to_model_format request) clk
                (reachable_cache_ok f key st Hst))
      as (r & st' & ev & H & Hr & _).
    exists r, st', ev. split; [exact H|]. apply Hr.
Qed.

(** The same label with two different confidences has one score: a
    classifier that is 40% sure of "High" and one that is 90% sure both
    give 75. *)
Lemma score_is_midpoint_of_label_witness :
  let p1 :=
    ModelService.predict no_float_of_str
      (sample_service
         (constant_classifier (PStr "High")
            (Some [3 # 10; 3 # 10; 4 # 10]%Q)))
      (to_model_format sample_request) in
  let p2 :=
    ModelService.predict no_float_of_str
      (sample_service
         (constant_classifier (PStr "High") (Some [0; 1 # 10; 9 # 10]%Q)))
      (to_model_format stressed_request) in
  ModelService.r_confidence <$> p1 = Some (4 # 10)%Q /\
  ModelService.r_confidence <$> p2 = Some (9 # 10)%Q /\
  ModelService.r_score <$> p1 = Some (midpoint StressLevelEnum.HIGH) /\
  ModelService.r_score <$> p2 = Some (midpoint StressLevelEnum.HIGH).
Proof.
  intros p1 p2.
  assert (L1 : ModelService.r_level <$> p1 = Some "High")
    by (vm_compute; reflexivity).
  assert (L2 : ModelService.r_level <$> p2 = Some "High")
    by (vm_compute; reflexivity).
  split; [vm_compute; reflexivity|]. split; [vm_compute; reflexivity|].
  destruct p1 as [r1|] eqn:E1; [|discriminate].
  destruct p2 as [r2|] eqn:E2; [|discriminate].
  simpl in *. injection L1 as L1. injection L2 as L2.
  rewrite (proj1 score_is_midpoint_of_label _ _ _ _ E1), L1.
  rewrite (proj1 score_is_midpoint_of_label _ _ _ _ E2), L2.
  split; reflexivity.
Defined.

(** ** The insights of the stand-alone model service

    [_generate_insights] of [services/model_service.py] has no cap: on the
    high-stress example, with a classifier that exposes feature
    importances, the dictionary it returns carries six insights.  (The
    endpoint does not use this class, and the response formatter cuts its
    own list to five.) *)
Lemma services_insights_uncapped :
  ModelService._generate_insights (sample_service forest_classifier)
    (to_model_format stressed_request) "High" =
  [ "Your sleep duration is below the recommended 7-9 hours";
    "Long work hours may be a significant stress factor";
    "Increasing physical activity could help reduce stress";
    "Your sleep duration appears to be a key factor in your stress level";
    "High screen time may be contributing to your stress levels";
    "High caffeine intake might be affecting your stress levels" ].
Proof. vm_compute. reflexivity. Qed.

(** * Further properties

    Properties of the code beyond the claims of the specification: what
    the schema guarantees to the model services, how the services treat
    their inputs, and what the endpoint keeps invariant. *)

(** ** Rounding to one decimal place *)

Lemma Qfloor_inject_Z (z : Z) : Qfloor (inject_Z z) = z.
Proof. unfold Qfloor, inject_Z. apply Z.div_1_r. Qed.

Lemma round_half_even_cases (q : Q) :
  (round_half_even q = Qfloor q /\ (q - inject_Z (Qfloor q) <= 1 # 2)%Q) \/
  (round_half_even q = Qfloor q + 1 /\ (1 # 2 <= q - inject_Z (Qfloor q))%Q).
Proof.
  unfold round_half_even.
  destruct (Qcompare_spec (q - inject_Z (Qfloor q)) (1 # 2)) as [E|E|E].
  - destruct (Z.even (Qfloor q)); [left|right]; split;
      try reflexivity; rewrite E; apply Qle_refl.
  - left. split; [reflexivity|apply Qlt_le_weak, E].
  - right. split; [reflexivity|apply Qlt_le_weak, E].
Qed.

Lemma round_half_even_inject_Z (z : Z) : round_half_even (inject_Z z) = z.
Proof.
  unfold round_half_even. rewrite Qfloor_inject_Z.
  destruct (Qcompare_spec (inject_Z z - inject_Z z) (1 # 2)) as [E|E|E];
    try reflexivity; exfalso; lra.
Qed.

Lemma round_half_even_mono (p q : Q) :
  (p <= q)%Q -> round_half_even p <= round_half_even q.
Proof.
  intros Hpq.
  pose proof (Qfloor_resp_le _ _ Hpq) as Hf.
  pose proof (Qfloor_le p) as Hp1. pose proof (Qlt_floor p) as Hp2.
  pose proof (Qfloor_le q) as Hq1. pose proof (Qlt_floor q) as Hq2.
  destruct (Z.eq_dec (Qfloor p) (Qfloor q)) as [E|N].
  - unfold round_half_even. rewrite <- E.
    destruct (Qcompare_spec (p - inject_Z (Qfloor p)) (1 # 2)) as [E1|E1|E1];
      destruct (Qcompare_spec (q - inject_Z (Qfloor p)) (1 # 2))
        as [E2|E2|E2];
      try (destruct (Z.even (Qfloor p))); try lia; exfalso; lra.
  - destruct (round_half_even_cases p) as [[-> _]|[-> _]];
      destruct (round_half_even_cases q) as [[-> _]|[-> _]]; lia.
Qed.

Lemma round_half_even_near (q : Q) :
  (inject_Z (round_half_even q) - q <= 1 # 2)%Q /\
  (q - inject_Z (round_half_even q) <= 1 # 2)%Q.
Proof.
  pose proof (Qfloor_le q) as H1. pose proof (Qlt_floor q) as H2.
  rewrite inject_Z_plus in H2.
  destruct (round_half_even_cases q) as [[-> H]|[-> H]];
    try rewrite inject_Z_plus; change (inject_Z 1) with 1%Q in *; split; lra.
Qed.

Lemma round1_as_tenths (v : Q) :
  (round1 v == inject_Z (round_half_even (v * 10)) / 10)%Q.
Proof.
  unfold round1, Qeq, Qdiv, Qmult, Qinv, inject_Z. simpl. lia.
Qed.

(** [round(v, 1)] stays within integer bounds that hold of [v]. *)
Lemma round1_within (lo hi : Z) (v : Q) :
  (inject_Z lo <= v)%Q -> (v <= inject_Z hi)%Q ->
  (inject_Z lo <= round1 v)%Q /\ (round1 v <= inject_Z hi)%Q.
Proof.
  intros Hlo Hhi.
  assert (L : lo * 10 <= round_half_even (v * 10)).
  { rewrite <- (round_half_even_inject_Z (lo * 10)).
    apply round_half_even_mono. rewrite inject_Z_mult.
    change (inject_Z 10) with 10%Q. lra. }
  assert (U : round_half_even (v * 10) <= hi * 10).
  { rewrite <- (round_half_even_inject_Z (hi * 10)).
    apply round_half_even_mono. rewrite inject_Z_mult.
    change (inject_Z 10) with 10%Q. lra. }
  unfold round1, Qle, inject_Z. simpl. lia.
Qed.

(** A value with one decimal place is left as it is. *)
Lemma round1_tenths (n : Z) : round1 (n # 10) = (n # 10)%Q.
Proof.
  unfold round1. f_equal.
  assert (E : ((n # 10) * 10 == inject_Z n)%Q).
  { unfold Qeq, Qmult, inject_Z. simpl. lia. }
  unfold round_half_even.
  assert (F : Qfloor ((n # 10) * 10) = n).
  { rewrite (Qfloor_comp _ _ E). apply Qfloor_inject_Z. }
  rewrite F.
  destruct (Qcompare_spec ((n # 10) * 10 - inject_Z n) (1 # 2)) as [H|H|H];
    try reflexivity; exfalso; rewrite E in H; lra.
Qed.

Lemma round1_idempotent (v : Q) : round1 (round1 v) = round1 v.
Proof. unfold round1 at 2 3. apply round1_tenths. Qed.

Lemma round1_near (v : Q) :
  (round1 v - v <= 1 # 20)%Q /\ (v - round1 v <= 1 # 20)%Q.
Proof.
  destruct (round_half_even_near (v * 10)) as [H1 H2].
  rewrite round1_as_tenths.
  split; apply Qmult_le_r with (z := 10%Q); try reflexivity; field_simplify;
    lra.
Qed.

(** ** What validation guarantees *)

(** The shape shared by the four field validators. *)
Lemma field_validator_inv (lo hi : Z) (v v' : Q) :
  (if Qlt_bool v (inject_Z lo) then None
   else if Qlt_bool (inject_Z hi) v then None else Some (round1 v))
    = Some v' ->
  v' = round1 v /\ (inject_Z lo <= v)%Q /\ (v <= inject_Z hi)%Q.
Proof.
  destruct (Qlt_bool v (inject_Z lo)) eqn:E1; [discriminate|].
  destruct (Qlt_bool (inject_Z hi) v) eqn:E2; [discriminate|].
  intros [= <-]. qbool. auto.
Qed.

Lemma field_validator_fixpoint (lo hi : Z) (v v' : Q) :
  (if Qlt_bool v (inject_Z lo) then None
   else if Qlt_bool (inject_Z hi) v then None else Some (round1 v))
    = Some v' ->
  ((inject_Z lo <= v')%Q /\ (v' <= inject_Z hi)%Q) /\
  ((v' - v <= 1 # 20)%Q /\ (v - v' <= 1 # 20)%Q) /\
  (if Qlt_bool v' (inject_Z lo) then None
   else if Qlt_bool (inject_Z hi) v' then None else Some (round1 v'))
    = Some v'.
Proof.
  intros H. apply field_validator_inv in H as (-> & Hlo & Hhi).
  pose proof (round1_within lo hi v Hlo Hhi) as [L U].
  split; [auto|]. split; [apply round1_near|].
  rewrite round1_idempotent.
  apply Qlt_bool_false_iff in L. apply Qlt_bool_false_iff in U.
  rewrite L, U. reflexivity.
Qed.



Section ValidatedRequest.

Variable int_validator : value -> option Z.
Variable float_validator : value -> option Q.
Variable raw : gmap string value.

Lemma validate_request_inr (self : StressPredictionRequest) :
  validate_request int_validator float_validator raw = inr self ->
  field_errors int_validator float_validator raw = [] /\
  extra_errors int_validator float_validator raw = [] /\
  model_construct int_validator float_validator raw = Some self /\
  (work_hours self + sleep_duration self + travel_time self <= 24)%Q.
Proof.
  unfold validate_request.
  destruct (field_errors _ _ raw ++ extra_errors _ _ raw) eqn:E;
    [|discriminate].
  apply app_eq_nil in E as [E1 E2].
  destruct (model_construct _ _ raw) as [s|]; [|discriminate].
  unfold validate_lifestyle_consistency.
  destruct (Qlt_bool 24 _) eqn:E3; [discriminate|].
  intros [= <-]. qbool. auto.
Qed.

Lemma int_field_inr lo hi v z :
  int_field int_validator lo hi v = inr z -> lo <= z <= hi.
Proof.
  unfold int_field. destruct (int_validator v); [|discriminate].
  destruct (_ <? lo) eqn:E1; [discriminate|].
  destruct (hi <? _) eqn:E2; [discriminate|].
  intros [= <-]. lia.
Qed.

Lemma float_field_inr lo hi validator v q' :
  float_field float_validator lo hi validator v = inr q' ->
  exists q, float_validator v = Some q /\ validator q = Some q'.
Proof.
  unfold float_field. destruct (float_validator v) as [q|]; [|discriminate].
  destruct (Qlt_bool q lo); [discriminate|].
  destruct (Qlt_bool hi q); [discriminate|].
  destruct (validator q) eqn:E; [|discriminate].
  intros [= <-]. eauto.
Qed.

Lemma field_value_inv {A : Type} name (fld : value -> error_type + A) a :
  field_value raw name fld = Some a ->
  exists v, raw !! name = Some v /\ fld v = inr a.
Proof.
  unfold field_value. destruct (raw !! name) as [v|]; [|discriminate].
  simpl. destruct (fld v) eqn:E; [discriminate|].
  intros [= <-]. eauto.
Qed.

Lemma model_construct_inv (self : StressPredictionRequest) :
  model_construct int_validator float_validator raw = Some self ->
  field_value raw "age" (age_field int_validator) = Some (age self) /\
  field_value raw "gender" gender_field = Some (gender self) /\
  field_value raw "sleep_duration" (sleep_duration_field float_validator)
    = Some (sleep_duration self) /\
  field_value raw "sleep_quality" (sleep_quality_field int_validator)
    = Some (sleep_quality self) /\
  field_value raw "physical_activity" (physical_activity_field int_validator)
    = Some (physical_activity self) /\
  field_value raw "screen_time" (screen_time_field float_validator)
    = Some (screen_time self) /\
  field_value raw "caffeine_intake" (caffeine_intake_field int_validator)
    = Some (caffeine_intake self) /\
  field_value raw "smoking_habit" smoking_habit_field
    = Some (smoking_habit self) /\
  field_value raw "work_hours" (work_hours_field float_validator)
    = Some (work_hours self) /\
  field_value raw "travel_time" (travel_time_field float_validator)
    = Some (travel_time self) /\
  field_value raw "social_interactions"
    (social_interactions_field int_validator)
    = Some (social_interactions self) /\
  field_value raw "meditation_practice" meditation_practice_field
    = Some (meditation_practice self) /\
  field_value raw "exercise_type" exercise_type_field
    = Some (exercise_type self).
Proof.
  unfold model_construct. intros H.
  repeat match type of H with
  | mbind _ ?m = Some _ =>
      let E := fresh "E" in destruct m eqn:E; [simpl in H|discriminate]
  end.
  injection H as <-. simpl. repeat split; assumption.
Qed.

Lemma validated_request_fields (self : StressPredictionRequest) :
  validate_request int_validator float_validator raw = inr self ->
  (18 <= age self <= 65 /\ 1 <= sleep_quality self <= 5 /\
   0 <= physical_activity self <= 5 /\ 0 <= caffeine_intake self <= 8 /\
   1 <= social_interactions self <= 5) /\
  ((4 <= sleep_duration self <= 12)%Q /\ (1 <= screen_time self <= 14)%Q /\
   (4 <= work_hours self <= 16)%Q /\ (0 <= travel_time self <= 4)%Q).
Proof.
  intros H. apply validate_request_inr in H as (_ & _ & Hc & _).
  pose proof (model_construct_inv _ Hc) as
    (Ha & _ & Hsd & Hsq & Hpa & Hst & Hci & _ & Hwh & Htt & Hsi & _ & _).
  repeat match goal with
  | H : field_value raw _ _ = Some _ |- _ =>
      apply field_value_inv in H as (? & _ & H)
  end.
  split.
  - apply int_field_inr in Ha, Hsq, Hpa, Hci, Hsi. tauto.
  - apply float_field_inr in Hsd as (? & _ & Hsd).
    apply float_field_inr in Hst as (? & _ & Hst).
    apply float_field_inr in Hwh as (? & _ & Hwh).
    apply float_field_inr in Htt as (? & _ & Htt).
    apply (field_validator_fixpoint 4 12) in Hsd.
    apply (field_validator_fixpoint 1 14) in Hst.
    apply (field_validator_fixpoint 4 16) in Hwh.
    apply (field_validator_fixpoint 0 4) in Htt.
    tauto.
Qed.

(** X2.  A request that validation accepts has every numeric field
    within the bounds declared for it, its four durations rounded to one
    decimal place, work, sleep and travel time summing to at most 24
    hours, and a raw body whose keys are exactly the thirteen declared
    field names. *)
Theorem validated_request_within_ranges (self : StressPredictionRequest) :
  validate_request int_validator float_validator raw = inr self ->
  (18 <= age self <= 65 /\ 1 <= sleep_quality self <= 5 /\
   0 <= physical_activity self <= 5 /\ 0 <= caffeine_intake self <= 8 /\
   1 <= social_interactions self <= 5) /\
  ((4 <= sleep_duration self <= 12)%Q /\ (1 <= screen_time self <= 14)%Q /\
   (4 <= work_hours self <= 16)%Q /\ (0 <= travel_time self <= 4)%Q) /\
  (round1 (sleep_duration self) = sleep_duration self /\
   round1 (screen_time self) = screen_time self /\
   round1 (work_hours self) = work_hours self /\
   round1 (travel_time self) = travel_time self) /\
  (work_hours self + sleep_duration self + travel_time self <= 24)%Q /\
  (forall k, is_Some (raw !! k) <->
             k ∈ field_names int_validator float_validator).
Proof.
  intros H. pose proof (validated_request_fields _ H) as [Hints Hfloats].
  apply validate_request_inr in H as (Hf & Hx & Hc & Hsum).
  pose proof (model_construct_inv _ Hc) as
    (Ha & _ & Hsd & Hsq & Hpa & Hst & Hci & _ & Hwh & Htt & Hsi & _ & _).
  repeat match goal with
  | H : field_value raw _ _ = Some _ |- _ =>
      apply field_value_inv in H as (? & _ & H)
  end.
  split; [exact Hints|]. split; [exact Hfloats|].
  split; [|split; [exact Hsum|]].
  - apply float_field_inr in Hsd as (? & _ & Hsd).
    apply float_field_inr in Hst as (? & _ & Hst).
    apply float_field_inr in Hwh as (? & _ & Hwh).
    apply float_field_inr in Htt as (? & _ & Htt).
    apply (field_validator_inv 4 12) in Hsd as [-> _].
    apply (field_validator_inv 1 14) in Hst as [-> _].
    apply (field_validator_inv 4 16) in Hwh as [-> _].
    apply (field_validator_inv 0 4) in Htt as [-> _].
    repeat split; apply round1_idempotent.
  - intros k. split.
    + intros [v Hv].
      destruct (decide (k ∈ field_names int_validator float_validator))
        as [Hk|Hk]; [exact Hk|].
      exfalso.
      assert (Hin : {| loc := [k]; msg := extra_forbidden; input := v |}
                      ∈ extra_errors int_validator float_validator raw).
      { apply extra_errors_elem. eauto. }
      rewrite Hx in Hin. inversion Hin.
    + intros Hk. unfold field_names in Hk.
      apply list_elem_of_fmap in Hk as ([name chk] & -> & Hin). simpl.
      destruct (raw !! name) as [v|] eqn:Hv; [eauto|].
      exfalso.
      assert (He : {| loc := [name]; msg := missing; input := VOther |}
                     ∈ field_errors int_validator float_validator raw).
      { apply field_errors_elem. exists name, chk. split; [exact Hin|].
        left. auto. }
      rewrite Hf in He. inversion He.
Qed.

End ValidatedRequest.

Lemma validated_request_within_ranges_witness :
  exists self,
    validate_request json_int json_float (raw_body 8 (75 # 10) 1)
      = inr self /\
    (4 <= sleep_duration self <= 12)%Q /\
    (work_hours self + sleep_duration self + travel_time self <= 24)%Q.
Proof.
  set (self :=
         {| age := 30; gender := GenderEnum.MALE; sleep_duration := 75 # 10;
            sleep_quality := 4; physical_activity := 3;
            screen_time := 80 # 10; caffeine_intake := 2;
            smoking_habit := SmokingHabitEnum.NO; work_hours := 80 # 10;
            travel_time := 10 # 10; social_interactions := 3;
            meditation_practice := MeditationPracticeEnum.YES;
            exercise_type := ExerciseTypeEnum.CARDIO |}).
  assert (H : validate_request json_int json_float (raw_body 8 (75 # 10) 1)
              = inr self) by (vm_compute; reflexivity).
  exists self. split; [exact H|].
  pose proof (validated_request_within_ranges _ _ _ _ H) as (_ & B & _ & S & _).
  split; [apply B|exact S].
Defined.

(** ** The schema and the feature encoding *)

Lemma encode_features_request float_of_str (request : StressPredictionRequest) :
  encode_features float_of_str (to_model_format request) expected_features []
  = Some
      [ inject_Z (age request);
        inject_Z (match gender request with
                  | GenderEnum.MALE => 0 | GenderEnum.FEMALE => 1 end);
        sleep_duration request;
        inject_Z (sleep_quality request);
        inject_Z (physical_activity request);
        screen_time request;
        inject_Z (caffeine_intake request);
        inject_Z (match smoking_habit request with
                  | SmokingHabitEnum.NO => 0 | SmokingHabitEnum.YES => 1 end);
        work_hours request;
        travel_time request;
        inject_Z (social_interactions request);
        inject_Z (match meditation_practice request with
                  | MeditationPracticeEnum.NO => 0
                  | MeditationPracticeEnum.YES => 1 end);
        inject_Z (match exercise_type request with
                  | ExerciseTypeEnum.CARDIO => 0
                  | ExerciseTypeEnum.YOGA => 1
                  | ExerciseTypeEnum.STRENGTH_TRAINING => 2
                  | ExerciseTypeEnum.AEROBICS => 3
                  | ExerciseTypeEnum.WALKING => 4
                  | ExerciseTypeEnum.PILATES => 5 end) ].
Proof.
  destruct request as [a g sd sq pa st ci sh wh tt si mp et].
  destruct g, sh, mp, et; vm_compute; reflexivity.
Qed.

(** X3.  The request schema and the feature encoder of [app.py] agree:
    for every request object, [preprocess_input] of a service whose
    feature names are the thirteen expected ones succeeds on
    [request.to_model_format()], whatever [float] does on strings, and
    gives the thirteen values in the declared order, each enumeration
    value replaced by its code. *)
Theorem request_always_encodes float_of_str (self : App.ModelService.t)
    (request : StressPredictionRequest) :
  App.ModelService.feature_names self = Some expected_features ->
  App.ModelService.preprocess_input float_of_str self
    (to_model_format request)
  = Some
      [ inject_Z (age request);
        inject_Z (match gender request with
                  | GenderEnum.MALE => 0 | GenderEnum.FEMALE => 1 end);
        sleep_duration request;
        inject_Z (sleep_quality request);
        inject_Z (physical_activity request);
        screen_time request;
        inject_Z (caffeine_intake request);
        inject_Z (match smoking_habit request with
                  | SmokingHabitEnum.NO => 0 | SmokingHabitEnum.YES => 1 end);
        work_hours request;
        travel_time request;
        inject_Z (social_interactions request);
        inject_Z (match meditation_practice request with
                  | MeditationPracticeEnum.NO => 0
                  | MeditationPracticeEnum.YES => 1 end);
        inject_Z (match exercise_type request with
                  | ExerciseTypeEnum.CARDIO => 0
                  | ExerciseTypeEnum.YOGA => 1
                  | ExerciseTypeEnum.STRENGTH_TRAINING => 2
                  | ExerciseTypeEnum.AEROBICS => 3
                  | ExerciseTypeEnum.WALKING => 4
                  | ExerciseTypeEnum.PILATES => 5 end) ].
Proof.
  intros Hn. unfold App.ModelService.preprocess_input. rewrite Hn. simpl.
  apply encode_features_request.
Qed.

Lemma request_always_encodes_witness :
  App.ModelService.preprocess_input no_float_of_str
    (sample_app_service (constant_classifier (PStr "Low") None))
    (to_model_format stressed_request)
  = Some [45; 0; 4; 2; 0; 12; 6; 1; 14; 3; 1; 0; 4]%Q.
Proof.
  exact (request_always_encodes no_float_of_str
           (sample_app_service (constant_classifier (PStr "Low") None))
           stressed_request eq_refl).
Defined.

(** ** Range validation in the stand-alone model service *)

(** What a check of [_validate_input_ranges] accepts: a number within the
    bounds, a missing feature being read as 0. *)
Lemma validate_ranges_nil checks input_data :
  forall errors,
    ModelService.validate_ranges checks input_data errors = [] <->
    errors = [] /\
    Forall (fun c : string * Q * Q =>
              exists x, num_of (dict_get input_data c.1.1 (VInt 0)) = Some x
                        /\ (c.1.2 <= x)%Q /\ (x <= c.2)%Q) checks.
Proof.
  induction checks as [|[[name lo] hi] rest IH]; intros errors; simpl.
  - split; [intros ->; auto|tauto].
  - destruct (num_of (dict_get input_data name (VInt 0))) as [x|] eqn:Hx.
    + rewrite IH, Forall_cons. simpl.
      destruct (Qle_bool lo x) eqn:E1; destruct (Qle_bool x hi) eqn:E2;
        simpl; qbool.
      * split; [intros [-> H]; eauto 10|tauto].
      * split; [intros [H _]; destruct errors; discriminate|].
        intros (_ & (y & Hy & Hlo & Hhi) & _).
        assert (x = y) as <- by congruence. lra.
      * split; [intros [H _]; destruct errors; discriminate|].
        intros (_ & (y & Hy & Hlo & Hhi) & _).
        assert (x = y) as <- by congruence. lra.
      * split; [intros [H _]; destruct errors; discriminate|].
        intros (_ & (y & Hy & Hlo & Hhi) & _).
        assert (x = y) as <- by congruence. lra.
    + split; [intros H; destruct errors; discriminate|].
      rewrite Forall_cons. simpl. intros (_ & (y & Hy & _) & _).
      congruence.
Qed.

Lemma validate_ranges_length checks input_data :
  forall errors,
    (length (ModelService.validate_ranges checks input_data errors)
     <= length errors + length checks)%nat.
Proof.
  induction checks as [|[[name lo] hi] rest IH]; intros errors; simpl.
  - lia.
  - destruct (num_of _).
    + etransitivity; [apply IH|].
      destruct (_ && _); rewrite ?length_app; simpl; lia.
    + rewrite length_app. simpl. lia.
Qed.

Lemma validate_input_ranges_nil (input_data : gmap string value) :
  ModelService._validate_input_ranges input_data = [] <->
  forall name lo hi,
    (name, lo, hi) ∈ ModelService.range_checks ->
    exists x, num_of (dict_get input_data name (VInt 0)) = Some x /\
              (lo <= x)%Q /\ (x <= hi)%Q.
Proof.
  unfold ModelService._validate_input_ranges.
  rewrite validate_ranges_nil, Forall_forall. split.
  - intros [_ H] name lo hi Hin. exact (H (name, lo, hi) Hin).
  - intros H. split; [reflexivity|]. intros [[name lo] hi] Hin.
    exact (H name lo hi Hin).
Qed.

(** X4.  [_validate_input_ranges] of the stand-alone model service
    reports no error exactly when each of the nine numeric features (a
    missing one being read as 0) is a number within its bounds: age
    18..65, sleep duration 4..12, sleep quality 1..5, physical activity
    0..5, screen time 1..14, caffeine intake 0..8, work hours 4..16,
    travel time 0..4, social interactions 1..5; and it never reports more
    than nine messages. *)
Theorem validate_input_ranges_spec (input_data : gmap string value) :
  (ModelService._validate_input_ranges input_data = [] <->
   forall name lo hi,
     (name, lo, hi) ∈
       [ ("Age", 18, 65); ("Sleep_Duration", 4, 12); ("Sleep_Quality", 1, 5);
         ("Physical_Activity", 0, 5); ("Screen_Time", 1, 14);
         ("Caffeine_Intake", 0, 8); ("Work_Hours", 4, 16);
         ("Travel_Time", 0, 4); ("Social_Interactions", 1, 5) ]%Q ->
     exists x, num_of (dict_get input_data name (VInt 0)) = Some x /\
               (lo <= x)%Q /\ (x <= hi)%Q) /\
  (length (ModelService._validate_input_ranges input_data) <= 9)%nat.
Proof.
  split.
  - apply validate_input_ranges_nil.
  - apply (validate_ranges_length ModelService.range_checks input_data []).
Qed.

(** The same feature names, whichever class holds them. *)
Lemma filter_nil_Forall {A : Type} (P : A -> Prop)
    `{forall x, Decision (P x)} (l : list A) :
  filter P l = [] <-> Forall (fun x => ~ P x) l.
Proof.
  induction l as [|x l IH]; simpl.
  - split; [constructor|reflexivity].
  - rewrite filter_cons, Forall_cons. destruct (decide (P x)).
    + split; [discriminate|tauto].
    + rewrite IH. tauto.
Qed.

(** X5.  [preprocess_input] of the stand-alone model service is that of
    the class in [app.py] restricted to the inputs that hold all thirteen
    expected features and pass the range validation: it gives a feature
    row exactly when these two checks pass and the encoding loop of
    [app.py] gives that row. *)
Theorem services_preprocess_restricts_app float_of_str
    (self : ModelService.t) (self' : App.ModelService.t)
    (input_data : gmap string value) (x : list Q) :
  App.ModelService.feature_names self' = ModelService.feature_names self ->
  ModelService.preprocess_input float_of_str self input_data = Some x <->
  (forall feature, feature ∈ expected_features ->
                   is_Some (input_data !! feature)) /\
  ModelService._validate_input_ranges input_data = [] /\
  App.ModelService.preprocess_input float_of_str self' input_data = Some x.
Proof.
  intros Hn.
  unfold ModelService.preprocess_input, App.ModelService.preprocess_input.
  rewrite Hn.
  destruct (filter _ expected_features) as [|f fs] eqn:Hf.
  - apply filter_nil_Forall in Hf. rewrite Forall_forall in Hf.
    assert (Hall : forall feature, feature ∈ expected_features ->
                                   is_Some (input_data !! feature)).
    { intros feature Hin. specialize (Hf feature Hin).
      destruct (input_data !! feature); [eauto|congruence]. }
    destruct (ModelService._validate_input_ranges input_data) eqn:Hv.
    + tauto.
    + split; [discriminate|]. intros (_ & [=] & _).
  - split; [discriminate|]. intros (Hall & _).
    assert (Hin : f ∈ filter (fun feature => input_data !! feature = None)
                             expected_features)
      by (rewrite Hf; left).
    apply list_elem_of_filter in Hin as [Hnone Hin].
    destruct (Hall f Hin) as [v Hv]. congruence.
Qed.

Lemma services_preprocess_restricts_app_witness :
  ModelService.preprocess_input no_float_of_str
    (sample_service (constant_classifier (PStr "Low") None))
    (<["Age" := VInt 17]> (to_model_format sample_request)) = None /\
  App.ModelService.preprocess_input no_float_of_str
    (sample_app_service (constant_classifier (PStr "Low") None))
    (<["Age" := VInt 17]> (to_model_format sample_request))
  = Some [17; 0; 75 # 10; 4; 3; 8; 2; 0; 8; 1; 3; 1; 0]%Q /\
  (ModelService.preprocess_input no_float_of_str
     (sample_service (constant_classifier (PStr "Low") None))
     (to_model_format sample_request)
   = Some [30; 0; 75 # 10; 4; 3; 8; 2; 0; 8; 1; 3; 1; 0]%Q <->
   (forall feature, feature ∈ expected_features ->
                    is_Some (to_model_format sample_request !! feature)) /\
   ModelService._validate_input_ranges (to_model_format sample_request) = []
   /\
   App.ModelService.preprocess_input no_float_of_str
     (sample_app_service (constant_classifier (PStr "Low") None))
     (to_model_format sample_request)
   = Some [30; 0; 75 # 10; 4; 3; 8; 2; 0; 8; 1; 3; 1; 0]%Q).
Proof.
  split; [vm_compute; reflexivity|]. split; [vm_compute; reflexivity|].
  exact (services_preprocess_restricts_app no_float_of_str
           (sample_service (constant_classifier (PStr "Low") None))
           (sample_app_service (constant_classifier (PStr "Low") None))
           (to_model_format sample_request) _ eq_refl).
Defined.

(** The range validation on the dictionary of a request within the
    declared bounds. *)
Lemma validate_input_ranges_request (request : StressPredictionRequest) :
  18 <= age request <= 65 -> (4 <= sleep_duration request <= 12)%Q ->
  1 <= sleep_quality request <= 5 -> 0 <= physical_activity request <= 5 ->
  (1 <= screen_time request <= 14)%Q -> 0 <= caffeine_intake request <= 8 ->
  (4 <= work_hours request <= 16)%Q -> (0 <= travel_time request <= 4)%Q ->
  1 <= social_interactions request <= 5 ->
  ModelService._validate_input_ranges (to_model_format request) = [].
Proof.
  intros Ha Hsd Hsq Hpa Hst Hci Hwh Htt Hsi.
  apply validate_input_ranges_nil. intros name lo hi Hin.
  unfold ModelService.range_checks in Hin.
  assert (Z2Q : forall a b, a <= b -> (inject_Z a <= inject_Z b)%Q)
    by (intros a b; rewrite <- Zle_Qle; auto).
  repeat (apply elem_of_cons in Hin as [[= -> -> ->]|Hin]);
    [..|inversion Hin];
    model_format_get; simpl; eexists; (split; [reflexivity|]);
    try tauto; split;
    first [ apply (Z2Q 18); lia | apply (Z2Q _ 65); lia
          | apply (Z2Q 1); lia | apply (Z2Q _ 5); lia
          | apply (Z2Q 0); lia | apply (Z2Q _ 8); lia ].
Qed.

(** X6.  A request that passed the validation of the schema always passes
    the range validation of the stand-alone model service and is encoded by
    its [preprocess_input] into a row of thirteen numbers: the two layers
    of validation never disagree on an accepted request. *)
Theorem validated_request_preprocessed
    (int_validator : value -> option Z) (float_validator : value -> option Q)
    float_of_str (raw : gmap string value) (request : StressPredictionRequest)
    (self : ModelService.t) :
  validate_request int_validator float_validator raw = inr request ->
  ModelService.feature_names self = Some expected_features ->
  ModelService._validate_input_ranges (to_model_format request) = [] /\
  exists x,
    ModelService.preprocess_input float_of_str self (to_model_format request)
      = Some x /\
    length x = 13%nat /\
    x !! 0%nat = Some (inject_Z (age request)) /\
    x !! 2%nat = Some (sleep_duration request) /\
    x !! 8%nat = Some (work_hours request).
Proof.
  intros Hv Hn.
  apply validated_request_fields in Hv as (Hi & Hq).
  assert (Hr : ModelService._validate_input_ranges (to_model_format request)
               = []) by (apply validate_input_ranges_request; tauto).
  split; [exact Hr|].
  eexists. split.
  - unfold ModelService.preprocess_input. rewrite Hr, Hn. simpl.
    assert (Hf : filter (fun feature => to_model_format request !! feature
                                        = None) expected_features = []).
    { apply filter_nil_Forall, Forall_forall. intros f Hin.
      destruct (to_model_format_lookup request) as
        (H1 & H2 & H3 & H4 & H5 & H6 & H7 & H8 & H9 & H10 & H11 & H12 & H13).
      repeat (apply elem_of_cons in Hin as [->|Hin]); [..|inversion Hin];
        congruence. }
    rewrite Hf. apply encode_features_request.
  - repeat split.
Qed.

Lemma validated_request_preprocessed_witness :
  exists request x,
    validate_request json_int json_float (raw_body 8 (75 # 10) 1)
      = inr request /\
    ModelService.preprocess_input no_float_of_str
      (sample_service (constant_classifier (PStr "Low") None))
      (to_model_format request) = Some x /\
    length x = 13%nat.
Proof.
  set (request :=
         {| age := 30; gender := GenderEnum.MALE; sleep_duration := 75 # 10;
            sleep_quality := 4; physical_activity := 3;
            screen_time := 80 # 10; caffeine_intake := 2;
            smoking_habit := SmokingHabitEnum.NO; work_hours := 80 # 10;
            travel_time := 10 # 10; social_interactions := 3;
            meditation_practice := MeditationPracticeEnum.YES;
            exercise_type := ExerciseTypeEnum.CARDIO |}).
  assert (H : validate_request json_int json_float (raw_body 8 (75 # 10) 1)
              = inr request) by (vm_compute; reflexivity).
  destruct (validated_request_preprocessed json_int json_float
              no_float_of_str _ _
              (sample_service (constant_classifier (PStr "Low") None))
              H eq_refl) as (_ & x & Hx & Hl & _).
  exists request, x. auto.
Defined.

(** ** The confidence of a prediction *)

Lemma foldl_max_spec (ps : list Q) :
  forall p,
    let m := foldl (fun m x => if Qlt_bool m x then x else m) p ps in
    (m = p \/ m ∈ ps) /\ (p <= m)%Q /\ Forall (fun x => (x <= m)%Q) ps.
Proof.
  induction ps as [|x ps IH]; intros p; simpl.
  - split; [auto|]. split; [apply Qle_refl|constructor].
  - destruct (Qlt_bool p x) eqn:E; qbool.
    + destruct (IH x) as (Hm & Hle & Hall). split; [|split].
      * destruct Hm as [->|Hm]; right; [left|right; exact Hm].
      * lra.
      * constructor; assumption.
    + destruct (IH p) as (Hm & Hle & Hall). split; [|split].
      * destruct Hm as [->|Hm]; [left; reflexivity|right; right; exact Hm].
      * exact Hle.
      * constructor; [lra|assumption].
Qed.

Lemma np_max_spec (probabilities : list Q) (m : Q) :
  np_max probabilities = Some m ->
  m ∈ probabilities /\ Forall (fun x => (x <= m)%Q) probabilities.
Proof.
  destruct probabilities as [|p ps]; [discriminate|]. simpl.
  intros [= <-]. destruct (foldl_max_spec ps p) as (Hm & Hle & Hall).
  split.
  - destruct Hm as [->|Hm]; [left|right; exact Hm].
  - constructor; assumption.
Qed.

Lemma confidence_of_spec (m : Classifier) (x : list Q) (c : Q) :
  ModelService.confidence_of m x = Some c ->
  match clf_predict_proba m with
  | Some predict_proba =>
      exists probabilities,
        predict_proba x = Some probabilities /\
        c ∈ probabilities /\ Forall (fun p => (p <= c)%Q) probabilities
  | None => c = (8 # 10)%Q
  end.
Proof.
  unfold ModelService.confidence_of.
  destruct (clf_predict_proba m) as [pp|]; [|congruence].
  destruct (pp x) as [ps|]; [|discriminate]. simpl.
  intros H. apply np_max_spec in H. eauto.
Qed.

(** X7.  The confidence of a prediction, in both model services, is the
    largest of the class probabilities the classifier gives for the
    encoded row (one of them, and no smaller than any of them), so that a
    prediction is returned only when the classifier gave at least one
    probability; it is 0.8 when the classifier has no [predict_proba]. *)
Theorem confidence_is_largest_probability float_of_str
    (input_data : gmap string value) :
  (forall self r,
     ModelService.predict float_of_str self input_data = Some r ->
     exists x m,
       ModelService.preprocess_input float_of_str self input_data = Some x /\
       ModelService.model self = Some m /\
       match clf_predict_proba m with
       | Some predict_proba =>
           exists probabilities,
             predict_proba x = Some probabilities /\
             ModelService.r_confidence r ∈ probabilities /\
             Forall (fun p => (p <= ModelService.r_confidence r)%Q)
                    probabilities
       | None => ModelService.r_confidence r = (8 # 10)%Q
       end) /\
  (forall self r events,
     App.ModelService.predict float_of_str self input_data
       = (Some r, events) ->
     exists x m,
       App.ModelService.preprocess_input float_of_str self input_data
         = Some x /\
       App.ModelService.model self = Some m /\
       match clf_predict_proba m with
       | Some predict_proba =>
           exists probabilities,
             predict_proba x = Some probabilities /\
             App.ModelService.r_confidence r ∈ probabilities /\
             Forall (fun p => (p <= App.ModelService.r_confidence r)%Q)
                    probabilities
       | None => App.ModelService.r_confidence r = (8 # 10)%Q
       end).
Proof.
  split.
  - intros self r H.
    apply services_predict_inv in H
      as (_ & x & m & p & c & l & Hx & Hm & _ & Hc & _ & _ & _ & <- & _).
    exists x, m. split; [exact Hx|]. split; [exact Hm|].
    apply confidence_of_spec, Hc.
  - intros self r events H.
    apply app_predict_inv in H as (x & m & p & Hx & Hm & _ & Hc & _).
    exists x, m. split; [exact Hx|]. split; [exact Hm|].
    apply confidence_of_spec, Hc.
Qed.

Lemma confidence_is_largest_probability_witness :
  exists r,
    ModelService.predict no_float_of_str
      (sample_service
         (constant_classifier (PStr "High") (Some [1 # 10; 7 # 10; 2 # 10]%Q)))
      (to_model_format sample_request) = Some r /\
    ModelService.r_confidence r ∈ [1 # 10; 7 # 10; 2 # 10]%Q /\
    Forall (fun p => (p <= ModelService.r_confidence r)%Q)
      [1 # 10; 7 # 10; 2 # 10]%Q.
Proof.
  set (m := constant_classifier (PStr "High")
              (Some [1 # 10; 7 # 10; 2 # 10]%Q)).
  destruct (ModelService.predict no_float_of_str (sample_service m)
              (to_model_format sample_request)) as [r|] eqn:E;
    [|vm_compute in E; discriminate].
  exists r. split; [reflexivity|].
  destruct (proj1 (confidence_is_largest_probability no_float_of_str
                     (to_model_format sample_request))
              (sample_service m) r E) as (x & m' & _ & Hm & H).
  injection Hm as <-. simpl in H.
  destruct H as (probabilities & [= <-] & Hin & Hall). auto.
Defined.

(** ** Feature importances *)

Lemma dict_set_fresh {A : Type} (d : list (string * A)) (key : string)
    (v : A) :
  key ∉ d.*1 -> dict_set d key v = d ++ [(key, v)].
Proof.
  induction d as [|[k x] d IH]; csimpl; intros Hk; [reflexivity|].
  rewrite not_elem_of_cons in Hk. destruct Hk as [Hne Hk].
  rewrite bool_decide_eq_false_2 by congruence. f_equal. apply IH, Hk.
Qed.

Lemma dict_set_keys {A : Type} (d : list (string * A)) (key : string)
    (v : A) :
  (dict_set d key v).*1 = if bool_decide (key ∈ d.*1) then d.*1
                          else d.*1 ++ [key].
Proof.
  induction d as [|[k x] d IH]; csimpl; [reflexivity|].
  destruct (decide (k = key)) as [->|Hne].
  - rewrite bool_decide_eq_true_2 by reflexivity.
    rewrite bool_decide_eq_true_2 by left. reflexivity.
  - rewrite bool_decide_eq_false_2 by exact Hne. csimpl. rewrite IH.
    destruct (decide (key ∈ d.*1)) as [Hin|Hin].
    + rewrite !bool_decide_eq_true_2; [reflexivity|right; exact Hin|exact Hin].
    + rewrite !bool_decide_eq_false_2; [reflexivity| |exact Hin].
      rewrite not_elem_of_cons. split; [congruence|exact Hin].
Qed.

Section FeatureImportanceLoop.

Variable importance_scores : list Q.

Let step (d : list (string * Q)) (p : nat * string) : list (string * Q) :=
  let '(i, feature_name) := p in
  match importance_scores !! i with
  | Some w => dict_set d feature_name w
  | None => d
  end.

Lemma importance_loop_zip (names : list string) :
  forall (k : nat) (d : list (string * Q)),
    NoDup (d.*1 ++ names) ->
    foldl step d (imap (fun i n => (k + i, n)%nat) names)
    = d ++ zip names (drop k importance_scores).
Proof.
  induction names as [|n names IH]; intros k d Hnd; csimpl.
  - rewrite app_nil_r. reflexivity.
  - rewrite Nat.add_0_r.
    rewrite (imap_ext _ (fun i n => (S k + i, n)%nat))
      by (intros; simpl; f_equal; lia).
    apply NoDup_app in Hnd as (Hd & Hdisj & Hn).
    apply NoDup_cons in Hn as [Hn Hnames].
    destruct (importance_scores !! k) as [w|] eqn:Hw.
    + rewrite (drop_S _ _ _ Hw). csimpl.
      rewrite dict_set_fresh by (intros Hin; apply (Hdisj n Hin); left).
      change (fun (i : nat) (n0 : string) => (S (k + i), n0))
        with (fun (i : nat) (n0 : string) => ((S k + i)%nat, n0)).
      rewrite IH.
      * rewrite <- app_assoc. reflexivity.
      * rewrite fmap_app. csimpl. rewrite <- app_assoc. csimpl.
        apply NoDup_app. split; [exact Hd|]. split.
        -- intros y Hy Hin. apply (Hdisj y Hy). exact Hin.
        -- constructor; assumption.
    + rewrite IH.
      * apply lookup_ge_None in Hw.
        rewrite !drop_ge by lia. destruct names; reflexivity.
      * apply NoDup_app. split; [exact Hd|]. split; [|exact Hnames].
        intros y Hy Hin. apply (Hdisj y Hy). right. exact Hin.
Qed.

Lemma importance_loop_keys (names : list string) :
  forall (f : nat -> string -> nat * string) (d : list (string * Q)),
    (forall i n, (f i n).2 = n) ->
    NoDup d.*1 ->
    let r := foldl step d (imap f names) in
    NoDup r.*1 /\
    (forall key, key ∈ r.*1 -> key ∈ d.*1 \/ key ∈ names) /\
    (length r <= length d + length names)%nat.
Proof.
  induction names as [|n names IH]; intros f d Hf Hd; csimpl.
  - split; [exact Hd|]. split; [auto|lia].
  - destruct (f 0%nat n) as [i n'] eqn:E.
    assert (n' = n) as -> by (rewrite <- (Hf 0%nat n), E; reflexivity).
    csimpl.
    set (d' := match importance_scores !! i with
               | Some w => dict_set d n w
               | None => d
               end).
    assert (Hd' : NoDup d'.*1 /\
                  (forall key, key ∈ d'.*1 -> key ∈ d.*1 \/ key = n) /\
                  (length d' <= S (length d))%nat).
    { unfold d'. destruct (importance_scores !! i) as [w|].
      - pose proof (dict_set_keys d n w) as Hk.
        assert (Hlen : length (dict_set d n w) = length (dict_set d n w).*1)
          by (rewrite length_fmap; reflexivity).
        assert (Hlen' : length d = length d.*1)
          by (rewrite length_fmap; reflexivity).
        rewrite Hlen, Hlen', Hk. case_bool_decide as Hin.
        + split; [exact Hd|]. split; [auto|lia].
        + split; [|split].
          * apply NoDup_app. split; [exact Hd|]. split.
            -- intros y Hy Hy'. apply list_elem_of_singleton in Hy'.
               subst. contradiction.
            -- apply NoDup_singleton.
          * intros key Hkey. apply elem_of_app in Hkey as [?|Hkey];
              [auto|]. apply list_elem_of_singleton in Hkey. auto.
          * rewrite length_app. simpl. lia.
      - split; [exact Hd|]. split; [auto|lia]. }
    destruct Hd' as (Hnd' & Hkeys' & Hlen').
    destruct (IH (f ∘ S) d' (fun i n => Hf (S i) n) Hnd')
      as (Hnd & Hkeys & Hlen).
    split; [exact Hnd|]. split.
    + intros key Hkey. destruct (Hkeys key Hkey) as [Hk|Hk].
      * destruct (Hkeys' key Hk) as [?| ->]; [auto|right; left].
      * right. right. exact Hk.
    + lia.
Qed.

End FeatureImportanceLoop.

(** X8.  [_get_feature_importance] gives nothing for a service that is
    not loaded.  The dictionary it gives otherwise has feature names of
    the loaded model as its keys, none twice, and no more entries than
    there are feature names; when the feature names are distinct it pairs
    each name with the importance at the same position, up to the shorter
    of the two lists. *)
Theorem get_feature_importance_spec (self : ModelService.t) :
  (ModelService.is_loaded self = false ->
   ModelService._get_feature_importance self = None) /\
  (forall feature_importance,
     ModelService._get_feature_importance self = Some feature_importance ->
     exists m importance_scores names,
       ModelService.is_loaded self = true /\
       ModelService.model self = Some m /\
       clf_feature_importances_ m = Some importance_scores /\
       ModelService.feature_names self = Some names /\
       NoDup feature_importance.*1 /\
       (forall key, key ∈ feature_importance.*1 -> key ∈ names) /\
       (length feature_importance <= length names)%nat /\
       (NoDup names -> feature_importance = zip names importance_scores)).
Proof.
  unfold ModelService._get_feature_importance. split.
  - intros ->. reflexivity.
  - intros fi.
    destruct (ModelService.is_loaded self) eqn:E1; [simpl|discriminate].
    destruct (ModelService.model self) as [m|] eqn:E2; [simpl|discriminate].
    destruct (clf_feature_importances_ m) as [ws|] eqn:E3; [|discriminate].
    destruct (ModelService.feature_names self) as [names|] eqn:E4;
      [|discriminate].
    intros [= <-]. exists m, ws, names.
    do 4 (split; [first [reflexivity|assumption]|]).
    destruct (importance_loop_keys ws names (fun i n => (i, n)) []
                (fun _ _ => eq_refl) (NoDup_nil_2))
      as (Hnd & Hkeys & Hlen).
    split; [exact Hnd|]. split.
    { intros key Hkey. destruct (Hkeys key Hkey) as [Hk|Hk];
        [inversion Hk|exact Hk]. }
    split; [exact Hlen|].
    intros Hn.
    pose proof (importance_loop_zip ws names 0 [] Hn) as Hz.
    rewrite drop_0 in Hz. simpl in Hz. rewrite <- Hz. reflexivity.
Qed.

Lemma get_feature_importance_spec_witness :
  ModelService._get_feature_importance (sample_service forest_classifier)
  = Some (zip expected_features
            [5 # 100; 2 # 100; 30 # 100; 10 # 100; 8 # 100; 7 # 100;
             6 # 100; 2 # 100; 15 # 100; 5 # 100; 5 # 100; 3 # 100;
             2 # 100]%Q).
Proof.
  destruct (ModelService._get_feature_importance
              (sample_service forest_classifier)) as [fi|] eqn:E;
    [|vm_compute in E; discriminate].
  destruct (proj2 (get_feature_importance_spec
                     (sample_service forest_classifier)) fi E)
    as (m & ws & names & _ & Hm & Hw & Hn & _ & _ & _ & Hzip).
  injection Hm as <-. injection Hw as <-. injection Hn as <-.
  rewrite Hzip; [reflexivity|].
  apply NoDup_ListNoDup. unfold expected_features.
  repeat constructor; simpl; intuition discriminate.
Defined.

(** ** The order of the feature importances *)

Lemma insert_desc_perm (x : string * Q) (l : list (string * Q)) :
  insert_desc x l ≡ₚ x :: l.
Proof.
  induction l as [|y l IH]; simpl; [reflexivity|].
  destruct (_ || _); [|reflexivity].
  rewrite IH. apply Permutation_swap.
Qed.

Lemma insert_desc_sorted (x : string * Q) (l : list (string * Q)) :
  StronglySorted (fun a b : string * Q => (b.2 <= a.2)%Q) l ->
  StronglySorted (fun a b : string * Q => (b.2 <= a.2)%Q) (insert_desc x l).
Proof.
  induction l as [|y l IH]; simpl; intros Hs.
  - repeat constructor.
  - apply StronglySorted_inv in Hs as [Hs Hy].
    destruct (Qlt_bool x.2 y.2 || Qeq_bool x.2 y.2) eqn:E.
    + assert (Hxy : (x.2 <= y.2)%Q).
      { apply orb_true_iff in E as [E|E]; qbool; [lra|].
        apply Qeq_bool_iff in E. rewrite E. apply Qle_refl. }
      constructor; [apply IH, Hs|].
      rewrite (insert_desc_perm x l). constructor; assumption.
    + apply orb_false_iff in E as [E _]. qbool.
      constructor; [constructor; assumption|].
      constructor; [exact E|].
      eapply Forall_impl; [exact Hy|]. simpl. intros z Hz. lra.
Qed.

Lemma sorted_desc_loop (items : list (string * Q)) :
  forall acc,
    StronglySorted (fun a b : string * Q => (b.2 <= a.2)%Q) acc ->
    foldl (fun acc x => insert_desc x acc) acc items ≡ₚ acc ++ items /\
    StronglySorted (fun a b : string * Q => (b.2 <= a.2)%Q)
      (foldl (fun acc x => insert_desc x acc) acc items).
Proof.
  induction items as [|x items IH]; intros acc Hacc; simpl.
  - rewrite app_nil_r. auto.
  - destruct (IH (insert_desc x acc) (insert_desc_sorted x acc Hacc))
      as [Hp Hs].
    split; [|exact Hs].
    rewrite Hp, insert_desc_perm. simpl. apply Permutation_middle.
Qed.

(** X9.  The features are ranked by [sorted(..., reverse=True)] on their
    importance: the ranking is a rearrangement of the entries of the
    dictionary in which no entry comes before one of greater importance,
    so the first entry, the one named by the key-factor insight, has the
    greatest importance of all. *)
Theorem sorted_desc_spec (items : list (string * Q)) :
  sorted_desc items ≡ₚ items /\
  StronglySorted (fun a b : string * Q => (b.2 <= a.2)%Q)
    (sorted_desc items) /\
  (forall top,
     head (sorted_desc items) = Some top ->
     top ∈ items /\ Forall (fun e : string * Q => (e.2 <= top.2)%Q) items).
Proof.
  destruct (sorted_desc_loop items [] (SSorted_nil _)) as [Hp Hs].
  fold (sorted_desc items) in Hp, Hs. simpl in Hp.
  split; [exact Hp|]. split; [exact Hs|].
  intros top Hh. destruct (sorted_desc items) as [|e l] eqn:E; [discriminate|].
  injection Hh as ->. split.
  - rewrite <- Hp. left.
  - rewrite <- Hp. apply StronglySorted_inv in Hs as [_ Hall].
    constructor; [apply Qle_refl|exact Hall].
Qed.

(** ** The score of the response formatter *)

Lemma round_half_even_within (lo hi : Z) (q : Q) :
  (inject_Z lo <= q)%Q -> (q <= inject_Z hi)%Q ->
  lo <= round_half_even q <= hi.
Proof.
  intros Hlo Hhi. split.
  - rewrite <- (round_half_even_inject_Z lo). apply round_half_even_mono, Hlo.
  - rewrite <- (round_half_even_inject_Z hi). apply round_half_even_mono, Hhi.
Qed.

(** X10.  For a confidence between 0 and 1, [_calculate_numerical_score]
    keeps the score within the band of the level: 10 to 25 for Low, exactly
    50 for Medium, 75 to 90 for High.  The bands are disjoint, so the score
    of a formatted response tells its level. *)
Theorem numerical_score_bands (stress_level : StressLevelEnum.t)
    (confidence : Q) :
  (0 <= confidence)%Q -> (confidence <= 1)%Q ->
  let score :=
    ResponseFormatter._calculate_numerical_score stress_level confidence in
  match stress_level with
  | StressLevelEnum.LOW => 10 <= score <= 25
  | StressLevelEnum.MEDIUM => score = 50
  | StressLevelEnum.HIGH => 75 <= score <= 90
  end.
Proof.
  intros H0 H1. unfold ResponseFormatter._calculate_numerical_score.
  destruct stress_level; cbv zeta.
  - apply round_half_even_within;
      destruct (Qlt_bool _ 10) eqn:E; qbool;
      change (inject_Z 10) with 10%Q; change (inject_Z 25) with 25%Q; lra.
  - apply (round_half_even_inject_Z 50).
  - apply round_half_even_within;
      destruct (Qlt_bool 90 _) eqn:E; qbool;
      change (inject_Z 75) with 75%Q; change (inject_Z 90) with 90%Q; lra.
Qed.

Lemma numerical_score_bands_witness :
  75 <= ResponseFormatter._calculate_numerical_score StressLevelEnum.HIGH
          (5 # 10) <= 90.
Proof.
  apply (numerical_score_bands StressLevelEnum.HIGH (5 # 10));
    vm_compute; discriminate.
Defined.

(** X11.  The score moves toward the middle of the scale as the
    confidence falls: for the level Low a greater confidence gives a score
    at least as great (up to the base score 25 at confidence 1), for the
    level High a score at most as great (down to 75), and the score of
    Medium does not depend on the confidence. *)
Theorem numerical_score_monotone (c1 c2 : Q) :
  (c1 <= c2)%Q ->
  ResponseFormatter._calculate_numerical_score StressLevelEnum.LOW c1
    <= ResponseFormatter._calculate_numerical_score StressLevelEnum.LOW c2 /\
  ResponseFormatter._calculate_numerical_score StressLevelEnum.HIGH c2
    <= ResponseFormatter._calculate_numerical_score StressLevelEnum.HIGH c1 /\
  ResponseFormatter._calculate_numerical_score StressLevelEnum.MEDIUM c1
    = ResponseFormatter._calculate_numerical_score StressLevelEnum.MEDIUM c2.
Proof.
  intros H. unfold ResponseFormatter._calculate_numerical_score. cbv zeta.
  split; [|split; [|reflexivity]]; apply round_half_even_mono.
  - destruct (Qlt_bool (25 - (1 - c1) * 15) 10) eqn:E1;
      destruct (Qlt_bool (25 - (1 - c2) * 15) 10) eqn:E2; qbool; lra.
  - destruct (Qlt_bool 90 (75 + (1 - c1) * 15)) eqn:E1;
      destruct (Qlt_bool 90 (75 + (1 - c2) * 15)) eqn:E2; qbool; lra.
Qed.

Lemma numerical_score_monotone_witness :
  ResponseFormatter._calculate_numerical_score StressLevelEnum.LOW (5 # 10)
    <= ResponseFormatter._calculate_numerical_score StressLevelEnum.LOW 1 /\
  ResponseFormatter._calculate_numerical_score StressLevelEnum.HIGH 1
    <= ResponseFormatter._calculate_numerical_score StressLevelEnum.HIGH
         (5 # 10).
Proof.
  assert (H : (5 # 10 <= 1)%Q) by (vm_compute; discriminate).
  split; [exact (proj1 (numerical_score_monotone _ _ H))|].
  exact (proj1 (proj2 (numerical_score_monotone _ _ H))).
Defined.

(** ** The response of the formatter *)

Lemma numerical_score_percent (stress_level : StressLevelEnum.t)
    (confidence : Q) :
  (0 <= confidence)%Q -> (confidence <= 1)%Q ->
  0 <= ResponseFormatter._calculate_numerical_score stress_level confidence
    <= 100.
Proof.
  intros H0 H1. unfold ResponseFormatter._calculate_numerical_score.
  apply round_half_even_within; destruct stress_level; cbv zeta;
    try (destruct (Qlt_bool _ 10) eqn:E); try (destruct (Qlt_bool 90 _) eqn:E);
    qbool; change (inject_Z 0) with 0%Q; change (inject_Z 100) with 100%Q;
    lra.
Qed.

Lemma StressLevelEnum_round_trip (l : StressLevelEnum.t) :
  StressLevelEnum.of_string (StressLevelEnum.value_of l) = Some l.
Proof. destruct l; reflexivity. Qed.

(** X12.  [format_prediction_response] returns a response built from the
    prediction exactly when the confidence of the prediction lies between
    0 and 1: its level is the category of the predicted label, its score
    the score of that level and confidence, and the confidence, the model
    name, the model score and the feature importances are those of the
    prediction.  For any other confidence the construction of the response
    fails and the fixed fallback response (Medium, 50, 0.5) is returned,
    whatever the classifier predicted. *)
Theorem format_prediction_response_spec (uuid4_hex8 : nat -> string)
    (prediction_result : ModelService.result)
    (input_data : gmap string value) :
  let confidence := ModelService.r_confidence prediction_result in
  let stress_level :=
    ResponseFormatter._categorize_stress_level
      (VStr (ModelService.r_level prediction_result)) in
  let insights :=
    ResponseFormatter._generate_enhanced_insights input_data stress_level
      (ModelService.r_feature_importance prediction_result) in
  ((0 <= confidence)%Q /\ (confidence <= 1)%Q ->
   ResponseFormatter.format_prediction_response uuid4_hex8 prediction_result
     input_data
   = {| level := stress_level;
        score :=
          ResponseFormatter._calculate_numerical_score stress_level
            confidence;
        confidence := confidence;
        insights := insights;
        recommendations :=
          ResponseFormatter._generate_personalized_recommendations
            stress_level input_data;
        wellness_plan :=
          ResponseFormatter._create_wellness_plan uuid4_hex8 stress_level
            input_data insights;
        model_name := ModelService.r_model_name prediction_result;
        model_score := ModelService.r_model_score prediction_result;
        feature_importance :=
          ModelService.r_feature_importance prediction_result |}) /\
  ((confidence < 0)%Q \/ (1 < confidence)%Q ->
   ResponseFormatter.format_prediction_response uuid4_hex8 prediction_result
     input_data
   = ResponseFormatter._create_fallback_response).
Proof.
  intros c l ins.
  unfold ResponseFormatter.format_prediction_response,
    StressPredictionResponse_init.
  fold c. fold l. fold ins.
  rewrite StressLevelEnum_round_trip. cbn [mbind option_bind].
  generalize (ResponseFormatter._generate_personalized_recommendations l
                input_data)
             (ResponseFormatter._create_wellness_plan uuid4_hex8 l
                input_data ins).
  intros recs plan. generalize ins. clear ins. intros ins.
  split.
  - intros [H0 H1].
    pose proof (numerical_score_percent l c H0 H1) as Hs.
    assert (E1 : (ResponseFormatter._calculate_numerical_score l c <? 0)
                 || (100 <? ResponseFormatter._calculate_numerical_score l c)
                 = false).
    { apply orb_false_iff. split; [apply Z.ltb_ge|apply Z.ltb_ge]; lia. }
    assert (E2 : Qlt_bool c 0 || Qlt_bool 1 c = false).
    { apply orb_false_iff. split; apply Qlt_bool_false_iff; assumption. }
    rewrite E1, E2. reflexivity.
  - intros H.
    destruct ((_ <? 0) || (100 <? _)); [reflexivity|].
    assert (E2 : Qlt_bool c 0 || Qlt_bool 1 c = true).
    { apply orb_true_iff. destruct H as [H|H]; [left|right];
        apply Qlt_bool_iff; exact H. }
    rewrite E2. reflexivity.
Qed.

Lemma format_prediction_response_spec_witness :
  ResponseFormatter.format_prediction_response (fun _ => "0a1b2c3d")
    {| ModelService.r_level := "High"; ModelService.r_score := 75;
       ModelService.r_confidence := 12 # 10;
       ModelService.r_insights := []; ModelService.r_recommendations := [];
       ModelService.r_model_name := None; ModelService.r_model_score := None;
       ModelService.r_feature_importance := None |}
    (to_model_format stressed_request)
  = ResponseFormatter._create_fallback_response.
Proof.
  apply (proj2 (format_prediction_response_spec (fun _ => "0a1b2c3d")
                  {| ModelService.r_level := "High";
                     ModelService.r_score := 75;
                     ModelService.r_confidence := 12 # 10;
                     ModelService.r_insights := [];
                     ModelService.r_recommendations := [];
                     ModelService.r_model_name := None;
                     ModelService.r_model_score := None;
                     ModelService.r_feature_importance := None |}
                  (to_model_format stressed_request))).
  right. vm_compute. reflexivity.
Defined.

(** ** Recommendations and tasks of the formatter *)

Lemma filter_id_not_elem (x : string) (l : list string) :
  x ∉ l -> filter (fun y => y <> x) l = l.
Proof.
  induction l as [|y l IH]; [reflexivity|].
  rewrite not_elem_of_cons. intros [Hne Hx].
  rewrite filter_cons_True by congruence. f_equal. apply IH, Hx.
Qed.

Lemma dedup_first_app (base rest : list string) :
  NoDup base ->
  dedup_first (base ++ rest)
  = base ++ filter (fun y => y ∉ base) (dedup_first rest).
Proof.
  induction base as [|x base IH]; intros Hnd.
  - simpl. symmetry. induction (dedup_first rest) as [|y d IHd];
      [reflexivity|].
    rewrite filter_cons_True by apply not_elem_of_nil. f_equal. exact IHd.
  - apply NoDup_cons in Hnd as [Hx Hnd]. simpl. f_equal.
    rewrite IH by exact Hnd. rewrite filter_app.
    rewrite filter_id_not_elem by exact Hx. f_equal.
    rewrite list_filter_filter. apply list_filter_iff.
    intros y. rewrite not_elem_of_cons. tauto.
Qed.

Lemma recommendation_templates_NoDup (l : StressLevelEnum.t) :
  NoDup (ResponseFormatter.recommendation_templates l).
Proof.
  destruct l; simpl; apply NoDup_ListNoDup;
    repeat constructor; simpl; intuition discriminate.
Qed.

(** X13.  The recommendations of the formatter always start with the
    recommendations of the level, in their order: the personalized ones
    only fill what is left of the six places.  The level High has six
    recommendations of its own, so its list is the same for every input
    and no personalized recommendation is ever part of it.  No
    recommendation occurs twice, and each comes from the templates of the
    level or from the personalized rules. *)
Theorem recommendations_start_with_templates
    (stress_level : StressLevelEnum.t) (input_data : gmap string value) :
  let templates := ResponseFormatter.recommendation_templates stress_level in
  let recommendations :=
    ResponseFormatter._generate_personalized_recommendations stress_level
      input_data in
  take (length templates) recommendations = templates /\
  ResponseFormatter._generate_personalized_recommendations
    StressLevelEnum.HIGH input_data
  = ResponseFormatter.recommendation_templates StressLevelEnum.HIGH /\
  NoDup recommendations /\
  (forall rec,
     rec ∈ recommendations ->
     rec ∈ templates \/
     rec ∈ ResponseFormatter._generate_personal_recommendations input_data).
Proof.
  assert (Hshape : forall l,
    ResponseFormatter._generate_personalized_recommendations l input_data
    = take 6 (ResponseFormatter.recommendation_templates l ++
              filter (fun y => y ∉ ResponseFormatter.recommendation_templates l)
                (dedup_first
                   (ResponseFormatter._generate_personal_recommendations
                      input_data)))).
  { intros l.
    unfold ResponseFormatter._generate_personalized_recommendations.
    cbv zeta. rewrite app_nil_l, unique_loop_dedup_first.
    rewrite dedup_first_app by apply recommendation_templates_NoDup.
    reflexivity. }
  cbv zeta. split; [|split; [|split]].
  - rewrite Hshape. rewrite take_take.
    assert (Hl : (length (ResponseFormatter.recommendation_templates
                            stress_level) <= 6)%nat)
      by (destruct stress_level; simpl; lia).
    rewrite Nat.min_l by exact Hl.
    rewrite take_app_le by lia. apply take_ge. lia.
  - rewrite Hshape.
    change 6%nat with
      (length (ResponseFormatter.recommendation_templates
                 StressLevelEnum.HIGH)) at 1.
    rewrite take_app_length. reflexivity.
  - unfold ResponseFormatter._generate_personalized_recommendations.
    cbv zeta. rewrite unique_loop_dedup_first.
    eapply sublist_NoDup; [apply dedup_first_NoDup|apply sublist_take].
  - intros rec Hrec. rewrite Hshape in Hrec.
    apply elem_of_take in Hrec as (i & Hrec & _).
    apply list_elem_of_lookup_2 in Hrec.
    apply elem_of_app in Hrec as [Hrec|Hrec]; [left; exact Hrec|right].
    apply list_elem_of_filter in Hrec as [_ Hrec].
    apply dedup_first_subset, Hrec.
Qed.

Lemma personal_tasks_rewards (input_data : gmap string value) :
  Forall (fun td => 0 <= ResponseFormatter.td_reward td)
    (ResponseFormatter._generate_personal_tasks input_data).
Proof.
  unfold ResponseFormatter._generate_personal_tasks,
    ResponseFormatter.personal_tasks_body. cbv zeta.
  destruct (py_lt _ 7) as [[]|]; [| |constructor];
    (destruct (py_lt _ 2) as [[]|]; [| |constructor]);
    (destruct (py_gt _ 8) as [[]|]; [| |constructor]);
    destruct (py_eq_str _ "No"); simpl;
    repeat constructor; simpl; lia.
Qed.

Lemma wellness_task_templates_rewards (l : StressLevelEnum.t) :
  Forall (fun td => 0 <= ResponseFormatter.td_reward td)
    (ResponseFormatter.wellness_task_templates l).
Proof. destruct l; simpl; repeat constructor; simpl; lia. Qed.

Lemma wellness_tasks_loop_imap uuid4_hex8 all_tasks :
  forall i tasks,
    Forall (fun td => 0 <= ResponseFormatter.td_reward td) all_tasks ->
    ResponseFormatter.wellness_tasks_loop uuid4_hex8 i all_tasks tasks
    = Some (tasks ++
            imap (fun j td =>
                    {| task_id :=
                         ResponseFormatter.task_id_of uuid4_hex8 (i + j);
                       task_title := ResponseFormatter.td_title td;
                       task_type := ResponseFormatter.td_type td;
                       task_link := ResponseFormatter.td_link td;
                       task_reward := ResponseFormatter.td_reward td |})
                 all_tasks).
Proof.
  induction all_tasks as [|td rest IH]; intros i tasks Hall; simpl.
  - rewrite app_nil_r. reflexivity.
  - apply Forall_cons in Hall as [Htd Hall].
    unfold WellnessTask_init.
    rewrite (proj2 (Z.ltb_ge _ _) Htd). simpl.
    rewrite IH by exact Hall. rewrite <- app_assoc. simpl.
    rewrite Nat.add_0_r. do 3 f_equal.
    apply imap_ext. intros j x _. simpl. do 2 f_equal. lia.
Qed.

(** X14.  [_generate_wellness_tasks] never falls back to the two fallback
    tasks: every template and every personalized task has a reward that
    [WellnessTask] accepts.  Its result is the first six of the tasks of
    the level followed by the personalized ones, each in its place with
    the id [task-<position>-<random part>], so a plan has at least the
    tasks of its level (two for Low, three for Medium, four for High) and
    at most six. *)
Theorem wellness_tasks_spec (uuid4_hex8 : nat -> string)
    (stress_level : StressLevelEnum.t) (input_data : gmap string value) :
  let templates := ResponseFormatter.wellness_task_templates stress_level in
  let tasks :=
    ResponseFormatter._generate_wellness_tasks uuid4_hex8 stress_level
      input_data in
  tasks
  = imap (fun i td =>
            {| task_id := ResponseFormatter.task_id_of uuid4_hex8 i;
               task_title := ResponseFormatter.td_title td;
               task_type := ResponseFormatter.td_type td;
               task_link := ResponseFormatter.td_link td;
               task_reward := ResponseFormatter.td_reward td |})
         (take 6 (templates ++
                  ResponseFormatter._generate_personal_tasks input_data)) /\
  (length templates <= length tasks <= 6)%nat /\
  (length templates
   = match stress_level with
     | StressLevelEnum.LOW => 2
     | StressLevelEnum.MEDIUM => 3
     | StressLevelEnum.HIGH => 4
     end)%nat.
Proof.
  cbv zeta.
  assert (E : ResponseFormatter._generate_wellness_tasks uuid4_hex8
                stress_level input_data
              = imap (fun i td =>
                        {| task_id :=
                             ResponseFormatter.task_id_of uuid4_hex8 i;
                           task_title := ResponseFormatter.td_title td;
                           task_type := ResponseFormatter.td_type td;
                           task_link := ResponseFormatter.td_link td;
                           task_reward := ResponseFormatter.td_reward td |})
                     (take 6 (ResponseFormatter.wellness_task_templates
                                stress_level ++
                              ResponseFormatter._generate_personal_tasks
                                input_data))).
  { unfold ResponseFormatter._generate_wellness_tasks. cbv zeta.
    rewrite wellness_tasks_loop_imap; [reflexivity|].
    apply Forall_take, Forall_app. split.
    - apply wellness_task_templates_rewards.
    - apply personal_tasks_rewards. }
  split; [exact E|]. split; [|destruct stress_level; reflexivity].
  rewrite E, length_imap, length_take, length_app.
  destruct stress_level;
    cbn [ResponseFormatter.wellness_task_templates length]; lia.
Qed.

(** X15.  [_create_wellness_plan] of the formatter returns the fallback
    plan exactly when [_generate_plan_summary] raises: when the sleep
    duration of the input is not a number, or when it is at least 6 and the
    physical activity is not a number.  On the dictionary of a request
    object that never happens: the plan has the title of its level. *)
Theorem wellness_plan_fallback (uuid4_hex8 : nat -> string)
    (stress_level : StressLevelEnum.t) (input_data : gmap string value)
    (insights : list string) :
  let sleep_duration := dict_get input_data "Sleep_Duration" (VInt 0) in
  let physical_activity :=
    dict_get input_data "Physical_Activity" (VInt 0) in
  (ResponseFormatter._create_wellness_plan uuid4_hex8 stress_level
     input_data insights
   = ResponseFormatter._create_fallback_wellness_plan
   <-> num_of sleep_duration = None \/
       (exists s, num_of sleep_duration = Some s /\ (6 <= s)%Q /\
                  num_of physical_activity = None)) /\
  (forall request,
     plan_title (ResponseFormatter._create_wellness_plan uuid4_hex8
                   stress_level (to_model_format request) insights)
     = ResponseFormatter._generate_plan_title stress_level).
Proof.
  cbv zeta.
  assert (Hsum : forall d,
    ResponseFormatter._generate_plan_summary stress_level d = None <->
    num_of (dict_get d "Sleep_Duration" (VInt 0)) = None \/
    (exists s, num_of (dict_get d "Sleep_Duration" (VInt 0)) = Some s /\
               (6 <= s)%Q /\
               num_of (dict_get d "Physical_Activity" (VInt 0)) = None)).
  { intros d. unfold ResponseFormatter._generate_plan_summary, py_lt.
    cbv zeta.
    destruct (num_of (dict_get d "Sleep_Duration" (VInt 0))) as [s|];
      simpl.
    - destruct (Qlt_bool s 6) eqn:E; qbool.
      + split; [discriminate|].
        intros [?|(s' & [= <-] & Hs & _)]; [discriminate|lra].
      + destruct (num_of (dict_get d "Physical_Activity" (VInt 0)))
          as [a|]; simpl.
        * split; [destruct (Qlt_bool a 2); discriminate|].
          intros [?|(s' & _ & _ & ?)]; discriminate.
        * split; [eauto 6|reflexivity].
    - split; [auto|reflexivity]. }
  assert (Hplan : forall d,
    ResponseFormatter._create_wellness_plan uuid4_hex8 stress_level d
      insights = ResponseFormatter._create_fallback_wellness_plan <->
    ResponseFormatter._generate_plan_summary stress_level d = None).
  { intros d. unfold ResponseFormatter._create_wellness_plan. cbv zeta.
    destruct (ResponseFormatter._generate_plan_summary stress_level d);
      [|tauto].
    split; [|discriminate].
    intros H. apply (f_equal plan_title) in H. simpl in H.
    destruct stress_level; discriminate. }
  split.
  - rewrite Hplan. apply Hsum.
  - intros request.
    unfold ResponseFormatter._create_wellness_plan. cbv zeta.
    destruct (ResponseFormatter._generate_plan_summary stress_level
                (to_model_format request)) eqn:E; [reflexivity|].
    apply Hsum in E. revert E. model_format_get. simpl.
    intros [?|(s & _ & _ & ?)]; discriminate.
Qed.

(** ** Labels are matched whatever their case *)









(** ** The endpoint with a working classifier *)

Lemma app_predict_success float_of_str (self : App.ModelService.t)
    (input_data : gmap string value) (x : list Q) (m : Classifier)
    (p : prediction) (c : Q) :
  App.ModelService.is_loaded self = true ->
  App.ModelService.preprocess_input float_of_str self input_data = Some x ->
  App.ModelService.model self = Some m ->
  clf_predict m x = Some p ->
  ModelService.confidence_of m x = Some c ->
  App.ModelService.predict float_of_str self input_data
  = (Some {| App.ModelService.r_level := str_of_prediction p;
             App.ModelService.r_score :=
               App.ModelService.numerical_score_of (str_of_prediction p);
             App.ModelService.r_confidence := c;
             App.ModelService.r_insights :=
               App.ModelService._generate_insights input_data
                 (str_of_prediction p);
             App.ModelService.r_recommendations :=
               App.ModelService._generate_recommendations
                 (str_of_prediction p);
             App.ModelService.r_model_name := App.ModelService.model_name self;
             App.ModelService.r_model_score :=
               App.ModelService.model_score self |},
     App.ModelPredict x ::
     match clf_predict_proba m with
     | Some _ => [App.ModelPredictProba x]
     | None => []
     end).
Proof.
  intros Hl Hx Hm Hp Hc. unfold App.ModelService.predict.
  rewrite Hl, Hx, Hm, Hp. simpl.
  unfold ModelService.confidence_of in Hc.
  destruct (clf_predict_proba m) as [pp|].
  - rewrite Hc. reflexivity.
  - injection Hc as <-. reflexivity.
Qed.

Lemma integer_label_unmatched (z : Z) :
  StressLevelEnum.of_string (str_of_prediction (PInt z)) = None.
Proof.
  unfold str_of_prediction, NilZero.string_of_int.
  destruct (Z.to_int z) as [u|u]; [|reflexivity].
  destruct u; reflexivity.
Qed.

Section EndpointBehaviour.

Variable float_of_str : string -> option Q.
Variable _generate_cache_key : gmap string value -> string.

(** X17.  With a model loaded and no valid cache entry for the request,
    when the classifier answers the encoded request with one of the three
    level names and a confidence between 0 and 1, the endpoint returns a
    response with that level, the fixed score of the level (25, 50, 75),
    that confidence, the insights and recommendations of the model service
    and the name of the model; the classifier is called on the encoded
    row, the response is stored in the cache, and it is found there under
    the key of the request unless the sweep that follows already finds it
    older than the time to live. *)
Theorem predict_stress_fresh
    (st : App.state) (self : App.ModelService.t) (m : Classifier)
    (request : StressPredictionRequest) (clk : App.clock)
    (x : list Q) (l : StressLevelEnum.t) (c : Q) :
  let model_input := to_model_format request in
  let key := _generate_cache_key model_input in
  App.model_loaded st = true ->
  App.model_service st = Some self ->
  App.ModelService.is_loaded self = true ->
  App.ModelService.model self = Some m ->
  App.ModelService.preprocess_input float_of_str self model_input = Some x ->
  clf_predict m x = Some (PStr (StressLevelEnum.value_of l)) ->
  ModelService.confidence_of m x = Some c ->
  (0 <= c)%Q -> (c <= 1)%Q ->
  (forall entry,
     App.prediction_cache st !! key = Some entry ->
     App.cache_ttl <= App.now_lookup clk - App.timestamp entry) ->
  exists r st' events,
    App.predict_stress float_of_str _generate_cache_key st request clk
      = (App.Response r, st', events) /\
    level r = l /\
    score r = match l with
              | StressLevelEnum.LOW => 25
              | StressLevelEnum.MEDIUM => 50
              | StressLevelEnum.HIGH => 75
              end /\
    confidence r = c /\
    insights r
      = App.ModelService._generate_insights model_input
          (StressLevelEnum.value_of l) /\
    recommendations r
      = App.ModelService._generate_recommendations
          (StressLevelEnum.value_of l) /\
    model_name r = App.ModelService.model_name self /\
    In (App.ModelPredict x) events /\
    In (App.CacheStore key) events /\
    (App.now_sweep clk - App.now_store clk <= App.cache_ttl ->
     App.prediction_cache st' !! key
     = Some {| App.response := r; App.timestamp := App.now_store clk |}).
Proof.
  intros model_input key Hml Hms Hl Hm Hx Hp Hc H0 H1 Hmiss.
  pose proof (app_predict_success float_of_str self model_input x m _ c
                Hl Hx Hm Hp Hc) as Hpred.
  simpl str_of_prediction in Hpred.
  destruct (app_wellness_plan_tasks (StressLevelEnum.value_of l)
              (App.ModelService._generate_insights model_input
                 (StressLevelEnum.value_of l))) as (plan & Hplan & _).
  set (r := {| level := l;
               score := App.ModelService.numerical_score_of
                          (StressLevelEnum.value_of l);
               confidence := c;
               insights := App.ModelService._generate_insights model_input
                             (StressLevelEnum.value_of l);
               recommendations :=
                 App.ModelService._generate_recommendations
                   (StressLevelEnum.value_of l);
               wellness_plan := plan;
               model_name := App.ModelService.model_name self;
               model_score := App.ModelService.model_score self;
               feature_importance := None |}).
  assert (Hfresh : forall cache,
    App.fresh_prediction float_of_str self cache key model_input clk
    = (App.Response r, (App.cache_store cache key r clk).1,
       (App.ModelPredict x ::
        match clf_predict_proba m with
        | Some _ => [App.ModelPredictProba x]
        | None => []
        end) ++ (App.cache_store cache key r clk).2)).
  { intros cache. unfold App.fresh_prediction. rewrite Hpred.
    cbn [App.ModelService.r_level App.ModelService.r_insights
         App.ModelService.r_score App.ModelService.r_confidence
         App.ModelService.r_recommendations App.ModelService.r_model_name
         App.ModelService.r_model_score].
    rewrite Hplan. unfold StressPredictionResponse_init.
    rewrite StressLevelEnum_round_trip. cbn [mbind option_bind].
    assert (E1 : (App.ModelService.numerical_score_of
                    (StressLevelEnum.value_of l) <? 0)
                 || (100 <? App.ModelService.numerical_score_of
                              (StressLevelEnum.value_of l)) = false)
      by (destruct l; reflexivity).
    assert (E2 : Qlt_bool c 0 || Qlt_bool 1 c = false).
    { apply orb_false_iff. split; apply Qlt_bool_false_iff; assumption. }
    rewrite E1, E2. fold r.
    destruct (App.cache_store cache key r clk). reflexivity. }
  pose proof (predict_stress_loaded float_of_str _generate_cache_key st self
                request clk Hml Hms) as Hps.
  cbv zeta in Hps. fold model_input in Hps. fold key in Hps.
  assert (Hstore : forall cache,
    cache !! key = None ->
    App.now_sweep clk - App.now_store clk <= App.cache_ttl ->
    (App.cache_store cache key r clk).1 !! key
    = Some {| App.response := r; App.timestamp := App.now_store clk |}).
  { intros cache _ Hsweep. rewrite cache_store_lookup, lookup_insert_eq.
    cbn [App.timestamp].
    rewrite (proj2 (Z.ltb_ge _ _) Hsweep). reflexivity. }
  assert (Hscore : score r = match l with
                             | StressLevelEnum.LOW => 25
                             | StressLevelEnum.MEDIUM => 50
                             | StressLevelEnum.HIGH => 75
                             end) by (destruct l; reflexivity).
  destruct (App.prediction_cache st !! key) as [entry|] eqn:Hk.
  - specialize (Hmiss entry eq_refl).
    rewrite (proj2 (Z.ltb_ge _ _) Hmiss) in Hps.
    rewrite Hfresh in Hps. rewrite Hps.
    do 3 eexists. split; [reflexivity|].
    repeat (split; [first [reflexivity|exact Hscore]|]).
    split; [right; right; left; reflexivity|]. split.
    + right. right. apply in_or_app. right.
      apply cache_store_events.
    + apply Hstore. apply lookup_delete_eq.
  - rewrite Hfresh in Hps. rewrite Hps.
    do 3 eexists. split; [reflexivity|].
    repeat (split; [first [reflexivity|exact Hscore]|]).
    split; [right; left; reflexivity|]. split.
    + right. apply in_or_app. right. apply cache_store_events.
    + apply Hstore. exact Hk.
Qed.

(** X18.  When every prediction of the classifier is an integer class
    code, or a string that is not exactly one of the level names, the
    endpoint of [app.py] answers a request that has no valid cache entry
    with the fallback response: the label [str(prediction)] is refused by
    the response class.  Nothing is stored in the cache; only the expired
    entry of the request, if there is one, is removed. *)
Theorem unmatched_label_falls_back
    (st : App.state) (self : App.ModelService.t)
    (request : StressPredictionRequest) (clk : App.clock) :
  let key := _generate_cache_key (to_model_format request) in
  App.model_loaded st = true ->
  App.model_service st = Some self ->
  (forall m x p,
     App.ModelService.model self = Some m -> clf_predict m x = Some p ->
     (exists z, p = PInt z) \/
     StressLevelEnum.of_string (str_of_prediction p) = None) ->
  (forall entry,
     App.prediction_cache st !! key = Some entry ->
     App.cache_ttl <= App.now_lookup clk - App.timestamp entry) ->
  exists events,
    App.predict_stress float_of_str _generate_cache_key st request clk
    = (App._create_fallback_response,
       with_cache st (delete key (App.prediction_cache st)), events) /\
    (forall k, ~ In (App.CacheStore k) events).
Proof.
  intros key Hml Hms Hlabel Hmiss.
  pose proof (predict_stress_loaded float_of_str _generate_cache_key st self
                request clk Hml Hms) as Hps.
  cbv zeta in Hps. fold key in Hps.
  assert (Hfresh : forall cache,
    App.fresh_prediction float_of_str self cache key
      (to_model_format request) clk
    = (App._create_fallback_response, cache,
       (App.ModelService.predict float_of_str self
          (to_model_format request)).2)).
  { intros cache.
    destruct (fresh_prediction_cases float_of_str self cache key
                (to_model_format request) clk)
      as [H|(pr & r & Hp & Hi & _)]; [exact H|exfalso].
    apply app_predict_inv in Hp
      as (x & m & p & _ & Hm & Hp & _ & Hlvl & _).
    apply StressPredictionResponse_init_inv in Hi as (Hi & _).
    rewrite Hlvl in Hi.
    destruct (Hlabel m x p Hm Hp) as [[z ->]|Hn].
    - rewrite integer_label_unmatched in Hi. discriminate.
    - rewrite Hn in Hi. discriminate. }
  assert (Hev : forall k,
    ~ In (App.CacheStore k)
         (App.ModelService.predict float_of_str self
            (to_model_format request)).2).
  { intros k Hin. apply app_predict_events in Hin as (x & [H|H]);
      discriminate. }
  destruct (App.prediction_cache st !! key) as [entry|] eqn:Hk.
  - specialize (Hmiss entry eq_refl).
    rewrite (proj2 (Z.ltb_ge _ _) Hmiss), Hfresh in Hps. rewrite Hps.
    eexists. split; [reflexivity|].
    intros k [H|[H|H]]; [discriminate|discriminate|exact (Hev k H)].
  - rewrite Hfresh in Hps. rewrite Hps.
    rewrite (delete_id _ _ Hk).
    eexists. split; [reflexivity|].
    intros k [H|H]; [discriminate|exact (Hev k H)].
Qed.

End EndpointBehaviour.

Lemma predict_stress_fresh_witness :
  exists r st' events,
    App.predict_stress no_float_of_str sample_cache_key
      (App.startup_event high_stress_file absent_file) stressed_request
      (clock_at ten_o_clock) = (App.Response r, st', events) /\
    level r = StressLevelEnum.HIGH /\ score r = 75 /\
    confidence r = (7 # 10)%Q.
Proof.
  set (m := constant_classifier (PStr "High")
              (Some [1 # 10; 2 # 10; 7 # 10]%Q)).
  set (st := App.startup_event high_stress_file absent_file).
  assert (H1 : App.model_loaded st = true) by reflexivity.
  assert (H2 : App.model_service st = Some (sample_app_service m))
    by reflexivity.
  assert (H3 : App.ModelService.preprocess_input no_float_of_str
                 (sample_app_service m) (to_model_format stressed_request)
               = Some [45; 0; 4; 2; 0; 12; 6; 1; 14; 3; 1; 0; 4]%Q)
    by (vm_compute; reflexivity).
  assert (H4 : (0 <= 7 # 10)%Q) by (vm_compute; discriminate).
  assert (H5 : (7 # 10 <= 1)%Q) by (vm_compute; discriminate).
  assert (H6 : forall entry,
             App.prediction_cache st
               !! sample_cache_key (to_model_format stressed_request)
             = Some entry ->
             App.cache_ttl
             <= App.now_lookup (clock_at ten_o_clock) - App.timestamp entry).
  { intros entry H. unfold st in H. rewrite startup_event_cache in H.
    rewrite lookup_empty in H. discriminate. }
  destruct (predict_stress_fresh no_float_of_str sample_cache_key st
              (sample_app_service m) m stressed_request
              (clock_at ten_o_clock) _ StressLevelEnum.HIGH (7 # 10)
              H1 H2 eq_refl eq_refl H3 eq_refl eq_refl H4 H5 H6)
    as (r & st' & events & E & Hl & Hs & Hc & _).
  exists r, st', events. auto.
Defined.

Lemma unmatched_label_falls_back_witness :
  let st :=
    {| App.model_loaded := true;
       App.model_service :=
         Some (sample_app_service (constant_classifier (PInt 2) None));
       App.prediction_cache := ∅ |} in
  exists events,
    App.predict_stress no_float_of_str sample_cache_key st sample_request
      (clock_at ten_o_clock)
    = (App._create_fallback_response, st, events).
Proof.
  intros st.
  assert (H1 : forall m x p,
             App.ModelService.model
               (sample_app_service (constant_classifier (PInt 2) None))
             = Some m ->
             clf_predict m x = Some p ->
             (exists z, p = PInt z) \/
             StressLevelEnum.of_string (str_of_prediction p) = None).
  { intros m x p [= <-] [= <-]. left. exists 2. reflexivity. }
  assert (H2 : forall entry,
             App.prediction_cache st
               !! sample_cache_key (to_model_format sample_request)
             = Some entry ->
             App.cache_ttl
             <= App.now_lookup (clock_at ten_o_clock) - App.timestamp entry).
  { intros entry H. unfold st in H. cbn [App.prediction_cache] in H.
    rewrite lookup_empty in H. discriminate. }
  destruct (unmatched_label_falls_back no_float_of_str sample_cache_key st
              (sample_app_service (constant_classifier (PInt 2) None))
              sample_request (clock_at ten_o_clock) eq_refl eq_refl H1 H2)
    as (events & E & _).
  exists events. rewrite E. unfold with_cache, st.
  cbn [App.model_loaded App.model_service App.prediction_cache].
  rewrite delete_empty. reflexivity.
Defined.

(** ** The states of the process *)

Lemma try_model_files_inv (model_files : list App.model_file)
    (svc : App.ModelService.t) :
  App.try_model_files model_files = Some svc ->
  exists f, f ∈ model_files /\ App.file_size f <> 0%nat /\
            App.load_model f = Some svc.
Proof.
  induction model_files as [|f rest IH]; simpl; [discriminate|].
  destruct (Nat.eqb (App.file_size f) 0) eqn:E.
  - intros H. destruct (IH H) as (g & Hg & Hs). exists g.
    split; [right; exact Hg|exact Hs].
  - apply Nat.eqb_neq in E.
    destruct (App.load_model f) as [s|] eqn:El.
    + intros [= <-]. exists f. split; [left|auto].
    + intros H. destruct (IH H) as (g & Hg & Hs). exists g.
      split; [right; exact Hg|exact Hs].
Qed.

Lemma load_model_inv (f : App.model_file) (svc : App.ModelService.t) :
  App.load_model f = Some svc ->
  App.file_exists f = true /\
  exists a,
    App.file_content f = Some a /\
    svc = {| App.ModelService.model := Some (App.a_model a);
             App.ModelService.feature_names := Some (App.a_feature_names a);
             App.ModelService.model_name := Some (App.a_model_name a);
             App.ModelService.model_score := Some (App.a_model_score a);
             App.ModelService.is_loaded := true |}.
Proof.
  unfold App.load_model. destruct (App.file_exists f); [|discriminate].
  destruct (App.file_content f) as [a|]; [|discriminate].
  simpl. intros [= <-]. eauto.
Qed.

(** X19.  At start-up the test model file is preferred: when it exists,
    is not empty and can be loaded, the service is loaded from it; the
    production file is used only when the test file is absent, empty or
    cannot be loaded.  A model is loaded exactly when one of the two files
    is loadable, and the cache starts empty. *)
Theorem startup_event_prefers_test (test production : App.model_file) :
  let st := App.startup_event test production in
  (loadable test ->
   App.model_loaded st = true /\
   App.model_service st = App.load_model test) /\
  (~ loadable test -> loadable production ->
   App.model_loaded st = true /\
   App.model_service st = App.load_model production) /\
  (App.model_loaded st = true <-> loadable test \/ loadable production) /\
  App.prediction_cache st = ∅.
Proof.
  assert (Hcase : forall f,
    (loadable f /\ App.file_exists f = true /\
     Nat.eqb (App.file_size f) 0 = false /\ is_Some (App.load_model f)) \/
    (~ loadable f /\
     (App.file_exists f = false \/ Nat.eqb (App.file_size f) 0 = true \/
      App.load_model f = None))).
  { intros [e s c]. unfold loadable, App.load_model. simpl.
    destruct e; simpl.
    - destruct s as [|s]; simpl.
      + right. split; [intros (_ & H & _); congruence|auto].
      + destruct c as [a|]; simpl.
        * left. repeat split; eauto.
        * right. split; [intros (_ & _ & [? H]); discriminate|auto].
    - right. split; [intros (H & _); discriminate|auto]. }
  assert (Hskip : forall f rest,
    ~ loadable f ->
    App.try_model_files ((if App.file_exists f then [f] else []) ++ rest)
    = App.try_model_files rest).
  { intros f rest Hn. destruct (Hcase f) as [[H _]|[_ H]]; [contradiction|].
    destruct (App.file_exists f) eqn:E; [|reflexivity]. simpl.
    destruct H as [H|[H|H]]; [discriminate| |].
    - rewrite H. reflexivity.
    - rewrite H. destruct (Nat.eqb _ 0); reflexivity. }
  assert (Htake : forall f rest,
    loadable f ->
    App.try_model_files ((if App.file_exists f then [f] else []) ++ rest)
    = App.load_model f /\ is_Some (App.load_model f)).
  { intros f rest Hl.
    destruct (Hcase f) as [(_ & He & Hs & Hm)|[H _]]; [|contradiction].
    rewrite He. simpl. rewrite Hs. destruct Hm as [svc Hm]. rewrite Hm.
    eauto. }
  cbv zeta. unfold App.startup_event.
  split; [|split; [|split]].
  - intros Hl. destruct (Htake test
                  (if App.file_exists production then [production] else [])
                  Hl) as [-> [svc ->]]. auto.
  - intros Hn Hl. rewrite (Hskip test _ Hn).
    destruct (Htake production [] Hl) as [E [svc Hs]].
    rewrite app_nil_r in E. rewrite E, Hs. auto.
  - destruct (Hcase test) as [[Hl _]|[Hn _]].
    + destruct (Htake test
                  (if App.file_exists production then [production] else [])
                  Hl) as [-> [svc ->]]. simpl. tauto.
    + rewrite (Hskip test _ Hn).
      destruct (Hcase production) as [[Hl _]|[Hn' _]].
      * destruct (Htake production [] Hl) as [E [svc Hs]].
        rewrite app_nil_r in E. rewrite E, Hs. simpl. tauto.
      * pose proof (Hskip production [] Hn') as E.
        rewrite app_nil_r in E. rewrite E. simpl.
        split; [discriminate|tauto].
  - destruct (App.try_model_files _); reflexivity.
Qed.

Lemma startup_event_prefers_test_witness :
  App.model_loaded (App.startup_event high_stress_file absent_file) = true /\
  App.model_service (App.startup_event high_stress_file absent_file)
  = App.load_model high_stress_file.
Proof.
  apply (proj1 (startup_event_prefers_test high_stress_file absent_file)).
  unfold loadable. simpl. repeat split; [lia|eauto].
Defined.

Section ReachableStates.

Variable float_of_str : string -> option Q.
Variable _generate_cache_key : gmap string value -> string.

Lemma predict_stress_frame (st : App.state)
    (request : StressPredictionRequest) (clk : App.clock) :
  let st' :=
    (App.predict_stress float_of_str _generate_cache_key st request clk).1.2
  in
  App.model_loaded st' = App.model_loaded st /\
  App.model_service st' = App.model_service st.
Proof.
  unfold App.predict_stress, App.predict_model_input.
  destruct (App.model_loaded st) eqn:E1;
    [destruct (App.model_service st) as [svc|] eqn:E2|].
  - destruct (App.cache_lookup _ _ _) as [[[r|] cache] lev]; simpl; [auto|].
    destruct (App.fresh_prediction _ _ _ _ _ _) as [[res cache'] ev].
    simpl. auto.
  - simpl. auto.
  - simpl. auto.
Qed.

Lemma reachable_invariant (st : App.state) :
  App.reachable float_of_str _generate_cache_key st ->
  (App.model_loaded st = true <-> is_Some (App.model_service st)) /\
  (forall self,
     App.model_service st = Some self ->
     App.ModelService.is_loaded self = true /\
     is_Some (App.ModelService.model self) /\
     is_Some (App.ModelService.feature_names self) /\
     is_Some (App.ModelService.model_name self) /\
     is_Some (App.ModelService.model_score self)) /\
  (App.model_loaded st = false -> App.prediction_cache st = ∅).
Proof.
  intros Hr. split; [|split].
  - induction Hr as [test production|st request clk _ IH].
    + unfold App.startup_event.
      destruct (App.try_model_files _); simpl.
      * split; eauto.
      * split; [discriminate|intros [? ?]; discriminate].
    + destruct (predict_stress_frame st request clk) as [-> ->]. exact IH.
  - induction Hr as [test production|st request clk _ IH].
    + intros self. unfold App.startup_event.
      destruct (App.try_model_files _) as [svc|] eqn:E; simpl;
        [|discriminate].
      intros [= <-]. apply try_model_files_inv in E as (f & _ & _ & E).
      apply load_model_inv in E as (_ & a & _ & ->). simpl.
      repeat split; eauto.
    + destruct (predict_stress_frame st request clk) as [_ ->]. exact IH.
  - induction Hr as [test production|st request clk _ IH].
    + intros _. apply startup_event_cache.
    + destruct (predict_stress_frame st request clk) as [E _].
      rewrite E. intros Hd. specialize (IH Hd).
      unfold App.predict_stress, App.predict_model_input.
      rewrite Hd. simpl. exact IH.
Qed.

(** X20.  In every state the process reaches, the flag [model_loaded] is
    set exactly when there is a model service, that service is loaded and
    has its classifier, feature names, model name and model score, and a
    process without a model has an empty cache; and no request changes
    the flag or the service, whatever the state. *)
Theorem reachable_state_invariant (st : App.state) :
  App.reachable float_of_str _generate_cache_key st ->
  (App.model_loaded st = true <-> is_Some (App.model_service st)) /\
  (forall self,
     App.model_service st = Some self ->
     App.ModelService.is_loaded self = true /\
     is_Some (App.ModelService.model self) /\
     is_Some (App.ModelService.feature_names self) /\
     is_Some (App.ModelService.model_name self) /\
     is_Some (App.ModelService.model_score self)) /\
  (App.model_loaded st = false -> App.prediction_cache st = ∅) /\
  (forall request clk,
     let st' :=
       (App.predict_stress float_of_str _generate_cache_key st request
          clk).1.2 in
     App.model_loaded st' = App.model_loaded st /\
     App.model_service st' = App.model_service st).
Proof.
  intros Hr. destruct (reachable_invariant st Hr) as (H1 & H2 & H3).
  split; [exact H1|]. split; [exact H2|]. split; [exact H3|].
  intros request clk. apply predict_stress_frame.
Qed.

(** X21.  A request touches the cache only at its own key: every entry
    found in the cache after the request either was there before,
    unchanged, or is the entry of the key of the request, holds the
    response just returned and bears the time of the store. *)
Theorem predict_stress_cache_frame (st : App.state)
    (request : StressPredictionRequest) (clk : App.clock) (k : string) :
  let run :=
    App.predict_stress float_of_str _generate_cache_key st request clk in
  match App.prediction_cache run.1.2 !! k with
  | Some entry =>
      App.prediction_cache st !! k = Some entry \/
      (k = _generate_cache_key (to_model_format request) /\
       run.1.1 = App.Response (App.response entry) /\
       App.timestamp entry = App.now_store clk)
  | None => True
  end.
Proof.
  cbv zeta.
  assert (Hfresh : forall self cache,
    (forall e, cache !! k = Some e -> App.prediction_cache st !! k = Some e)
    ->
    let run :=
      App.fresh_prediction float_of_str self cache
        (_generate_cache_key (to_model_format request))
        (to_model_format request) clk in
    match run.1.2 !! k with
    | Some entry =>
        App.prediction_cache st !! k = Some entry \/
        (k = _generate_cache_key (to_model_format request) /\
         run.1.1 = App.Response (App.response entry) /\
         App.timestamp entry = App.now_store clk)
    | None => True
    end).
  { intros self cache Hsub. cbv zeta.
    destruct (fresh_prediction_cases float_of_str self cache
                (_generate_cache_key (to_model_format request))
                (to_model_format request) clk)
      as [H|(pr & r & _ & _ & H)]; rewrite H; cbn [fst snd].
    - destruct (cache !! k) as [e|] eqn:E; [|exact I].
      left. apply Hsub. reflexivity.
    - rewrite cache_store_lookup.
      destruct (decide (k = _generate_cache_key (to_model_format request)))
        as [->|Hne].
      + rewrite lookup_insert_eq. cbn [App.timestamp].
        destruct (_ <? _); [exact I|]. right. auto.
      + rewrite lookup_insert_ne by congruence.
        destruct (cache !! k) as [e|] eqn:E; [|exact I].
        destruct (_ <? _); [exact I|]. left. apply Hsub. reflexivity. }
  unfold App.predict_stress, App.predict_model_input.
  destruct (App.model_loaded st);
    [destruct (App.model_service st) as [self|]|].
  - unfold App.cache_lookup.
    destruct (App.prediction_cache st
                !! _generate_cache_key (to_model_format request))
      as [cached|] eqn:Hc.
    + destruct (App._is_cache_valid _ _).
      * simpl. destruct (App.prediction_cache st !! k); auto.
      * specialize (Hfresh self
                      (delete (_generate_cache_key (to_model_format request))
                         (App.prediction_cache st))).
        cbv zeta in Hfresh.
        destruct (App.fresh_prediction _ _ _ _ _ _) as [[res cache'] ev].
        simpl in *. apply Hfresh.
        intros e He. apply lookup_delete_Some in He. tauto.
    + specialize (Hfresh self (App.prediction_cache st)).
      cbv zeta in Hfresh.
      destruct (App.fresh_prediction _ _ _ _ _ _) as [[res cache'] ev].
      simpl in *. apply Hfresh. auto.
  - simpl. destruct (App.prediction_cache st !! k); auto.
  - simpl. destruct (App.prediction_cache st !! k); auto.
Qed.

End ReachableStates.

Lemma reachable_state_invariant_witness :
  let st0 := App.startup_event high_stress_file absent_file in
  let st1 :=
    (App.predict_stress no_float_of_str sample_cache_key st0 sample_request
       (clock_at ten_o_clock)).1.2 in
  App.model_loaded st1 = true /\ is_Some (App.model_service st1).
Proof.
  intros st0 st1.
  assert (R0 : App.reachable no_float_of_str sample_cache_key st0)
    by apply App.reachable_startup.
  assert (R1 : App.reachable no_float_of_str sample_cache_key st1)
    by (apply App.reachable_request, R0).
  destruct (reachable_state_invariant _ _ st1 R1) as (H1 & _).
  destruct (reachable_state_invariant _ _ st0 R0) as (_ & _ & _ & H4).
  destruct (H4 sample_request (clock_at ten_o_clock)) as [E1 _].
  fold st1 in E1.
  assert (E : App.model_loaded st1 = true) by (rewrite E1; reflexivity).
  split; [exact E|apply H1, E].
Defined.

(** ** The trace of a request *)

Lemma app_predict_events_shape float_of_str (self : App.ModelService.t)
    (input_data : gmap string value) :
  let events := (App.ModelService.predict float_of_str self input_data).2 in
  events = [] \/
  exists x, events = [App.ModelPredict x] \/
            events = [App.ModelPredict x; App.ModelPredictProba x].
Proof.
  unfold App.ModelService.predict.
  destruct (App.ModelService.is_loaded self); simpl; [|auto].
  destruct (App.ModelService.preprocess_input _ _ _) as [x|]; simpl; [|auto].
  destruct (App.ModelService.model self) as [m|]; simpl; [|auto].
  destruct (clf_predict m x) as [p|]; simpl; [|eauto].
  destruct (clf_predict_proba m) as [pp|]; simpl.
  - destruct (pp x ≫= np_max); simpl; eauto.
  - eauto.
Qed.

(** X22.  What a request does, in order: at most one look into the cache
    at the key of the request, followed by the removal of the entry when
    it has expired; then at most one call of [predict] of the classifier,
    followed by at most one call of [predict_proba] on the same row; then
    at most one store at the key of the request, followed only by
    removals.  A store happens only after the classifier was called, and
    the classifier is called only after the cache was looked up. *)
Theorem predict_stress_trace (float_of_str : string -> option Q)
    (_generate_cache_key : gmap string value -> string)
    (st : App.state) (request : StressPredictionRequest) (clk : App.clock) :
  let key := _generate_cache_key (to_model_format request) in
  let events :=
    (App.predict_stress float_of_str _generate_cache_key st request clk).2 in
  exists lookup_events model_events store_events,
    events = lookup_events ++ model_events ++ store_events /\
    (lookup_events = [] \/ lookup_events = [App.CacheLookup key] \/
     lookup_events = [App.CacheLookup key; App.CacheDelete key]) /\
    (model_events = [] \/
     exists x, model_events = [App.ModelPredict x] \/
               model_events = [App.ModelPredict x; App.ModelPredictProba x])
    /\
    (store_events = [] \/
     exists expired,
       store_events = App.CacheStore key :: (App.CacheDelete <$> expired)) /\
    (store_events <> [] -> model_events <> []) /\
    (model_events <> [] -> lookup_events <> []).
Proof.
  cbv zeta.
  set (key := _generate_cache_key (to_model_format request)).
  assert (Hfresh : forall self cache,
    exists model_events store_events,
      (App.fresh_prediction float_of_str self cache key
         (to_model_format request) clk).2
      = model_events ++ store_events /\
      (model_events = [] \/
       exists x, model_events = [App.ModelPredict x] \/
                 model_events = [App.ModelPredict x; App.ModelPredictProba x])
      /\
      (store_events = [] \/
       exists expired,
         store_events = App.CacheStore key :: (App.CacheDelete <$> expired))
      /\
      (store_events <> [] -> model_events <> [])).
  { intros self cache.
    pose proof (app_predict_events_shape float_of_str self
                  (to_model_format request)) as Hs.
    cbv zeta in Hs.
    destruct (fresh_prediction_cases float_of_str self cache key
                (to_model_format request) clk)
      as [H|(pr & r & Hp & _ & H)]; rewrite H; cbn [fst snd].
    - exists (App.ModelService.predict float_of_str self
                (to_model_format request)).2, [].
      rewrite app_nil_r. repeat split; auto.
    - exists (App.ModelService.predict float_of_str self
                (to_model_format request)).2,
             (App.cache_store cache key r clk).2.
      split; [reflexivity|]. split; [exact Hs|]. split.
      + right. unfold App.cache_store. cbn [snd]. eauto.
      + intros _ Hnil.
        apply app_predict_inv in Hp as (x & m & p & Hin).
        do 10 apply proj2 in Hin.
        rewrite Hnil in Hin. inversion Hin. }
  unfold App.predict_stress, App.predict_model_input. fold key.
  destruct (App.model_loaded st);
    [destruct (App.model_service st) as [self|]|].
  - unfold App.cache_lookup.
    destruct (App.prediction_cache st !! key) as [cached|].
    + destruct (App._is_cache_valid _ _).
      * exists [App.CacheLookup key], [], []. simpl.
        repeat split; auto; congruence.
      * destruct (Hfresh self (delete key (App.prediction_cache st)))
          as (me & se & E & Hm & Hs & Hi).
        destruct (App.fresh_prediction _ _ _ _ _ _) as [[res cache'] ev].
        simpl in E. subst ev.
        exists [App.CacheLookup key; App.CacheDelete key], me, se.
        cbn [snd]. repeat split; auto; congruence.
    + destruct (Hfresh self (App.prediction_cache st))
        as (me & se & E & Hm & Hs & Hi).
      destruct (App.fresh_prediction _ _ _ _ _ _) as [[res cache'] ev].
      simpl in E. subst ev.
      exists [App.CacheLookup key], me, se.
      cbn [snd]. repeat split; auto; congruence.
  - exists [], [], []. simpl. repeat split; auto.
  - exists [], [], []. simpl. repeat split; auto.
Qed.

(** ** Insights and the result of the model services *)



Lemma services_insights_length (self : ModelService.t)
    (input_data : gmap string value) (stress_level : string) :
  (1 <= length (ModelService._generate_insights self input_data stress_level)
   <= 6)%nat.
Proof.
  pose (add := fun (b : bool) (x : string) (l : list string) =>
                 if b then l ++ [x] else l).
  pose (key_factor := fun insights : list string =>
    match ModelService._get_feature_importance self with
    | Some ((_ :: _) as fi) =>
        match take 3 (sorted_desc fi) with
        | (top_feature_name, _) :: _ =>
            if bool_decide (is_Some (input_data !! top_feature_name))
            then insights ++
                 ["Your " +:+
                  replace_char "_"%char " "%char (str_lower top_feature_name)
                  +:+ " appears to be a key factor in your stress level"]
            else insights
        | [] => insights
        end
    | _ => insights
    end).
  assert (Hadd : forall b x l,
             (length l <= length (add b x l) <= S (length l))%nat).
  { intros [] x l; unfold add; rewrite ?length_app; simpl; lia. }
  assert (Hkey : forall l,
             (length l <= length (key_factor l) <= S (length l))%nat).
  { intros l. unfold key_factor.
    destruct (ModelService._get_feature_importance self) as [[|e fi]|];
      try lia.
    destruct (take 3 (sorted_desc (e :: fi))) as [|[n w] t]; try lia.
    case_bool_decide; rewrite ?length_app; simpl; lia. }
  assert (E : ModelService.generate_insights_body self input_data stress_level
    = (lt6 ← py_lt (dict_get input_data "Sleep_Duration" (VInt 0)) 6;
       gt9 ← py_gt (dict_get input_data "Sleep_Duration" (VInt 0)) 9;
       gt10 ← py_gt (dict_get input_data "Work_Hours" (VInt 0)) 10;
       lt1 ← py_lt (dict_get input_data "Physical_Activity" (VInt 0)) 1;
       gt8 ← py_gt (dict_get input_data "Screen_Time" (VInt 0)) 8;
       gt3 ← py_gt (dict_get input_data "Caffeine_Intake" (VInt 0)) 3;
       let insights :=
         add gt3 "High caffeine intake might be affecting your stress levels"
           (add gt8
              "High screen time may be contributing to your stress levels"
              (key_factor
                 (add lt1
                    "Increasing physical activity could help reduce stress"
                    (add gt10
                       "Long work hours may be a significant stress factor"
                       (if lt6 : bool
                        then add true
                               "Your sleep duration is below the recommended 7-9 hours"
                               []
                        else add gt9
                               "You're getting plenty of sleep, which is great for stress management"
                               []))))) in
       Some (match insights with
             | [] => ["Your current stress level is " +:+
                      str_lower stress_level]
             | _ => insights
             end))) by reflexivity.
  unfold ModelService._generate_insights. rewrite E. clear E.
  destruct (py_lt _ 6) as [lt6|]; [|simpl; lia].
  destruct (py_gt _ 9) as [gt9|]; [|simpl; lia].
  destruct (py_gt _ 10) as [gt10|]; [|simpl; lia].
  destruct (py_lt _ 1) as [lt1|]; [|simpl; lia].
  destruct (py_gt _ 8) as [gt8|]; [|simpl; lia].
  destruct (py_gt _ 3) as [gt3|]; [|simpl; lia].
  cbn [mbind option_bind]. cbv zeta.
  match goal with
  | |- context [add gt3 ?m6 (add gt8 ?m5 (key_factor (add lt1 ?m4
                  (add gt10 ?m3 ?l0))))] =>
      pose proof (Hadd gt3 m6 (add gt8 m5 (key_factor (add lt1 m4
                    (add gt10 m3 l0))))) as H6;
      pose proof (Hadd gt8 m5 (key_factor (add lt1 m4 (add gt10 m3 l0))))
        as H5;
      pose proof (Hkey (add lt1 m4 (add gt10 m3 l0))) as Hk;
      pose proof (Hadd lt1 m4 (add gt10 m3 l0)) as H4;
      pose proof (Hadd gt10 m3 l0) as H3;
      assert (H1 : (length l0 <= 1)%nat)
        by (destruct lt6, gt9; simpl; lia);
      generalize dependent (add gt3 m6 (add gt8 m5 (key_factor (add lt1 m4
                              (add gt10 m3 l0)))))
  end.
  intros l. intros. destruct l; simpl in *; lia.
Qed.

(** X24.  Every result of [predict] of the stand-alone model service
    carries between one and six insights and between one and four
    recommendations, one of the scores 25, 50 and 75, a confidence, and
    the model name, the model score and the feature importances of the
    service. *)
Theorem services_predict_result (float_of_str : string -> option Q)
    (self : ModelService.t) (input_data : gmap string value)
    (r : ModelService.result) :
  ModelService.predict float_of_str self input_data = Some r ->
  (1 <= length (ModelService.r_insights r) <= 6)%nat /\
  (1 <= length (ModelService.r_recommendations r) <= 4)%nat /\
  (ModelService.r_score r = 25 \/ ModelService.r_score r = 50 \/
   ModelService.r_score r = 75) /\
  ModelService.r_model_name r = ModelService.model_name self /\
  ModelService.r_model_score r = ModelService.model_score self /\
  ModelService.r_feature_importance r
    = ModelService._get_feature_importance self.
Proof.
  intros H.
  pose proof (services_predict_inv _ _ _ _ H)
    as (_ & x & m & p & c & l & _ & _ & _ & _ & _ & _ & Hs & _ & Hi & Hr).
  split; [rewrite Hi; apply services_insights_length|].
  split.
  { rewrite Hr. unfold ModelService._generate_recommendations.
    repeat case_bool_decide; simpl; lia. }
  split.
  { rewrite Hs. unfold ModelService.numerical_score_of.
    repeat case_bool_decide; auto. }
  unfold ModelService.predict in H.
  destruct (negb _); [discriminate|].
  destruct (ModelService.preprocess_input _ _ _); [|discriminate].
  destruct (ModelService.model self); [|discriminate]. simpl in H.
  destruct (clf_predict _ _); [|discriminate]. simpl in H.
  destruct (ModelService.confidence_of _ _); [|discriminate]. simpl in H.
  destruct (ModelService.stress_level_of _); [|discriminate]. simpl in H.
  injection H as <-. auto.
Qed.

Lemma services_predict_result_witness :
  exists r,
    ModelService.predict no_float_of_str (sample_service forest_classifier)
      (to_model_format stressed_request) = Some r /\
    length (ModelService.r_insights r) = 6%nat /\
    ModelService.r_score r = 75.
Proof.
  destruct (ModelService.predict no_float_of_str
              (sample_service forest_classifier)
              (to_model_format stressed_request)) as [r|] eqn:E;
    [|vm_compute in E; discriminate].
  exists r. split; [reflexivity|].
  pose proof (services_predict_result _ _ _ _ E) as (_ & _ & _ & _ & _ & _).
  assert (E' : Some r = ModelService.predict no_float_of_str
                          (sample_service forest_classifier)
                          (to_model_format stressed_request))
    by (symmetry; exact E).
  vm_compute in E'. injection E' as ->. split; reflexivity.
Defined.

(** ** The dictionary handed to the model service *)

(** X25.  [to_model_format] gives a dictionary whose keys are exactly the
    thirteen feature names the model services expect; the integer fields
    are integers in it, the four durations floats, and the enumeration
    fields strings that the encoder knows. *)
Theorem to_model_format_keys (request : StressPredictionRequest) :
  (forall key,
     is_Some (to_model_format request !! key) <-> key ∈ expected_features) /\
  (forall key v,
     to_model_format request !! key = Some v ->
     match categorical_mappings !! key with
     | Some mapping => exists s, v = VStr s /\ is_Some (mapping !! s)
     | None => exists x, num_of v = Some x
     end).
Proof.
  destruct (to_model_format_lookup request) as
    (H1 & H2 & H3 & H4 & H5 & H6 & H7 & H8 & H9 & H10 & H11 & H12 & H13).
  assert (Hout : forall key,
             key ∉ expected_features -> to_model_format request !! key = None).
  { intros key Hk. unfold expected_features in Hk.
    repeat (apply not_elem_of_cons in Hk as [? Hk]).
    unfold to_model_format.
    repeat (rewrite lookup_insert_ne by congruence).
    apply lookup_empty. }
  split.
  - intros key. split.
    + intros [v Hv].
      destruct (decide (key ∈ expected_features)) as [Hk|Hk]; [exact Hk|].
      rewrite (Hout key Hk) in Hv. discriminate.
    + intros Hk. unfold expected_features in Hk.
      repeat (apply elem_of_cons in Hk as [->|Hk]); [..|inversion Hk]; eauto.
  - intros key v Hv.
    destruct (decide (key ∈ expected_features)) as [Hk|Hk];
      [|rewrite (Hout key Hk) in Hv; discriminate].
    unfold expected_features in Hk.
    repeat (apply elem_of_cons in Hk as [->|Hk]); [..|inversion Hk];
      match goal with
      | H : to_model_format request !! ?k = Some _ |- _ =>
          match type of Hv with
          | to_model_format request !! k = _ =>
              rewrite H in Hv; injection Hv as <-
          end
      end;
      try (vm_compute; eexists; reflexivity).
    + destruct (gender request); vm_compute; eauto.
    + destruct (smoking_habit request); vm_compute; eauto.
    + destruct (meditation_practice request); vm_compute; eauto.
    + destruct (exercise_type request); vm_compute; eauto.
Qed.

(** ** The wellness plan of the endpoint *)

(** X26.  [_create_wellness_plan] of [app.py] never fails and does not
    look at the insights it is given: the level Low gets the maintenance
    plan with two tasks, Medium the balanced plan with three, and every
    other label, High or not, the intensive plan with four; the tasks of a
    plan have distinct ids.  The basic plan the endpoint keeps for a
    failure of this function is therefore never used. *)
Theorem app_wellness_plan_by_level (stress_level : string)
    (insights : list string) :
  exists plan,
    (forall insights',
       App._create_wellness_plan stress_level insights' = Some plan) /\
    plan_title plan
    = (if bool_decide (stress_level = "Low")
       then "Maintenance Wellness Plan"
       else if bool_decide (stress_level = "Medium")
       then "Balanced Stress Management Plan"
       else "Intensive Stress Relief Plan") /\
    length (plan_tasks plan)
    = (if bool_decide (stress_level = "Low") then 2
       else if bool_decide (stress_level = "Medium") then 3 else 4)%nat /\
    NoDup (task_id <$> plan_tasks plan) /\
    plan <> App.basic_wellness_plan.
Proof.
  unfold App._create_wellness_plan.
  repeat case_bool_decide; eexists;
    (split; [intros; reflexivity|]); (split; [reflexivity|]);
    (split; [reflexivity|]);
    (split; [simpl; apply NoDup_ListNoDup; repeat constructor; simpl;
             intuition discriminate|discriminate]).
Qed.

(** ** The model service followed by the formatter *)

Lemma format_prediction_response_ok (uuid4_hex8 : nat -> string)
    (prediction_result : ModelService.result)
    (input_data : gmap string value) :
  (0 <= ModelService.r_confidence prediction_result)%Q ->
  (ModelService.r_confidence prediction_result <= 1)%Q ->
  let response :=
    ResponseFormatter.format_prediction_response uuid4_hex8 prediction_result
      input_data in
  level response
  = ResponseFormatter._categorize_stress_level
      (VStr (ModelService.r_level prediction_result)) /\
  score response
  = ResponseFormatter._calculate_numerical_score (level response)
      (ModelService.r_confidence prediction_result) /\
  confidence response = ModelService.r_confidence prediction_result /\
  model_name response = ModelService.r_model_name prediction_result /\
  model_score response = ModelService.r_model_score prediction_result /\
  feature_importance response
  = ModelService.r_feature_importance prediction_result.
Proof.
  intros H0 H1.
  unfold ResponseFormatter.format_prediction_response,
    StressPredictionResponse_init.
  rewrite StressLevelEnum_round_trip. cbn [mbind option_bind].
  pose proof (numerical_score_percent
                (ResponseFormatter._categorize_stress_level
                   (VStr (ModelService.r_level prediction_result)))
                _ H0 H1) as Hs.
  rewrite (proj2 (orb_false_iff _ _)
             (conj (proj2 (Z.ltb_ge _ _) (proj1 Hs))
                   (proj2 (Z.ltb_ge _ _) (proj2 Hs)))).
  rewrite (proj2 (orb_false_iff _ _)
             (conj (proj2 (Qlt_bool_false_iff _ _) H0)
                   (proj2 (Qlt_bool_false_iff _ _) H1))).
  cbv zeta. repeat split.
Qed.

(** X27.  The stand-alone model service followed by the response
    formatter: when [predict] gives a result with a confidence between 0
    and 1, the formatted response is built from it, not the fallback.  Its
    level is Low, Medium or High for the class codes 0, 1 and 2 of the
    classifier, and the category of the label for a classifier that
    answers with a string; its confidence is that of the prediction; its
    score is computed afresh from level and confidence, the fixed score of
    the service being left aside; the model name, the model score and the
    feature importances are those of the service. *)
Theorem formatted_prediction (float_of_str : string -> option Q)
    (uuid4_hex8 : nat -> string) (self : ModelService.t)
    (input_data : gmap string value) (r : ModelService.result) :
  ModelService.predict float_of_str self input_data = Some r ->
  (0 <= ModelService.r_confidence r)%Q ->
  (ModelService.r_confidence r <= 1)%Q ->
  let response :=
    ResponseFormatter.format_prediction_response uuid4_hex8 r input_data in
  exists x m p,
    ModelService.preprocess_input float_of_str self input_data = Some x /\
    ModelService.model self = Some m /\
    clf_predict m x = Some p /\
    match p with
    | PInt c =>
        (c = 0 /\ level response = StressLevelEnum.LOW) \/
        (c = 1 /\ level response = StressLevelEnum.MEDIUM) \/
        (c = 2 /\ level response = StressLevelEnum.HIGH)
    | PStr s =>
        level response = ResponseFormatter._categorize_stress_level (VStr s)
    | POther repr =>
        level response
        = ResponseFormatter._categorize_stress_level (VStr repr)
    end /\
    score response
    = ResponseFormatter._calculate_numerical_score (level response)
        (ModelService.r_confidence r) /\
    confidence response = ModelService.r_confidence r /\
    model_name response = ModelService.model_name self /\
    feature_importance response
    = ModelService._get_feature_importance self.
Proof.
  intros H H0 H1.
  destruct (format_prediction_response_ok uuid4_hex8 r input_data H0 H1)
    as (Hl & Hs & Hc & Hn & _ & Hf).
  pose proof (services_predict_inv _ _ _ _ H)
    as (_ & x & m & p & c & l & Hx & Hm & Hp & _ & Hlvl & Hrl & _).
  assert (Hmeta : ModelService.r_model_name r = ModelService.model_name self
                  /\ ModelService.r_feature_importance r
                     = ModelService._get_feature_importance self).
  { unfold ModelService.predict in H.
    destruct (negb _); [discriminate|].
    destruct (ModelService.preprocess_input _ _ _); [|discriminate].
    destruct (ModelService.model self); [|discriminate]. simpl in H.
    destruct (clf_predict _ _); [|discriminate]. simpl in H.
    destruct (ModelService.confidence_of _ _); [|discriminate]. simpl in H.
    destruct (ModelService.stress_level_of _); [|discriminate]. simpl in H.
    injection H as <-. auto. }
  cbv zeta. exists x, m, p.
  split; [exact Hx|]. split; [exact Hm|]. split; [exact Hp|].
  split.
  - cbv zeta in Hl. rewrite Hl, Hrl.
    destruct p as [z|s|repr];
      unfold ModelService.stress_level_of, is_integer, str_of_prediction
        in Hlvl.
    + rewrite reverse_stress_mappings_lookup in Hlvl.
      destruct (z =? 0) eqn:E0; [injection Hlvl as <-|].
      { left. split; [lia|reflexivity]. }
      destruct (z =? 1) eqn:E1; [injection Hlvl as <-|].
      { right. left. split; [lia|reflexivity]. }
      destruct (z =? 2) eqn:E2; [injection Hlvl as <-|discriminate].
      right. right. split; [lia|reflexivity].
    + injection Hlvl as <-. reflexivity.
    + injection Hlvl as <-. reflexivity.
  - split; [exact Hs|]. split; [exact Hc|].
    destruct Hmeta as [<- <-]. split; [exact Hn|exact Hf].
Qed.

Lemma formatted_prediction_witness :
  exists r,
    ModelService.predict no_float_of_str
      (sample_service (constant_classifier (PInt 2) (Some [1 # 10; 9 # 10]%Q)))
      (to_model_format stressed_request) = Some r /\
    level (ResponseFormatter.format_prediction_response (fun _ => "0a1b2c3d")
             r (to_model_format stressed_request)) = StressLevelEnum.HIGH.
Proof.
  set (self := sample_service
                 (constant_classifier (PInt 2) (Some [1 # 10; 9 # 10]%Q))).
  set (p := ModelService.predict no_float_of_str self
              (to_model_format stressed_request)).
  assert (Hc : ModelService.r_confidence <$> p = Some (9 # 10)%Q)
    by (vm_compute; reflexivity).
  destruct p as [r|] eqn:E; [|discriminate].
  simpl in Hc. injection Hc as Hc.
  exists r. split; [reflexivity|].
  assert (H0 : (0 <= ModelService.r_confidence r)%Q)
    by (rewrite Hc; vm_compute; discriminate).
  assert (H1 : (ModelService.r_confidence r <= 1)%Q)
    by (rewrite Hc; vm_compute; discriminate).
  destruct (formatted_prediction no_float_of_str (fun _ => "0a1b2c3d") self
              (to_model_format stressed_request) r E H0 H1)
    as (x & m & q & Hx & Hm & Hp & Hl & _).
  assert (Hm' : m = constant_classifier (PInt 2) (Some [1 # 10; 9 # 10]%Q))
    by (unfold self in Hm; simpl in Hm; congruence).
  subst m. simpl in Hp. injection Hp as <-.
  destruct Hl as [[Hz _]|[[Hz _]|[_ Hl]]]; [discriminate|discriminate|].
  exact Hl.
Defined.

(** ** Monitoring *)

(** X28.  [health_check] reports the status healthy exactly when the
    model file exists, a model service is there and loaded, and the cache
    holds at most 1000 entries; otherwise the status is degraded and the
    warnings name, in this order, the missing file, the service that is
    not ready and the large cache.  The reported size of a missing file
    is 0 and the time to live of the cache is reported as 5 minutes. *)
Theorem health_check_status (st : App.state) (f : App.model_file) :
  let h := App.health_check st f in
  let ready :=
    exists svc, App.model_service st = Some svc /\
                App.ModelService.is_loaded svc = true in
  (App.hs_status h = "healthy" <->
   App.file_exists f = true /\ ready /\
   (size (App.prediction_cache st) <= 1000)%nat) /\
  (App.hs_status h = "healthy" /\ App.hs_warnings h = [] \/
   App.hs_status h = "degraded" /\ App.hs_warnings h <> []) /\
  App.hs_warnings h `sublist_of`
    [ "ML model file not found"; "ML model service not ready";
      "Prediction cache is large" ] /\
  ("ML model file not found" ∈ App.hs_warnings h <->
   App.file_exists f = false) /\
  ("ML model service not ready" ∈ App.hs_warnings h <-> ~ ready) /\
  ("Prediction cache is large" ∈ App.hs_warnings h <->
   (1000 < size (App.prediction_cache st))%nat) /\
  (App.file_exists f = false ->
   App.hm_file_size_bytes (App.hs_model h) = 0%nat) /\
  App.hs_cache_ttl_minutes h = 5.
Proof.
  cbv zeta. unfold App.health_check. cbv zeta.
  cbn [App.hs_status App.hs_warnings App.hs_model App.hm_file_size_bytes
       App.hs_cache_ttl_minutes].
  assert (Hready :
    (exists svc, App.model_service st = Some svc /\
                 App.ModelService.is_loaded svc = true) <->
    match App.model_service st with
    | Some svc => App.ModelService.is_loaded svc
    | None => false
    end = true).
  { destruct (App.model_service st) as [svc|].
    - split; [intros (s & [= <-] & H); exact H|eauto].
    - split; [intros (s & [=] & _)|discriminate]. }
  rewrite Hready.
  destruct (App.file_exists f);
    destruct (match App.model_service st with
              | Some svc => App.ModelService.is_loaded svc
              | None => false
              end);
    destruct (1000 <? size (App.prediction_cache st))%nat eqn:E;
    [apply Nat.ltb_lt in E|apply Nat.ltb_ge in E
    |apply Nat.ltb_lt in E|apply Nat.ltb_ge in E
    |apply Nat.ltb_lt in E|apply Nat.ltb_ge in E
    |apply Nat.ltb_lt in E|apply Nat.ltb_ge in E];
    simpl;
    repeat match goal with
    | |- _ /\ _ => split
    | |- _ <-> _ => split
    end;
    try reflexivity; try discriminate; try tauto; try lia;
    try (intros; exfalso; lia);
    try (intros; repeat split; auto; lia);
    try (intros H; repeat (apply elem_of_cons in H as [H|H];
                           [try discriminate|]); try inversion H; fail);
    try (intros; repeat first [left; reflexivity|right]; fail);
    try (left; split; [reflexivity|reflexivity]; fail);
    try (right; split; [reflexivity|discriminate]; fail);
    try (repeat first [apply sublist_nil_l | apply sublist_skip
                      | apply sublist_cons]; fail).
Qed.

Section Monitoring.

Variable float_of_str : string -> option Q.
Variable _generate_cache_key : gmap string value -> string.

(** X29.  In every state the process reaches, the two flags of the
    health status agree: [loaded] is set exactly when the service is
    ready.  With a model, the name, the score and the number of features
    of the model are reported; without one, the status is degraded with
    the warning that the service is not ready, the cache is reported
    empty and no model detail is given. *)
Theorem health_check_reachable (st : App.state) (f : App.model_file) :
  App.reachable float_of_str _generate_cache_key st ->
  let h := App.health_check st f in
  App.hm_loaded (App.hs_model h) = App.hm_service_ready (App.hs_model h) /\
  (App.hm_loaded (App.hs_model h) = true ->
   exists svc names name model_score,
     App.model_service st = Some svc /\
     App.ModelService.feature_names svc = Some names /\
     App.hm_details (App.hs_model h)
     = Some (Some name, Some model_score, Some (length names))) /\
  (App.hm_loaded (App.hs_model h) = false ->
   App.hs_status h = "degraded" /\
   "ML model service not ready" ∈ App.hs_warnings h /\
   App.hs_cache_entries h = 0%nat /\
   App.hm_details (App.hs_model h) = None).
Proof.
  intros Hr.
  destruct (reachable_invariant float_of_str _generate_cache_key st Hr)
    as (H1 & H2 & H3).
  cbv zeta. unfold App.health_check. cbv zeta.
  cbn [App.hs_status App.hs_warnings App.hs_model App.hm_loaded
       App.hm_service_ready App.hm_details App.hs_cache_entries].
  destruct (App.model_service st) as [svc|] eqn:Hs.
  - destruct (H2 svc eq_refl)
      as (Hl & _ & [names Hn] & [name Hname] & [sc Hsc]).
    assert (Hml : App.model_loaded st = true) by (apply H1; eauto).
    rewrite Hml, Hl. split; [reflexivity|]. split; [|discriminate].
    intros _. exists svc, names, name, sc.
    split; [reflexivity|]. split; [exact Hn|].
    unfold App.get_model_info. rewrite Hl, Hn, Hname, Hsc. reflexivity.
  - assert (Hml : App.model_loaded st = false).
    { destruct (App.model_loaded st) eqn:E; [|reflexivity].
      destruct (proj1 H1 eq_refl) as [? ?]. discriminate. }
    rewrite Hml. split; [reflexivity|]. split; [discriminate|].
    intros _. rewrite (H3 Hml).
    destruct (App.file_exists f); simpl;
      (split; [reflexivity|]); (split; [|split; reflexivity]).
    + left.
    + right. left.
Qed.

End Monitoring.

Lemma health_check_reachable_witness :
  let st := App.startup_event high_stress_file absent_file in
  let h := App.health_check st high_stress_file in
  App.hm_loaded (App.hs_model h) = App.hm_service_ready (App.hs_model h) /\
  App.hs_status h = "healthy".
Proof.
  intros st h.
  assert (R : App.reachable no_float_of_str sample_cache_key st)
    by apply App.reachable_startup.
  destruct (health_check_reachable no_float_of_str sample_cache_key st
              high_stress_file R) as (H & _).
  split; [exact H|reflexivity].
Defined.
